(** * Antigravity API proxy: account pool, proxy pipeline and protocol bridge

    A shallow embedding of the Go implementation (packages [models],
    [storage], [oauth] and [server]) together with the properties the
    specification states about it.

    Conventions of the embedding:
    - Go's [int] and [int64] are 64-bit two's-complement integers, modelled
      as [Z] with the wrap-around written out ([go.wrap64]).
    - A Go [string] is a sequence of bytes, modelled as Stdlib's [string].
    - A nil-able pointer field is an [option]; a method with a pointer
      receiver returns the updated struct.
    - [time.Now()] is an explicit argument: nanoseconds since the Unix epoch.
    - A runtime panic is the outcome [Panic]; an [error] return is [Err]. *)

From Stdlib Require Import ZArith Lia Bool String Ascii List.
From stdpp Require Import base option list gmap strings sorting pretty.

Local Open Scope string_scope.
Local Open Scope Z_scope.

(** ** Go integers *)

Module go.

Definition wrap64 (z : Z) : Z := (z + 2 ^ 63) `mod` 2 ^ 64 - 2 ^ 63.

Definition in_int64 (z : Z) : Prop := - 2 ^ 63 <= z < 2 ^ 63.

(** [x << n] on [int64]: panics on a negative count, gives 0 once every bit
    is shifted out. *)
Definition shl64 (x n : Z) : option Z :=
  if n <? 0 then None
  else Some (if 64 <=? n then 0 else wrap64 (Z.shiftl x n)).

(** Outcome of a call: a value, a returned [error], or a runtime panic. *)
Inductive outcome (E A : Type) : Type :=
| Ret (a : A)
| Err (e : E)
| Panic (msg : string).
Arguments Ret {E A} a.
Arguments Err {E A} e.
Arguments Panic {E A} msg.

End go.

(** ** package time *)

Module time.

(** An instant: nanoseconds since the Unix epoch. *)
Definition Time : Type := Z.

Definition Second : Z := 1000000000.
Definition Minute : Z := 60 * Second.

Definition Unix (t : Time) : Z := t `div` 1000000000.
Definition UnixMilli (t : Time) : Z := t `div` 1000000.

End time.

(** ** package models: accounts *)

Module Model.
Record t : Type := mk { ID : string; Object : string; OwnedBy : string }.
End Model.

Module UsageStats.
Record t : Type := mk {
  TotalTokens : Z;
  InputTokens : Z;
  OutputTokens : Z;
  RequestCount : Z;
  LastUsed : option Z
}.
Definition zero : t := mk 0 0 0 0 None.
End UsageStats.

Module ErrorTracking.
Record t : Type := mk {
  ConsecutiveFailures : Z;
  LastError : string;
  LastErrorTime : option Z;
  FailedUntil : option Z;
  RateLimitCount : Z;
  RateLimitBackoff : Z;
  IsPermissionDenied : bool
}.
Definition zero : t := mk 0 "" None None 0 0 false.
End ErrorTracking.

Module Account.

Record t : Type := mk {
  AccountID : string;
  Email : string;
  Name : string;
  AccessToken : string;
  RefreshToken : string;
  ExpiresIn : Z;
  Timestamp : Z;
  Enable : bool;
  Models : gmap string Model.t;
  LastRefresh : Z;
  RefreshStatus : string;
  Usage : option UsageStats.t;
  ErrorTracking : option ErrorTracking.t
}.

(** Field assignments. *)
Definition set_AccessToken (v : string) (a : t) : t :=
  mk (AccountID a) (Email a) (Name a) v (RefreshToken a) (ExpiresIn a)
     (Timestamp a) (Enable a) (Models a) (LastRefresh a) (RefreshStatus a)
     (Usage a) (ErrorTracking a).
Definition set_RefreshToken (v : string) (a : t) : t :=
  mk (AccountID a) (Email a) (Name a) (AccessToken a) v (ExpiresIn a)
     (Timestamp a) (Enable a) (Models a) (LastRefresh a) (RefreshStatus a)
     (Usage a) (ErrorTracking a).
Definition set_ExpiresIn (v : Z) (a : t) : t :=
  mk (AccountID a) (Email a) (Name a) (AccessToken a) (RefreshToken a) v
     (Timestamp a) (Enable a) (Models a) (LastRefresh a) (RefreshStatus a)
     (Usage a) (ErrorTracking a).
Definition set_Timestamp (v : Z) (a : t) : t :=
  mk (AccountID a) (Email a) (Name a) (AccessToken a) (RefreshToken a)
     (ExpiresIn a) v (Enable a) (Models a) (LastRefresh a) (RefreshStatus a)
     (Usage a) (ErrorTracking a).
Definition set_Enable (v : bool) (a : t) : t :=
  mk (AccountID a) (Email a) (Name a) (AccessToken a) (RefreshToken a)
     (ExpiresIn a) (Timestamp a) v (Models a) (LastRefresh a) (RefreshStatus a)
     (Usage a) (ErrorTracking a).
Definition set_Models (v : gmap string Model.t) (a : t) : t :=
  mk (AccountID a) (Email a) (Name a) (AccessToken a) (RefreshToken a)
     (ExpiresIn a) (Timestamp a) (Enable a) v (LastRefresh a) (RefreshStatus a)
     (Usage a) (ErrorTracking a).
Definition set_LastRefresh (v : Z) (a : t) : t :=
  mk (AccountID a) (Email a) (Name a) (AccessToken a) (RefreshToken a)
     (ExpiresIn a) (Timestamp a) (Enable a) (Models a) v (RefreshStatus a)
     (Usage a) (ErrorTracking a).
Definition set_RefreshStatus (v : string) (a : t) : t :=
  mk (AccountID a) (Email a) (Name a) (AccessToken a) (RefreshToken a)
     (ExpiresIn a) (Timestamp a) (Enable a) (Models a) (LastRefresh a) v
     (Usage a) (ErrorTracking a).
Definition set_Usage (v : option UsageStats.t) (a : t) : t :=
  mk (AccountID a) (Email a) (Name a) (AccessToken a) (RefreshToken a)
     (ExpiresIn a) (Timestamp a) (Enable a) (Models a) (LastRefresh a)
     (RefreshStatus a) v (ErrorTracking a).
Definition set_ErrorTracking (v : option ErrorTracking.t) (a : t) : t :=
  mk (AccountID a) (Email a) (Name a) (AccessToken a) (RefreshToken a)
     (ExpiresIn a) (Timestamp a) (Enable a) (Models a) (LastRefresh a)
     (RefreshStatus a) (Usage a) v.

(** [if a.ErrorTracking == nil { a.ErrorTracking = &ErrorTracking{} }] *)
Definition tracking (a : t) : ErrorTracking.t :=
  default ErrorTracking.zero (ErrorTracking a).

(** [if a.Usage == nil { a.Usage = &UsageStats{} }] *)
Definition usage (a : t) : UsageStats.t :=
  default UsageStats.zero (Usage a).

(** IsInCooldown checks if account is in error cooldown. *)
Definition IsInCooldown (now : time.Time) (a : t) : bool :=
  match ErrorTracking a with
  | None => false
  | Some et =>
      match ErrorTracking.FailedUntil et with
      | None => false
      | Some failedUntil => time.Unix now <? failedUntil
      end
  end.

(** [time.Unix(a.Timestamp/1000, 0).Add(time.Duration(a.ExpiresIn) * time.Second)],
    as nanoseconds since the epoch.  The [Duration] product wraps in
    [int64]; [/] truncates toward zero. *)
Definition expiryTime (a : t) : time.Time :=
  (Timestamp a ÷ 1000) * time.Second + go.wrap64 (ExpiresIn a * time.Second).

(** [t.Sub(u)] saturates at the extreme [Duration] values. *)
Definition sub_sat (t u : time.Time) : Z :=
  Z.max (- 2 ^ 63) (Z.min (2 ^ 63 - 1) (t - u)).

(** IsExpired checks if the access token is expired. *)
Definition IsExpired (now : time.Time) (a : t) : bool :=
  if (Timestamp a =? 0) || (ExpiresIn a =? 0) then true
  else expiryTime a <? now.

(** NeedsRefresh checks if account needs token refresh. *)
Definition NeedsRefresh (now : time.Time) (a : t) : bool :=
  if negb (Enable a) || IsInCooldown now a then false
  else if (Timestamp a =? 0) || (ExpiresIn a =? 0) then true
  else sub_sat (expiryTime a) now <? 30 * time.Minute.

(** RecordSuccess updates account status on successful operation. *)
Definition RecordSuccess (now : time.Time) (a : t) : t :=
  let et := tracking a in
  set_ErrorTracking
    (Some (ErrorTracking.mk 0 "" None None 0 0
             (ErrorTracking.IsPermissionDenied et)))
    (set_LastRefresh (time.UnixMilli now) (set_RefreshStatus "success" a)).

(** RecordFailure updates account status on failed operation.
    Cooldown: [int64(1 << failures)] seconds, capped at 3600. *)
Definition RecordFailure (now : time.Time) (err : string) (a : t)
  : go.outcome Empty_set t :=
  let et := tracking a in
  let failures := go.wrap64 (ErrorTracking.ConsecutiveFailures et + 1) in
  let now_s := time.Unix now in
  match go.shl64 1 failures with
  | None => go.Panic "runtime error: negative shift amount"
  | Some shifted =>
      let cooldownSeconds := if shifted >? 3600 then 3600 else shifted in
      let failedUntil := go.wrap64 (now_s + cooldownSeconds) in
      go.Ret
        (set_ErrorTracking
           (Some (ErrorTracking.mk failures err (Some now_s) (Some failedUntil)
                    (ErrorTracking.RateLimitCount et)
                    (ErrorTracking.RateLimitBackoff et)
                    (ErrorTracking.IsPermissionDenied et)))
           (set_RefreshStatus "failed" a))
  end.

(** RecordRateLimit handles 429 rate limit errors with adaptive backoff:
    start at 120s, double each time, at most 1800s. *)
Definition RecordRateLimit (now : time.Time) (a : t) : t :=
  let et := tracking a in
  let now_s := time.Unix now in
  let backoff0 :=
    if ErrorTracking.RateLimitBackoff et >? 0
    then go.wrap64 (ErrorTracking.RateLimitBackoff et * 2)
    else 120 in
  let backoffSeconds := if backoff0 >? 1800 then 1800 else backoff0 in
  let failedUntil := go.wrap64 (now_s + backoffSeconds) in
  set_ErrorTracking
    (Some (ErrorTracking.mk
             (ErrorTracking.ConsecutiveFailures et)
             "HTTP 429: Rate Limit Exceeded"
             (Some now_s) (Some failedUntil)
             (go.wrap64 (ErrorTracking.RateLimitCount et + 1))
             backoffSeconds
             (ErrorTracking.IsPermissionDenied et)))
    (set_RefreshStatus "rate_limited" a).

(** RecordPermissionDenied handles 403 permission denied errors. *)
Definition RecordPermissionDenied (now : time.Time) (a : t) : t :=
  let a1 := set_Enable false (set_RefreshStatus "permission_denied" a) in
  let et := tracking a1 in
  set_ErrorTracking
    (Some (ErrorTracking.mk
             (ErrorTracking.ConsecutiveFailures et)
             "HTTP 403: Permission Denied - Account does not have required entitlements"
             (Some (time.Unix now))
             (ErrorTracking.FailedUntil et)
             (ErrorTracking.RateLimitCount et)
             (ErrorTracking.RateLimitBackoff et)
             true))
    a1.

(** RecordUsage updates usage statistics. *)
Definition RecordUsage (now : time.Time) (inputTokens outputTokens : Z) (a : t) : t :=
  let u := usage a in
  set_Usage
    (Some (UsageStats.mk
             (go.wrap64 (UsageStats.TotalTokens u + go.wrap64 (inputTokens + outputTokens)))
             (go.wrap64 (UsageStats.InputTokens u + inputTokens))
             (go.wrap64 (UsageStats.OutputTokens u + outputTokens))
             (go.wrap64 (UsageStats.RequestCount u + 1))
             (Some (time.UnixMilli now))))
    a.

End Account.

(** ** package strings *)

Module strings.

Definition len (s : string) : nat := String.length s.

(** The slice expression [s[i:j]]. *)
Definition slice (i j : nat) (s : string) : string := String.substring i (j - i) s.

(** [s[i:]] *)
Definition from (i : nat) (s : string) : string := slice i (len s) s.

Definition HasPrefix (s prefix : string) : bool := String.prefix prefix s.

Definition HasSuffix (s suffix : string) : bool :=
  (len suffix <=? len s)%nat && String.eqb (from (len s - len suffix) s) suffix.

Definition TrimPrefix (s prefix : string) : string :=
  if HasPrefix s prefix then from (len prefix) s else s.

Definition TrimSuffix (s suffix : string) : string :=
  if HasSuffix s suffix then slice 0 (len s - len suffix) s else s.

(** Index of the first instance of [substr] in [s]; [None] stands for -1. *)
Definition Index (s substr : string) : option nat := String.index 0 substr s.

(** [Split(s, sep)] for a non-empty separator (the only use in this code
    base); every round consumes at least one byte, so [len s] rounds do. *)
Fixpoint split_rounds (rounds : nat) (s sep : string) : list string :=
  match rounds with
  | O => [s]
  | S rounds' =>
      match Index s sep with
      | None => [s]
      | Some i => slice 0 i s :: split_rounds rounds' (from (i + len sep) s) sep
      end
  end.

Definition Split (s sep : string) : list string := split_rounds (len s) s sep.

(** [Replace(s, old, new, 1)]: the first instance of [old] is replaced. *)
Definition ReplaceFirst (s old new : string) : string :=
  if String.eqb old new then s
  else match Index s old with
       | None => s
       | Some j => slice 0 j s +:+ new +:+ from (j + len old) s
       end.

Definition byte (c : ascii) : Z := Z.of_N (N_of_ascii c).

(** ['\t', '\n', '\v', '\f', '\r', ' '] *)
Definition asciiSpace (b : Z) : bool := ((9 <=? b) && (b <=? 13)) || (b =? 32).

(** UTF-8 encodings of the non-ASCII runes with [unicode.IsSpace]:
    U+0085, U+00A0 (two bytes); U+1680, U+2000..U+200A, U+2028, U+2029,
    U+202F, U+205F, U+3000 (three bytes). *)
Definition space2 (b1 b2 : Z) : bool :=
  (b1 =? 194) && ((b2 =? 133) || (b2 =? 160)).

Definition space3 (b1 b2 b3 : Z) : bool :=
  ((b1 =? 225) && (b2 =? 154) && (b3 =? 128))
  || ((b1 =? 226) && (b2 =? 128)
      && (((128 <=? b3) && (b3 <=? 138)) || (b3 =? 168) || (b3 =? 169) || (b3 =? 175)))
  || ((b1 =? 226) && (b2 =? 129) && (b3 =? 159))
  || ((b1 =? 227) && (b2 =? 128) && (b3 =? 128)).

(** Width in bytes of the white-space rune [s] starts with; 0 if it starts
    with none. *)
Definition leadingSpace (s : string) : nat :=
  match s with
  | String c1 (String c2 (String c3 _)) =>
      if asciiSpace (byte c1) then 1
      else if space2 (byte c1) (byte c2) then 2
      else if space3 (byte c1) (byte c2) (byte c3) then 3 else 0
  | String c1 (String c2 EmptyString) =>
      if asciiSpace (byte c1) then 1
      else if space2 (byte c1) (byte c2) then 2 else 0
  | String c1 EmptyString => if asciiSpace (byte c1) then 1 else 0
  | EmptyString => 0
  end%nat.

(** The same, reading a reversed string: width of the white-space rune the
    original string ends with. *)
Definition trailingSpace (r : string) : nat :=
  match r with
  | String c1 (String c2 (String c3 _)) =>
      if asciiSpace (byte c1) then 1
      else if space2 (byte c2) (byte c1) then 2
      else if space3 (byte c3) (byte c2) (byte c1) then 3 else 0
  | String c1 (String c2 EmptyString) =>
      if asciiSpace (byte c1) then 1
      else if space2 (byte c2) (byte c1) then 2 else 0
  | String c1 EmptyString => if asciiSpace (byte c1) then 1 else 0
  | EmptyString => 0
  end%nat.

Fixpoint trim_rounds (width : string -> nat) (rounds : nat) (s : string) : string :=
  match rounds with
  | O => s
  | S rounds' =>
      match width s with
      | O => s
      | S w => trim_rounds width rounds' (from (S w) s)
      end
  end.

Definition reverse (s : string) : string :=
  string_of_list_ascii (List.rev (list_ascii_of_string s)).

Definition TrimLeftSpace (s : string) : string := trim_rounds leadingSpace (len s) s.

Definition TrimRightSpace (s : string) : string :=
  reverse (trim_rounds trailingSpace (len s) (reverse s)).

(** TrimSpace returns [s] with all leading and trailing white space removed,
    as defined by Unicode. *)
Definition TrimSpace (s : string) : string := TrimRightSpace (TrimLeftSpace s).

(** Contains reports whether [substr] is within [s]. *)
Definition Contains (s substr : string) : bool :=
  match Index s substr with Some _ => true | None => false end.

(** [ReplaceAll(s, old, new)] for one-byte [old] and [new]. *)
Fixpoint ReplaceAllByte (s : string) (old new : ascii) : string :=
  match s with
  | EmptyString => EmptyString
  | String c s' => String (if Ascii.eqb c old then new else c) (ReplaceAllByte s' old new)
  end.

End strings.

(** ** package models: wire formats *)

(** A [float64] is only copied and compared with 0 here; it is kept as its
    IEEE-754 bit pattern. *)
Definition float64 : Type := Z.

(** [f != 0]: false exactly for +0 and -0. *)
Definition float64_nonzero (f : float64) : bool :=
  negb ((f =? 0) || (f =? 2 ^ 63)).

(** A decoded [interface{}] value: what [encoding/json] stores for arbitrary
    JSON. *)
#[warnings="-register-all"] Inductive JSON : Type :=
| JNull
| JBool (b : bool)
| JNumber (f : float64)
| JString (s : string)
| JArray (items : list JSON)
| JObject (fields : gmap string JSON).

(** [v.(string)] *)
Definition as_string (v : option JSON) : option string :=
  match v with Some (JString s) => Some s | _ => None end.

(** [v.(map[string]interface{})] *)
Definition as_object (v : option JSON) : option (gmap string JSON) :=
  match v with Some (JObject m) => Some m | _ => None end.

Module Function.
Record t : Type := mk { Name : string; Description : string; Parameters : JSON }.
End Function.

Module Tool.
Record t : Type := mk { Type_ : string; Function : Function.t }.
End Tool.

Module ToolCall.
Record t : Type := mk { ID : string; Type_ : string; Function : Function.t }.
End ToolCall.

Module ChatCompletionMessage.
Record t : Type := mk {
  Role : string;
  Content : JSON;
  Reasoning : string;
  Name : string;
  ToolCalls : list ToolCall.t;
  ToolCallID : string
}.
End ChatCompletionMessage.

Module ChatCompletionRequest.
Record t : Type := mk {
  Model : string;
  Messages : list ChatCompletionMessage.t;
  Stream : bool;
  MaxTokens : Z;
  Temperature : float64;
  TopP : float64;
  TopK : Z;
  Tools : list Tool.t;
  ToolChoice : JSON;
  FrequencyPenalty : float64;
  PresencePenalty : float64
}.
End ChatCompletionRequest.

Module Usage.
Record t : Type := mk { PromptTokens : Z; CompletionTokens : Z; TotalTokens : Z }.
End Usage.

Module ChatCompletionChoice.
Record t : Type := mk {
  Index : Z;
  Message : ChatCompletionMessage.t;
  FinishReason : string
}.
End ChatCompletionChoice.

Module ChatCompletionResponse.
Record t : Type := mk {
  ID : string;
  Object : string;
  Created : Z;
  Model : string;
  Choices : list ChatCompletionChoice.t;
  Usage : option Usage.t;
  SystemFingerprint : string
}.
End ChatCompletionResponse.

Module ChatCompletionDelta.
Record t : Type := mk {
  Role : string;
  Content : string;
  Reasoning : string;
  ToolCalls : list ToolCall.t
}.
End ChatCompletionDelta.

Module ChatCompletionChunkChoice.
Record t : Type := mk {
  Index : Z;
  Delta : ChatCompletionDelta.t;
  FinishReason : option string
}.
End ChatCompletionChunkChoice.

Module ChatCompletionChunk.
Record t : Type := mk {
  ID : string;
  Object : string;
  Created : Z;
  Model : string;
  SystemFingerprint : string;
  Choices : list ChatCompletionChunkChoice.t
}.
End ChatCompletionChunk.

Module GoogleInlineData.
Record t : Type := mk { MimeType : string; Data : string }.
End GoogleInlineData.

Module GoogleFunctionCall.
Record t : Type := mk { ID : string; Name : string; Args : gmap string JSON }.
End GoogleFunctionCall.

Module GoogleFunctionResponse.
Record t : Type := mk { ID : string; Name : string; Response : gmap string JSON }.
End GoogleFunctionResponse.

Module GooglePart.
Record t : Type := mk {
  Text : string;
  InlineData : option GoogleInlineData.t;
  FunctionCall : option GoogleFunctionCall.t;
  FunctionResponse : option GoogleFunctionResponse.t;
  Thought : bool
}.
(** [GooglePart{Text: text}] *)
Definition text (s : string) : t := mk s None None None false.
(** [GooglePart{InlineData: d}] *)
Definition inlineData (d : GoogleInlineData.t) : t := mk "" (Some d) None None false.
End GooglePart.

Module GoogleContent.
Record t : Type := mk { Role : string; Parts : list GooglePart.t }.
End GoogleContent.

Module GoogleThinkingConfig.
Record t : Type := mk {
  IncludeThoughts : bool;
  ThinkingBudget : option Z;
  ThinkingLevel : string
}.
End GoogleThinkingConfig.

Module GoogleGenerationConfig.
Record t : Type := mk {
  TopP : option float64;
  TopK : option Z;
  Temperature : option float64;
  CandidateCount : Z;
  MaxOutputTokens : option Z;
  StopSequences : list string;
  ThinkingConfig : option GoogleThinkingConfig.t
}.
End GoogleGenerationConfig.

Module GoogleSystemInstruction.
Record t : Type := mk { Role : string; Parts : list GooglePart.t }.
End GoogleSystemInstruction.

Module GoogleFunctionDeclaration.
Record t : Type := mk { Name : string; Description : string; Parameters : JSON }.
End GoogleFunctionDeclaration.

Module GoogleTool.
Record t : Type := mk { FunctionDeclarations : list GoogleFunctionDeclaration.t }.
End GoogleTool.

Module GoogleFunctionCallingConfig.
Record t : Type := mk { Mode : string }.
End GoogleFunctionCallingConfig.

Module GoogleToolConfig.
Record t : Type := mk { FunctionCallingConfig : GoogleFunctionCallingConfig.t }.
End GoogleToolConfig.

Module GoogleInner.
Record t : Type := mk {
  Contents : list GoogleContent.t;
  GenerationConfig : GoogleGenerationConfig.t;
  SessionID : string;
  SystemInstruction : option GoogleSystemInstruction.t;
  Tools : list GoogleTool.t;
  ToolConfig : option GoogleToolConfig.t
}.
End GoogleInner.

Module GoogleRequest.
Record t : Type := mk {
  Project : string;
  RequestID : string;
  Request : GoogleInner.t;
  Model : string;
  UserAgent : string
}.
End GoogleRequest.

Module GoogleCandidate.
Record t : Type := mk { Content : GoogleContent.t; FinishReason : string }.
End GoogleCandidate.

Module GoogleUsage.
Record t : Type := mk {
  PromptTokenCount : Z;
  CandidatesTokenCount : Z;
  TotalTokenCount : Z
}.
End GoogleUsage.

Module GoogleResponseInner.
Record t : Type := mk {
  Candidates : list GoogleCandidate.t;
  UsageMetadata : option GoogleUsage.t
}.
End GoogleResponseInner.

Module GoogleResponse.
Record t : Type := mk { Response : GoogleResponseInner.t }.
End GoogleResponse.

(** ** package storage *)

(** Directory order: [os.ReadDir] returns the entries sorted by file name. *)
Definition file_le (x y : string) : Prop :=
  Is_true (String.leb (x +:+ ".json") (y +:+ ".json")).

#[global] Instance file_le_dec x y : Decision (file_le x y).
Proof. unfold file_le. apply _. Defined.

Module AccountStore.

(** The accounts directory.  [files] maps an account id to what
    [json.Unmarshal] makes of [{id}.json]: [None] when the file cannot be
    read or decoded.  [list_error] and [read_only] stand for a directory
    that cannot be read (for a reason other than its absence) or written.

    The encoding is not modelled: [Save] keeps the account itself, that is,
    what [json.MarshalIndent] writes is taken to decode to the account it
    was given.  This is so for the numbers, flags and absent fields of an
    account, and for its texts when they are valid UTF-8, as texts decoded
    from JSON are; the encoder replaces any other byte by U+FFFD.  An error
    text kept in [lastError] can carry such bytes, so what is stated of a
    file written after a failure is stated of its numbers, flags and
    status. *)
Record t : Type := mk {
  files : gmap string (option Account.t);
  list_error : option string;
  read_only : bool
}.

(** Save saves an account to file; the returned [error] is [None] for nil.
    The file is named after [account.AccountID] and holds the account (see
    above for the encoding). *)
Definition Save (account : Account.t) (s : t) : t * option string :=
  if read_only s then (s, Some "failed to write account file")
  else (mk (<[Account.AccountID account := Some account]> (files s))
           (list_error s) (read_only s), None).

(** Load loads an account from file. *)
Definition Load (accountID : string) (s : t) : string + Account.t :=
  match files s !! accountID with
  | None => inl "failed to read account file"
  | Some None => inl "failed to unmarshal account"
  | Some (Some account) => inr account
  end.

(** List lists all account IDs. *)
Definition List (s : t) : string + list string :=
  match list_error s with
  | Some e => inl ("failed to read accounts directory: " +:+ e)
  | None => inr (merge_sort file_le (fst <$> map_to_list (files s)))
  end.

(** Delete deletes an account file: the [error] of [os.Remove]. *)
Definition Delete (accountID : string) (s : t) : t * option string :=
  match files s !! accountID with
  | None => (s, Some "remove: no such file or directory")
  | Some _ =>
      if read_only s then (s, Some "remove: permission denied")
      else (mk (delete accountID (files s)) (list_error s) (read_only s), None)
  end.

End AccountStore.

Module UsageRecord.
Record t : Type := mk {
  Date : string;
  AccountID : string;
  TotalTokens : Z;
  InputTokens : Z;
  OutputTokens : Z;
  RequestCount : Z
}.
End UsageRecord.

Module UsageStore.

(** The usage directory.  [files] maps a file name to the record
    [json.Unmarshal] reads from it into a zero [UsageRecord]. *)
Record t : Type := mk {
  files : gmap string UsageRecord.t;
  read_only : bool
}.

(** [fmt.Sprintf("%s_%s.json", today, accountID)] *)
Definition filename (today accountID : string) : string :=
  today +:+ "_" +:+ accountID +:+ ".json".

(** RecordUsage records usage for an account.  [today] is
    [time.Now().Format("2006-01-02")]. *)
Definition RecordUsage (today accountID : string) (inputTokens outputTokens : Z)
    (s : t) : t * option string :=
  if read_only s then (s, Some "failed to create usage directory")
  else
    let record :=
      match files s !! filename today accountID with
      | Some r => r
      | None => UsageRecord.mk today accountID 0 0 0 0
      end in
    let record' :=
      UsageRecord.mk (UsageRecord.Date record) (UsageRecord.AccountID record)
        (go.wrap64 (UsageRecord.TotalTokens record + go.wrap64 (inputTokens + outputTokens)))
        (go.wrap64 (UsageRecord.InputTokens record + inputTokens))
        (go.wrap64 (UsageRecord.OutputTokens record + outputTokens))
        (go.wrap64 (UsageRecord.RequestCount record + 1)) in
    (mk (<[filename today accountID := record']> (files s)) (read_only s), None).

End UsageStore.

(** API keys (package models) and their store. *)

Module RateLimit.
Record t : Type := mk { Enabled : bool; MaxRequests : Z; WindowMs : Z }.
End RateLimit.

Module APIKey.

Record t : Type := mk {
  Key : string;
  Name : string;
  RateLimit : option RateLimit.t;
  CreatedAt : Z;
  LastUsed : option Z;
  UsageCount : Z
}.

(** IsRateLimited checks if key is currently rate limited. *)
Definition IsRateLimited (requests : Z) (window : Z) (k : t) : bool :=
  match RateLimit k with
  | None => false
  | Some r =>
      if negb (RateLimit.Enabled r) then false
      else RateLimit.MaxRequests r <=? requests
  end.

(** UpdateUsage updates the key's usage statistics. *)
Definition UpdateUsage (now : time.Time) (k : t) : t :=
  mk (Key k) (Name k) (RateLimit k) (CreatedAt k) (Some (time.Unix now))
     (go.wrap64 (UsageCount k + 1)).

End APIKey.

Module KeyStore.

(** The keys directory, like the accounts directory: [files] maps a file
    name without its [.json] to what [json.Unmarshal] makes of the file.
    File names are taken as they are: a key with a path separator names a
    file outside this directory and is outside this model. *)
Record t : Type := mk {
  files : gmap string (option APIKey.t);
  list_error : option string;
  read_only : bool
}.

(** sanitizeKeyFilename converts a key to a safe filename:
    [strings.ReplaceAll(key, ":", "_")]. *)
Definition sanitizeKeyFilename (key : string) : string :=
  strings.ReplaceAllByte key ":"%char "_"%char.

(** Save saves an API key to file. *)
Definition Save (key : APIKey.t) (s : t) : t * option string :=
  if read_only s then (s, Some "failed to write key file")
  else (mk (<[sanitizeKeyFilename (APIKey.Key key) := Some key]> (files s))
           (list_error s) (read_only s), None).

(** Load loads an API key from file. *)
Definition Load (key : string) (s : t) : string + APIKey.t :=
  match files s !! sanitizeKeyFilename key with
  | None => inl "failed to read key file"
  | Some None => inl "failed to unmarshal key"
  | Some (Some apiKey) => inr apiKey
  end.

(** List lists all API keys: the files that decode, in directory order. *)
Definition List (s : t) : string + list APIKey.t :=
  match list_error s with
  | Some e => inl ("failed to read keys directory: " +:+ e)
  | None =>
      inr (omap (fun name => mjoin (files s !! name))
             (merge_sort file_le (fst <$> map_to_list (files s))))
  end.

(** Delete deletes an API key file. *)
Definition Delete (key : string) (s : t) : t * option string :=
  if strings.Contains key "/" || strings.Contains key (String (ascii_of_nat 92) "")
     || strings.Contains key ".."
  then (s, Some "invalid key format")
  else
    match files s !! sanitizeKeyFilename key with
    | None => (s, Some "remove: no such file or directory")
    | Some _ =>
        if read_only s then (s, Some "remove: permission denied")
        else (mk (delete (sanitizeKeyFilename key) (files s)) (list_error s)
                (read_only s), None)
    end.

(** Exists checks if a key exists. *)
Definition Exists (key : string) (s : t) : bool :=
  match files s !! sanitizeKeyFilename key with
  | Some _ => true
  | None => false
  end.

End KeyStore.

(** ** package oauth *)

Module oauth.

(** What the token endpoint returns on a refresh; [ExpiresIn] is
    [int(time.Until(newToken.Expiry).Seconds())]. *)
Module Token.
Record t : Type := mk {
  AccessToken : string;
  RefreshToken : string;
  ExpiresIn : Z
}.
End Token.

(** The outside world as one call sees it: the clock and the answers of the
    token and model-list endpoints. *)
Record World : Type := mkWorld {
  Now : time.Time;
  TokenSource : string -> string + Token.t;
  fetchModels : string -> string + gmap string Model.t
}.

(** [currentIndex] starts at 0 and is only ever assigned a remainder by the
    (positive) number of accounts: a natural number. *)
Record Client : Type := mkClient {
  accountStore : AccountStore.t;
  currentIndex : nat
}.

Inductive GetTokenError : Type :=
| ErrListAccounts (cause : string)
| ErrNoAccounts
| ErrNoValidAccounts.

Definition Error (e : GetTokenError) : string :=
  match e with
  | ErrListAccounts cause => "failed to list accounts: " +:+ cause
  | ErrNoAccounts => "no accounts available"
  | ErrNoValidAccounts =>
      "no valid accounts available (all disabled, in cooldown, or failed refresh)"
  end.

(** RefreshToken refreshes a single account's token.  Returns the client
    (its store), the account as the call leaves it, and the [error]. *)
Definition RefreshToken (w : World) (account : Account.t) (c : Client)
  : Client * Account.t * go.outcome string unit :=
  match TokenSource w (Account.RefreshToken account) with
  | inl err =>
      match Account.RecordFailure (Now w) err account with
      | go.Ret account' =>
          let '(store', _) := AccountStore.Save account' (accountStore c) in
          (mkClient store' (currentIndex c), account', go.Err err)
      | go.Err e => match e with end
      | go.Panic msg => (c, account, go.Panic msg)
      end
  | inr newToken =>
      let a1 := Account.set_AccessToken (Token.AccessToken newToken) account in
      let a2 := if String.eqb (Token.RefreshToken newToken) "" then a1
                else Account.set_RefreshToken (Token.RefreshToken newToken) a1 in
      let a3 := Account.set_Timestamp (time.UnixMilli (Now w))
                  (Account.set_ExpiresIn (Token.ExpiresIn newToken) a2) in
      let a4 := match fetchModels w (Account.AccessToken a3) with
                | inr models => Account.set_Models models a3
                | inl _ => a3
                end in
      let a5 := Account.RecordSuccess (Now w) a4 in
      match AccountStore.Save a5 (accountStore c) with
      | (store', Some err) =>
          (mkClient store' (currentIndex c), a5,
           go.Err ("failed to save refreshed account: " +:+ err))
      | (store', None) => (mkClient store' (currentIndex c), a5, go.Ret tt)
      end
  end.

(** The rotation loop of GetToken: [rounds] iterations are left. *)
Fixpoint rotate (w : World) (accountIDs : list string) (rounds : nat) (c : Client)
  : Client * go.outcome GetTokenError Account.t :=
  match rounds with
  | O => (c, go.Err ErrNoValidAccounts)
  | S rounds' =>
      let c1 := mkClient (accountStore c)
                  ((currentIndex c + 1) `mod` length accountIDs)%nat in
      match accountIDs !! currentIndex c1 with
      | None => (c1, go.Panic "runtime error: index out of range")
      | Some accountID =>
          match AccountStore.Load accountID (accountStore c1) with
          | inl _ => rotate w accountIDs rounds' c1
          | inr account =>
              if negb (Account.Enable account) then rotate w accountIDs rounds' c1
              else if Account.IsInCooldown (Now w) account
              then rotate w accountIDs rounds' c1
              else if Account.NeedsRefresh (Now w) account then
                match RefreshToken w account c1 with
                | (c2, account', go.Ret _) => (c2, go.Ret account')
                | (c2, _, go.Err _) => rotate w accountIDs rounds' c2
                | (c2, _, go.Panic msg) => (c2, go.Panic msg)
                end
              else (c1, go.Ret account)
          end
      end
  end.

(** GetToken returns a valid access token, rotating through available
    accounts. *)
Definition GetToken (w : World) (c : Client)
  : Client * go.outcome GetTokenError Account.t :=
  match AccountStore.List (accountStore c) with
  | inl err => (c, go.Err (ErrListAccounts err))
  | inr accountIDs =>
      if (length accountIDs =? 0)%nat then (c, go.Err ErrNoAccounts)
      else rotate w accountIDs (length accountIDs) c
  end.

(** What one batch refresh logs at its end. *)
Record RefreshCounts : Type := mkCounts {
  successCount : nat;
  failCount : nat;
  skippedCount : nat
}.

(** [for _, accountID := range accountIDs] of RefreshAllTokens. *)
Fixpoint refreshEach (w : World) (accountIDs : list string) (c : Client)
    (n : RefreshCounts) : Client * go.outcome Empty_set RefreshCounts :=
  match accountIDs with
  | [] => (c, go.Ret n)
  | accountID :: rest =>
      match AccountStore.Load accountID (accountStore c) with
      | inl _ => refreshEach w rest c n
      | inr account =>
          if negb (Account.Enable account) then
            refreshEach w rest c
              (mkCounts (successCount n) (failCount n) (S (skippedCount n)))
          else if Account.IsInCooldown (Now w) account then
            refreshEach w rest c
              (mkCounts (successCount n) (failCount n) (S (skippedCount n)))
          else if Account.NeedsRefresh (Now w) account then
            match RefreshToken w account c with
            | (c2, _, go.Ret _) =>
                refreshEach w rest c2
                  (mkCounts (S (successCount n)) (failCount n) (skippedCount n))
            | (c2, _, go.Err _) =>
                refreshEach w rest c2
                  (mkCounts (successCount n) (S (failCount n)) (skippedCount n))
            | (c2, _, go.Panic msg) => (c2, go.Panic msg)
            end
          else
            refreshEach w rest c
              (mkCounts (successCount n) (failCount n) (S (skippedCount n)))
      end
  end.

(** RefreshAllTokens refreshes all accounts that need it; the result is the
    counts it logs, [None] when the accounts cannot be listed. *)
Definition RefreshAllTokens (w : World) (c : Client)
  : Client * go.outcome Empty_set (option RefreshCounts) :=
  match AccountStore.List (accountStore c) with
  | inl _ => (c, go.Ret None)
  | inr accountIDs =>
      match refreshEach w accountIDs c (mkCounts 0 0 0) with
      | (c', go.Ret n) => (c', go.Ret (Some n))
      | (c', go.Err e) => match e with end
      | (c', go.Panic msg) => (c', go.Panic msg)
      end
  end.

(** UserInfo represents Google user information. *)
Module UserInfo.
Record t : Type := mk { Email : string; Name : string }.
End UserInfo.

(** One hexadecimal digit, lower case. *)
Definition hexDigit (d : N) : ascii :=
  ascii_of_N (if (d <? 10)%N then 48 + d else 87 + d).

(** [fmt.Sprintf("%x", b)] for a byte slice: two digits a byte. *)
Fixpoint hex (b : list N) : string :=
  match b with
  | [] => EmptyString
  | x :: rest =>
      String (hexDigit ((x `mod` 256) `div` 16)%N)
        (String (hexDigit (x `mod` 16)%N) (hex rest))
  end.

(** [generateAccountID]: the email, ["_"], and the four bytes read from
    [crypto/rand] in hexadecimal. *)
Definition generateAccountID (random : N * N * N * N) (email : string) : string :=
  let '(b0, b1, b2, b3) := random in
  email +:+ "_" +:+ hex [b0; b1; b2; b3].

(** SaveAccountFromToken saves the account of a token and its user
    information; [random] is what [rand.Read] delivers. *)
Definition SaveAccountFromToken (w : World) (random : N * N * N * N) (token : Token.t)
    (userInfo : UserInfo.t) (c : Client) : Client * (string + Account.t) :=
  let modelList :=
    match fetchModels w (Token.AccessToken token) with
    | inr models => models
    | inl _ => ∅
    end in
  let account :=
    Account.mk (generateAccountID random (UserInfo.Email userInfo))
      (UserInfo.Email userInfo) (UserInfo.Name userInfo)
      (Token.AccessToken token) (Token.RefreshToken token) (Token.ExpiresIn token)
      (time.UnixMilli (Now w)) true modelList (time.UnixMilli (Now w)) "success"
      (Some (UsageStats.mk 0 0 0 0 None))
      (Some (ErrorTracking.mk 0 "" None None 0 0 false)) in
  match AccountStore.Save account (accountStore c) with
  | (store', Some err) =>
      (mkClient store' (currentIndex c), inl ("failed to save account: " +:+ err))
  | (store', None) => (mkClient store' (currentIndex c), inr account)
  end.

End oauth.

(** ** net/http and gin, as far as the handlers use them *)

Module http.

(** A response body through the two readers the handlers use. *)
Record Body : Type := mkBody {
  ReadAll : string;        (* [io.ReadAll(resp.Body)] *)
  Lines : list string      (* successive [scanner.Text()] of a [bufio.Scanner] *)
}.

Record Response : Type := mk { StatusCode : Z; Body_ : Body }.

End http.

Module gin.

(** The value handed to [c.JSON]. *)
Inductive Payload : Type :=
| H_error (error : string)
| H_error_details (error details : string)
| H_error_details_retries (error details : string) (retries : Z)
| Completion (resp : ChatCompletionResponse.t).

(** What is written to an event stream. *)
Inductive Event : Type :=
| Data (chunk : ChatCompletionChunk.t)
| DONE.

(** What the caller receives. *)
Inductive Reply : Type :=
| JSON_ (status : Z) (payload : Payload)
| EventStream (events : list Event)
| Aborted (panic : string).

End gin.

(** ** package server *)

Module server.

Definition maxRetries : nat := 5.

(** The values one [transformRequest] draws from [math/rand] and [uuid]. *)
Record Entropy : Type := mkEntropy {
  adjective : N;
  noun : N;
  number : N;
  requestUUID : string;
  session : Z
}.

(** [rand.Intn(n)] for the draw [r]. *)
Definition Intn (r n : N) : N := (r `mod` n)%N.

Definition adjectives : list string := ["useful"; "bright"; "swift"; "calm"; "bold"].
Definition nouns : list string := ["fuze"; "wave"; "spark"; "flow"; "core"].

Definition generateProjectID (e : Entropy) : string :=
  let adj := default "" (adjectives !! N.to_nat (Intn (adjective e) 5)) in
  let noun := default "" (nouns !! N.to_nat (Intn (noun e) 5)) in
  let num := Intn (number e) 100000 in
  adj +:+ "-" +:+ noun +:+ "-" +:+ pretty num.

Definition generateSessionID (e : Entropy) : string := "-" +:+ pretty (session e).

(** [v == "..."] for an [interface{}] value. *)
Definition is_string (v : option JSON) (s : string) : bool :=
  match v with Some (JString s') => String.eqb s' s | _ => false end.

(** The parts one item of a content array contributes. *)
Definition itemParts (item : JSON) : list GooglePart.t :=
  match item with
  | JObject partMap =>
      if is_string (partMap !! "type") "text" then
        match as_string (partMap !! "text") with
        | Some text => [GooglePart.text text]
        | None => []
        end
      else if is_string (partMap !! "type") "image_url" then
        match as_object (partMap !! "image_url") with
        | Some imgURL =>
            match as_string (imgURL !! "url") with
            | Some url =>
                if strings.HasPrefix url "data:image/" then
                  match strings.Split url ";base64," with
                  | [p0; p1] =>
                      [GooglePart.inlineData
                         (GoogleInlineData.mk (strings.TrimPrefix p0 "data:") p1)]
                  | _ => []
                  end
                else []
            | None => []
            end
        | None => []
        end
      else []
  | _ => []
  end.

(** [switch v := msg.Content.(type)] *)
Definition contentParts (content : JSON) : list GooglePart.t :=
  match content with
  | JString v => [GooglePart.text v]
  | JArray v => concat (itemParts <$> v)
  | _ => []
  end.

(** The loop over [req.Messages]: contents and system instruction so far. *)
Fixpoint buildContents (msgs : list ChatCompletionMessage.t)
    (contents : list GoogleContent.t)
    (systemInstruction : option GoogleSystemInstruction.t)
  : list GoogleContent.t * option GoogleSystemInstruction.t :=
  match msgs with
  | [] => (contents, systemInstruction)
  | msg :: rest =>
      if String.eqb (ChatCompletionMessage.Role msg) "system" then
        let text := default "" (as_string (Some (ChatCompletionMessage.Content msg))) in
        buildContents rest contents
          (Some (GoogleSystemInstruction.mk "user" [GooglePart.text text]))
      else
        let parts := contentParts (ChatCompletionMessage.Content msg) in
        let role := if String.eqb (ChatCompletionMessage.Role msg) "assistant"
                    then "model" else ChatCompletionMessage.Role msg in
        buildContents rest (contents ++ [GoogleContent.mk role parts]) systemInstruction
  end.

(** [// Determine model name and thinking config] *)
Definition enableThinking (modelName : string) : bool :=
  strings.HasSuffix modelName "-thinking"
  || String.eqb modelName "gemini-2.5-pro"
  || strings.HasPrefix modelName "gemini-3-pro-".

Definition stopSequences : list string :=
  ["<|user|>"; "<|bot|>"; "<|context_request|>"; "<|endoftext|>"; "<|end_of_turn|>"].

(** [// Build generation config], with the block under [if enableThinking]. *)
Definition buildGenerationConfig (req : ChatCompletionRequest.t)
  : GoogleGenerationConfig.t :=
  let genConfig :=
    GoogleGenerationConfig.mk
      (if float64_nonzero (ChatCompletionRequest.TopP req)
       then Some (ChatCompletionRequest.TopP req) else None)
      (if negb (ChatCompletionRequest.TopK req =? 0)
       then Some (ChatCompletionRequest.TopK req) else None)
      (if float64_nonzero (ChatCompletionRequest.Temperature req)
       then Some (ChatCompletionRequest.Temperature req) else None)
      1
      (if negb (ChatCompletionRequest.MaxTokens req =? 0)
       then Some (ChatCompletionRequest.MaxTokens req) else None)
      stopSequences
      None in
  if enableThinking (ChatCompletionRequest.Model req) then
    let budget := 8192 in
    let minMaxTokens := budget + 4096 in
    GoogleGenerationConfig.mk
      (GoogleGenerationConfig.TopP genConfig)
      (GoogleGenerationConfig.TopK genConfig)
      (GoogleGenerationConfig.Temperature genConfig)
      (GoogleGenerationConfig.CandidateCount genConfig)
      (match GoogleGenerationConfig.MaxOutputTokens genConfig with
       | None => Some minMaxTokens
       | Some m => if m <=? budget then Some minMaxTokens else Some m
       end)
      (GoogleGenerationConfig.StopSequences genConfig)
      (Some (GoogleThinkingConfig.mk true (Some budget) ""))
  else genConfig.

(** [// Build tools] *)
Definition buildTools (tools : list Tool.t) : list GoogleTool.t :=
  if (0 <? length tools)%nat then
    let funcs :=
      (fun t => GoogleFunctionDeclaration.mk
                  (Function.Name (Tool.Function t))
                  (Function.Description (Tool.Function t))
                  (Function.Parameters (Tool.Function t)))
        <$> filter (fun t => Tool.Type_ t = "function") tools in
    if (0 <? length funcs)%nat then [GoogleTool.mk funcs] else []
  else [].

Definition transformRequest (e : Entropy) (req : ChatCompletionRequest.t)
  : GoogleRequest.t :=
  let modelName :=
    if strings.HasSuffix (ChatCompletionRequest.Model req) "-thinking"
    then strings.TrimSuffix (ChatCompletionRequest.Model req) "-thinking"
    else ChatCompletionRequest.Model req in
  let '(contents, systemInstruction) :=
    buildContents (ChatCompletionRequest.Messages req) [] None in
  GoogleRequest.mk
    (generateProjectID e)
    ("agent-" +:+ requestUUID e)
    (GoogleInner.mk contents (buildGenerationConfig req) (generateSessionID e)
       systemInstruction (buildTools (ChatCompletionRequest.Tools req)) None)
    modelName
    "antigravity".

Record Server : Type := mkServer {
  oauthClient : oauth.Client;
  usageStore : UsageStore.t
}.

(** What one attempt of [chatCompletions] meets outside the process. *)
Record Attempt : Type := mkAttempt {
  world : oauth.World;
  today : string;                 (* [time.Now().Format("2006-01-02")] *)
  entropy : Entropy;
  uuids : nat -> string;          (* the successive [uuid.New().String()] of the answer *)
  Do : GoogleRequest.t -> string -> string + http.Response
                                  (* [client.Do] for a request body and bearer token *)
}.

(** [s.oauthClient.AccountStore().Save(account)], its error dropped. *)
Definition saveAccount (account : Account.t) (s : Server) : Server :=
  mkServer
    (oauth.mkClient
       (fst (AccountStore.Save account (oauth.accountStore (oauthClient s))))
       (oauth.currentIndex (oauthClient s)))
    (usageStore s).

(** The token counters of the handlers. *)
Record Totals : Type := mkTotals {
  totalTokens : Z;
  inputTokens : Z;
  outputTokens : Z
}.

(** [// Track usage metadata] *)
Definition trackUsage (resp : GoogleResponse.t) (t : Totals) : Totals :=
  match GoogleResponseInner.UsageMetadata (GoogleResponse.Response resp) with
  | Some u => mkTotals (GoogleUsage.TotalTokenCount u)
                (GoogleUsage.PromptTokenCount u)
                (GoogleUsage.CandidatesTokenCount u)
  | None => t
  end.

(** [// Record usage in account] and [// Record usage in usage store], the
    block both handlers end with. *)
Definition recordUsage (a : Attempt) (account : Account.t) (t : Totals) (s : Server)
  : Server :=
  let s1 :=
    match Account.Usage account with
    | Some u =>
        saveAccount
          (Account.set_Usage
             (Some (UsageStats.mk
                      (go.wrap64 (UsageStats.TotalTokens u + totalTokens t))
                      (go.wrap64 (UsageStats.InputTokens u + inputTokens t))
                      (go.wrap64 (UsageStats.OutputTokens u + outputTokens t))
                      (go.wrap64 (UsageStats.RequestCount u + 1))
                      (UsageStats.LastUsed u)))
             account)
          s
    | None => s
    end in
  mkServer (oauthClient s1)
    (fst (UsageStore.RecordUsage (today a) (Account.AccountID account)
            (inputTokens t) (outputTokens t) (usageStore s1))).

(** [regexp.MustCompile(`(?s)<think>(.*?)</think>`).FindStringSubmatch]:
    the match starts at the first ["<think>"] that has a ["</think>"]
    after it and, the star being lazy, ends with the first such
    ["</think>"].  When the first ["<think>"] has none after it, no later one
    has.  The result is [matches[0]] and [matches[1]]. *)
Definition findThink (content : string) : option (string * string) :=
  match strings.Index content "<think>" with
  | None => None
  | Some i =>
      let rest := strings.from (i + 7) content in
      match strings.Index rest "</think>" with
      | None => None
      | Some j =>
          Some (strings.slice i (i + 7 + j + 8) content, strings.slice 0 j rest)
      end
  end.

(** [// Fallback: Extract thinking content if present (regex)] *)
Definition extractThinking (content reasoning : string) : string * string :=
  if String.eqb reasoning "" then
    match findThink content with
    | Some (match0, match1) =>
        (strings.TrimSpace (strings.ReplaceFirst content match0 ""),
         strings.TrimSpace match1)
    | None => (content, reasoning)
    end
  else (content, reasoning).

Section Handlers.

(** [json.Unmarshal([]byte(dataStr), &googleResp)]: the decoded value, or
    [None] when it returns an error. *)
Variable unmarshal : string -> option GoogleResponse.t.

(** [for _, part := range candidate.Content.Parts] of the aggregating
    handler. *)
Fixpoint accumulateParts (parts : list GooglePart.t) (content reasoning : string)
  : string * string :=
  match parts with
  | [] => (content, reasoning)
  | part :: rest =>
      if negb (String.eqb (GooglePart.Text part) "") then
        if GooglePart.Thought part
        then accumulateParts rest content (reasoning +:+ GooglePart.Text part)
        else accumulateParts rest (content +:+ GooglePart.Text part) reasoning
      else accumulateParts rest content reasoning
  end.

(** [for scanner.Scan()] of the aggregating handler. *)
Fixpoint aggregate (lines : list string) (content reasoning : string) (t : Totals)
  : string * string * Totals :=
  match lines with
  | [] => (content, reasoning, t)
  | line :: rest =>
      if negb (strings.HasPrefix line "data: ") then aggregate rest content reasoning t
      else
        let dataStr := strings.TrimPrefix line "data: " in
        if String.eqb dataStr "[DONE]" then (content, reasoning, t)
        else
          match unmarshal dataStr with
          | None => aggregate rest content reasoning t
          | Some googleResp =>
              let '(content', reasoning') :=
                match GoogleResponseInner.Candidates (GoogleResponse.Response googleResp) with
                | candidate :: _ =>
                    accumulateParts
                      (GoogleContent.Parts (GoogleCandidate.Content candidate))
                      content reasoning
                | [] => (content, reasoning)
                end in
              aggregate rest content' reasoning' (trackUsage googleResp t)
          end
  end.

(** The aggregating handler ([stream = false]): the server after the usage
    records are written, and the reply. *)
Definition handleNormalResponse (a : Attempt) (body : list string) (model : string)
    (account : Account.t) (s : Server) : Server * gin.Reply :=
  let '(content, reasoning, t) := aggregate body "" "" (mkTotals 0 0 0) in
  let s' := recordUsage a account t s in
  (* Estimate tokens if not provided by API *)
  let t' := if totalTokens t =? 0
            then let estimate := Z.of_nat (strings.len content) ÷ 4 in
                 mkTotals estimate (inputTokens t) estimate
            else t in
  let '(content', reasoning') := extractThinking content reasoning in
  (s',
   gin.JSON_ 200
     (gin.Completion
        (ChatCompletionResponse.mk
           ("chatcmpl-" +:+ uuids a 0%nat)
           "chat.completion"
           (time.Unix (oauth.Now (world a)))
           model
           [ChatCompletionChoice.mk 0
              (ChatCompletionMessage.mk "assistant" (JString content') reasoning'
                 "" [] "")
              "stop"]
           (Some (Usage.mk (inputTokens t') (outputTokens t') (totalTokens t')))
           ""))).

(** The chunk written for one part; [n] chunks were written before it. *)
Definition chunkOf (a : Attempt) (model : string) (n : nat) (part : GooglePart.t)
  : ChatCompletionChunk.t :=
  ChatCompletionChunk.mk
    ("chatcmpl-" +:+ uuids a n)
    "chat.completion.chunk"
    (time.Unix (oauth.Now (world a)))
    model
    ""
    [ChatCompletionChunkChoice.mk 0
       (ChatCompletionDelta.mk "" (GooglePart.Text part) "" [])
       None].

(** [for _, part := range candidate.Content.Parts] of the streaming handler. *)
Definition chunksOf (a : Attempt) (model : string) (n : nat) (parts : list GooglePart.t)
  : list ChatCompletionChunk.t :=
  imap (fun i part => chunkOf a model (n + i) part) parts.

(** [for scanner.Scan()] of the streaming handler: the chunks written and
    the counters. *)
Fixpoint stream (a : Attempt) (model : string) (lines : list string) (n : nat)
    (t : Totals) : list ChatCompletionChunk.t * Totals :=
  match lines with
  | [] => ([], t)
  | line :: rest =>
      if negb (strings.HasPrefix line "data: ") then stream a model rest n t
      else
        let dataStr := strings.TrimPrefix line "data: " in
        if String.eqb dataStr "[DONE]" then ([], t)
        else
          match unmarshal dataStr with
          | None => stream a model rest n t
          | Some googleResp =>
              match GoogleResponseInner.Candidates (GoogleResponse.Response googleResp) with
              | [] => stream a model rest n t
              | candidate :: _ =>
                  let parts := GoogleContent.Parts (GoogleCandidate.Content candidate) in
                  let '(chunks, t') :=
                    stream a model rest (n + length parts) (trackUsage googleResp t) in
                  ((chunksOf a model n parts ++ chunks)%list, t')
              end
          end
  end.

(** The streaming handler ([stream = true]). *)
Definition handleStreamResponse (a : Attempt) (body : list string) (model : string)
    (account : Account.t) (s : Server) : Server * gin.Reply :=
  let '(chunks, t) := stream a model body 0 (mkTotals 0 0 0) in
  (recordUsage a account t s, gin.EventStream ((gin.Data <$> chunks) ++ [gin.DONE])%list).

(** One pass through the retry loop of [chatCompletions]. *)
Inductive Step : Type :=
| Continue (s : Server) (lastErr : string)
| Return (s : Server) (reply : gin.Reply).

(** The rest of an iteration once [GetToken] has returned [account]: the
    upstream call and its classification. *)
Definition upstreamCall (req : ChatCompletionRequest.t) (a : Attempt)
    (account : Account.t) (s1 : Server) : Step :=
  let now := oauth.Now (world a) in
  let googleReq := transformRequest (entropy a) req in
  match Do a googleReq (Account.AccessToken account) with
  | inl err =>
      match Account.RecordFailure now err account with
      | go.Ret account' => Continue (saveAccount account' s1) err
      | go.Err e => match e with end
      | go.Panic msg => Return s1 (gin.Aborted msg)
      end
  | inr resp =>
      let status := http.StatusCode resp in
      if negb (status =? 200) then
        let body := http.ReadAll (http.Body_ resp) in
        if status =? 429 then
          (* The log line of this branch reads
             [account.ErrorTracking.RateLimitCount+1] before RecordRateLimit
             runs. *)
          match Account.ErrorTracking account with
          | None =>
              Return s1
                (gin.Aborted
                   "runtime error: invalid memory address or nil pointer dereference")
          | Some _ =>
              Continue (saveAccount (Account.RecordRateLimit now account) s1)
                "rate limit exceeded"
          end
        else if status =? 403 then
          Continue (saveAccount (Account.RecordPermissionDenied now account) s1)
            "permission denied"
        else
          let msg := "HTTP " +:+ pretty status +:+ ": " +:+ body in
          match Account.RecordFailure now msg account with
          | go.Ret account' =>
              let s2 := saveAccount account' s1 in
              if (400 <=? status) && (status <? 500) then
                Return s2
                  (gin.JSON_ status (gin.H_error_details "Upstream API error" body))
              else Continue s2 msg
          | go.Err e => match e with end
          | go.Panic msg => Return s1 (gin.Aborted msg)
          end
      else
        let account' := Account.RecordSuccess now account in
        let s2 := saveAccount account' s1 in
        let '(s3, reply) :=
          if ChatCompletionRequest.Stream req
          then handleStreamResponse a (http.Lines (http.Body_ resp))
                 (ChatCompletionRequest.Model req) account' s2
          else handleNormalResponse a (http.Lines (http.Body_ resp))
                 (ChatCompletionRequest.Model req) account' s2 in
        Return s3 reply
  end.

(** One iteration of the retry loop. *)
Definition attempt (req : ChatCompletionRequest.t) (a : Attempt) (s : Server) : Step :=
  match oauth.GetToken (world a) (oauthClient s) with
  | (c, go.Err err) => Continue (mkServer c (usageStore s)) (oauth.Error err)
  | (c, go.Panic msg) => Return (mkServer c (usageStore s)) (gin.Aborted msg)
  | (c, go.Ret account) => upstreamCall req a account (mkServer c (usageStore s))
  end.

(** [for attempt := 0; attempt < maxRetries; attempt++] with [remaining]
    iterations left, followed by [// All retries exhausted]. *)
Fixpoint retry (req : ChatCompletionRequest.t) (env : nat -> Attempt)
    (remaining n : nat) (lastErr : option string) (s : Server) : Server * gin.Reply :=
  match remaining with
  | O =>
      (s, match lastErr with
          | Some err =>
              gin.JSON_ 503
                (gin.H_error_details_retries "Service unavailable after retries" err
                   (Z.of_nat maxRetries))
          | None => gin.Aborted "runtime error: invalid memory address or nil pointer dereference"
          end)
  | S remaining' =>
      match attempt req (env n) s with
      | Continue s' err => retry req env remaining' (S n) (Some err) s'
      | Return s' reply => (s', reply)
      end
  end.

(** chatCompletions handles the chat completion request; [bound] is the
    outcome of [c.ShouldBindJSON(&req)]. *)
Definition chatCompletions (bound : string + ChatCompletionRequest.t)
    (env : nat -> Attempt) (s : Server) : Server * gin.Reply :=
  match bound with
  | inl err => (s, gin.JSON_ 400 (gin.H_error ("Invalid request: " +:+ err)))
  | inr req => retry req env maxRetries 0 None s
  end.

End Handlers.

(** maskAPIKey returns a masked version of the API key for logging. *)
Definition maskAPIKey (key : string) : string :=
  if (strings.len key <=? 8)%nat then "***"
  else strings.slice 0 4 key +:+ "..." +:+ strings.from (strings.len key - 4) key.

(** What the API-key middleware does with a request. *)
Inductive Auth : Type :=
| Next (api_key_source : string) (api_key : option APIKey.t)
| Abort (status : Z) (message type_ code : string).

(** apiKeyAuthMiddleware validates API key for API requests.  [configKey]
    is [cfg.Security.APIKey], [authHeader] the [Authorization] header (empty
    when absent). *)
Definition apiKeyAuthMiddleware (configKey : string) (now : time.Time)
    (authHeader : string) (keys : KeyStore.t) : KeyStore.t * Auth :=
  if String.eqb authHeader "" then
    (keys, Abort 401 "Missing Authorization header" "invalid_request_error"
             "missing_api_key")
  else
    let apiKey :=
      if (7 <? strings.len authHeader)%nat
         && String.eqb (strings.slice 0 7 authHeader) "Bearer "
      then strings.from 7 authHeader
      else authHeader in
    if negb (String.eqb configKey "") && String.eqb apiKey configKey then
      (keys, Next "config" None)
    else
      match KeyStore.Load apiKey keys with
      | inl _ =>
          (keys, Abort 401 "Invalid API key" "invalid_request_error" "invalid_api_key")
      | inr key =>
          let key' := APIKey.UpdateUsage now key in
          (fst (KeyStore.Save key' keys), Next "database" (Some key'))
      end.

Definition charset : string :=
  "abcdefghijklmnopqrstuvwxyzABCDEFGHIJKLMNOPQRSTUVWXYZ0123456789".

(** generateRandomString: [b[i] = charset[i%len(charset)]] for every [i]. *)
Definition generateRandomString (length : nat) : string :=
  string_of_list_ascii
    ((fun i => default "000"%char (String.get (i `mod` strings.len charset)%nat charset))
       <$> seq 0 length).

(** What generateKey answers. *)
Inductive KeyReply : Type :=
| KeyGenerated (key name : string) (createdAt : Z)
| KeyFailed (status : Z) (error : string).

(** generateKey creates and saves an API key; [bound] is the outcome of
    [c.ShouldBindJSON(&req)] with the [name] of the request. *)
Definition generateKey (bound : string + string) (now : time.Time) (keys : KeyStore.t)
  : KeyStore.t * KeyReply :=
  let name := match bound with inr name => name | inl _ => "Default Key" end in
  let keyString := "sk-antigravity-" +:+ generateRandomString 32 in
  let createdAt := time.UnixMilli now in
  match KeyStore.Save (APIKey.mk keyString name None createdAt None 0) keys with
  | (keys', Some _) => (keys', KeyFailed 500 "Failed to generate key")
  | (keys', None) => (keys', KeyGenerated keyString name createdAt)
  end.

(** deleteKey removes an API key; the store's error decides the status. *)
Definition deleteKey (keyString : string) (keys : KeyStore.t) : KeyStore.t * Z :=
  match KeyStore.Delete keyString keys with
  | (keys', None) => (keys', 200)
  | (keys', Some err) =>
      (keys', if String.eqb err "remove: no such file or directory" then 404 else 500)
  end.

End server.

(** ** package logger: the buffer of recent log entries *)

Module LogEntry.
Record t : Type := mk { Level : string; Message : string; Timestamp : time.Time }.
End LogEntry.

Module LogBuffer.

(** [limit] is set once, to 1000, and never negative. *)
Record t : Type := mk { entries : list LogEntry.t; limit : nat }.

(** GlobalBuffer is the singleton log buffer. *)
Definition GlobalBuffer : t := mk [] 1000.

(** Add adds a log entry to the buffer. *)
Definition Add (now : time.Time) (level message : string) (b : t) : t :=
  let entries' := (entries b ++ [LogEntry.mk level message now])%list in
  if (limit b <? length entries')%nat
  then mk (drop (length entries' - limit b) entries') (limit b)
  else mk entries' (limit b).

(** GetRecent returns the recent n logs, newest first. *)
Definition GetRecent (n : Z) (b : t) : list LogEntry.t :=
  let n' := if (n <=? 0) || (Z.of_nat (length (entries b)) <? n)
            then length (entries b) else Z.to_nat n in
  reverse (drop (length (entries b) - n') (entries b)).

(** Clear clears the buffer. *)
Definition Clear (b : t) : t := mk [] (limit b).

End LogBuffer.

(** * Vocabulary of the statements, and the data of the examples *)

Definition backoff_of (a : Account.t) : Z :=
  ErrorTracking.RateLimitBackoff (Account.tracking a).

Definition rate_limit_count_of (a : Account.t) : Z :=
  ErrorTracking.RateLimitCount (Account.tracking a).

Definition failures_of (a : Account.t) : Z :=
  ErrorTracking.ConsecutiveFailures (Account.tracking a).

Definition failed_until_of (a : Account.t) : option Z :=
  ErrorTracking.FailedUntil (Account.tracking a).

(** 429s recorded one after the other, at the given instants. *)
Definition rate_limits (ts : list time.Time) (a : Account.t) : Account.t :=
  foldl (fun acc t => Account.RecordRateLimit t acc) a ts.

(** Generic failures recorded one after the other. *)
Fixpoint fail_times (ts : list time.Time) (a : Account.t) : go.outcome Empty_set Account.t :=
  match ts with
  | [] => go.Ret a
  | t :: ts' =>
      match Account.RecordFailure t "upstream failure" a with
      | go.Ret a' => fail_times ts' a'
      | other => other
      end
  end.

(** A clock reading whose seconds leave room for a cooldown in [int64]. *)
Definition clock_ok (t : time.Time) : Prop := 0 <= time.Unix t < 2 ^ 62.

Definition new_account : Account.t :=
  Account.mk "alice@example.com_1a2b3c4d" "alice@example.com" "Alice" "ya29.token"
    "1//refresh" 3599 1700000000000 true ∅ 1700000000000 "success"
    (Some (UsageStats.mk 0 0 0 0 None))
    (Some (ErrorTracking.mk 0 "" None None 0 0 false)).

(** The cooldown in seconds that [RecordFailure] computes when the failure
    count reaches [n]. *)
Definition cooldown_of_failures (n : Z) : Z :=
  if n <? 63 then Z.min (2 ^ n) 3600
  else if n =? 63 then - 2 ^ 63
  else 0.

(** [failed_until - now] after the failures [ts], the last of them at [now]. *)
Definition cooldown_after (ts : list time.Time) (a : Account.t) : option Z :=
  match fail_times ts a with
  | go.Ret a' =>
      fu ← failed_until_of a';
      now ← last ts;
      Some (fu - time.Unix now)
  | _ => None
  end.

Definition example_entropy : server.Entropy :=
  server.mkEntropy 0 1 41023 "6f1c2a9e-0b7d-4c55-9a3e-2d8f4b1c7e90" 7.

Definition user_message (text : string) : ChatCompletionMessage.t :=
  ChatCompletionMessage.mk "user" (JString text) "" "" [] "".

Definition thinking_request : ChatCompletionRequest.t :=
  ChatCompletionRequest.mk "gemini-2.0-flash-thinking" [user_message "Solve this"]
    false 0 0 0 0 [] JNull 0 0.

Definition forget_thought_part (p : GooglePart.t) : GooglePart.t :=
  GooglePart.mk (GooglePart.Text p) (GooglePart.InlineData p)
    (GooglePart.FunctionCall p) (GooglePart.FunctionResponse p) false.

Definition forget_thought_candidate (c : GoogleCandidate.t) : GoogleCandidate.t :=
  GoogleCandidate.mk
    (GoogleContent.mk
       (GoogleContent.Role (GoogleCandidate.Content c))
       (forget_thought_part <$> GoogleContent.Parts (GoogleCandidate.Content c)))
    (GoogleCandidate.FinishReason c).

(** The same upstream event with every [thought] flag cleared. *)
Definition forget_thought (r : GoogleResponse.t) : GoogleResponse.t :=
  GoogleResponse.mk
    (GoogleResponseInner.mk
       (forget_thought_candidate
          <$> GoogleResponseInner.Candidates (GoogleResponse.Response r))
       (GoogleResponseInner.UsageMetadata (GoogleResponse.Response r))).

(** The parts the streaming handler meets: those of the first candidate of
    every decoded data line with a candidate, up to the [[DONE]] line. *)
Fixpoint upstream_parts (unmarshal : string -> option GoogleResponse.t)
    (lines : list string) : list GooglePart.t :=
  match lines with
  | [] => []
  | line :: rest =>
      if negb (strings.HasPrefix line "data: ") then upstream_parts unmarshal rest
      else if String.eqb (strings.TrimPrefix line "data: ") "[DONE]" then []
      else match unmarshal (strings.TrimPrefix line "data: ") with
           | Some r =>
               match GoogleResponseInner.Candidates (GoogleResponse.Response r) with
               | candidate :: _ =>
                   GoogleContent.Parts (GoogleCandidate.Content candidate)
                     ++ upstream_parts unmarshal rest
               | [] => upstream_parts unmarshal rest
               end
           | None => upstream_parts unmarshal rest
           end
  end.

(** The deltas of a chunk, one per choice. *)
Definition deltas (chunk : ChatCompletionChunk.t) : list ChatCompletionDelta.t :=
  ChatCompletionChunkChoice.Delta <$> ChatCompletionChunk.Choices chunk.

(** JSON text written with ['] for the double quote. *)
Fixpoint json_text (s : string) : string :=
  match s with
  | EmptyString => EmptyString
  | String c s' =>
      String (if Ascii.eqb c "'"%char then ascii_of_nat 34 else c) (json_text s')
  end.

(** [json.Unmarshal] on the payloads of an example: each payload listed with
    the value it decodes to; anything else is taken not to decode. *)
Definition decode_table (table : list (string * GoogleResponse.t)) (dataStr : string)
  : option GoogleResponse.t :=
  snd <$> List.find (fun kv => String.eqb (fst kv) dataStr) table.

Definition example_world : oauth.World :=
  oauth.mkWorld (1700000000 * time.Second)
    (fun _ => inl "oauth2: cannot fetch token")
    (fun _ => inr ∅).

Definition example_attempt (Do : GoogleRequest.t -> string -> string + http.Response)
  : server.Attempt :=
  server.mkAttempt example_world "2023-11-14" example_entropy
    (fun n => "00000000-0000-4000-8000-00000000000" +:+ pretty n) Do.

Definition no_upstream : GoogleRequest.t -> string -> string + http.Response :=
  fun _ _ => inl "dial tcp: connection refused".

Definition server_with (accounts : list Account.t) : server.Server :=
  server.mkServer
    (oauth.mkClient
       (AccountStore.mk
          (list_to_map ((fun a => (Account.AccountID a, Some a)) <$> accounts))
          None false)
       0)
    (UsageStore.mk ∅ false).

Definition stored (accountID : string) (s : server.Server) : string + Account.t :=
  AccountStore.Load accountID (oauth.accountStore (server.oauthClient s)).

(** The [usage] object of a stored account; [None] when it cannot be loaded. *)
Definition stored_usage (accountID : string) (s : server.Server)
  : option (option UsageStats.t) :=
  match stored accountID s with
  | inr account => Some (Account.Usage account)
  | inl _ => None
  end.

Definition model_part (p : GooglePart.t) (usage : option GoogleUsage.t) : GoogleResponse.t :=
  GoogleResponse.mk
    (GoogleResponseInner.mk [GoogleCandidate.mk (GoogleContent.mk "model" [p]) "STOP"] usage).

(** An upstream stream whose only part is a function call. *)
Definition function_call_payload : string :=
  json_text "{'response':{'candidates':[{'content':{'role':'model','parts':[{'functionCall':{'id':'call_1','name':'get_time','args':{}}}]},'finishReason':'STOP'}]}}".

Definition function_call_part : GooglePart.t :=
  GooglePart.mk "" None (Some (GoogleFunctionCall.mk "call_1" "get_time" ∅)) None false.

Definition function_call_body : list string :=
  ["data: " +:+ function_call_payload; ""; "data: [DONE]"].

Definition function_call_decode : string -> option GoogleResponse.t :=
  decode_table [(function_call_payload, model_part function_call_part None)].

(** The tool call the OpenAI shape has for [function_call_part]. *)
Definition expected_tool_call : ToolCall.t :=
  ToolCall.mk "call_1" "function" (Function.mk "get_time" "" (JString "{}")).

(** The tool calls a reply carries. *)
Definition tool_calls_of (reply : gin.Reply) : list ToolCall.t :=
  match reply with
  | gin.JSON_ _ (gin.Completion resp) =>
      choice ← ChatCompletionResponse.Choices resp;
      ChatCompletionMessage.ToolCalls (ChatCompletionChoice.Message choice)
  | _ => []
  end.

(** What the two handlers capture from the usage metadata of a stream. *)
Definition captured_normal (unmarshal : string -> option GoogleResponse.t)
    (body : list string) : server.Totals :=
  snd (server.aggregate unmarshal body "" "" (server.mkTotals 0 0 0)).

Definition captured_stream (unmarshal : string -> option GoogleResponse.t)
    (a : server.Attempt) (model : string) (body : list string) : server.Totals :=
  snd (server.stream unmarshal a model body 0 (server.mkTotals 0 0 0)).

(** A text answer whose usage metadata counts thinking tokens in the total
    only. *)
Definition answer_payload : string :=
  json_text "{'response':{'candidates':[{'content':{'role':'model','parts':[{'text':'4'}]},'finishReason':'STOP'}],'usageMetadata':{'promptTokenCount':10,'candidatesTokenCount':5,'totalTokenCount':20}}}".

Definition answer_body : list string :=
  ["data: " +:+ answer_payload; ""; "data: [DONE]"].

Definition answer_decode : string -> option GoogleResponse.t :=
  decode_table
    [(answer_payload,
      model_part (GooglePart.text "4") (Some (GoogleUsage.mk 10 5 20)))].

(** An account stored without a [usage] object. *)
Definition bare_account : Account.t :=
  Account.mk "bob@example.com_5e6f7a8b" "bob@example.com" "Bob" "ya29.bob"
    "1//bob" 3599 1700000000000 true ∅ 0 "" None None.

(** The invariant of [usage], in the arithmetic of [int64]. *)
Definition usage_invariant (a : Account.t) : Prop :=
  match Account.Usage a with
  | Some u =>
      UsageStats.TotalTokens u
      = go.wrap64 (UsageStats.InputTokens u + UsageStats.OutputTokens u)
  | None => True
  end.

(** A candidate the rotation skips without trying a refresh: its file does
    not load, it is disabled, or it is in cooldown. *)
Definition unusable (now : time.Time) (loaded : string + Account.t) : bool :=
  match loaded with
  | inl _ => true
  | inr account => negb (Account.Enable account) || Account.IsInCooldown now account
  end.

Definition disabled_account : Account.t :=
  Account.mk "carol@example.com_0a0b0c0d" "carol@example.com" "Carol" "ya29.carol"
    "1//carol" 3599 1700000000000 false ∅ 1700000000000 "permission_denied"
    (Some (UsageStats.mk 0 0 0 0 None))
    (Some (ErrorTracking.mk 0 "HTTP 403: Permission Denied" (Some 1699999000) None 0 0 true)).

Definition cooling_account : Account.t :=
  Account.mk "dave@example.com_9f8e7d6c" "dave@example.com" "Dave" "ya29.dave"
    "1//dave" 3599 1700000000000 true ∅ 1700000000000 "failed"
    (Some (UsageStats.mk 0 0 0 0 None))
    (Some (ErrorTracking.mk 3 "HTTP 500: internal" (Some 1699999999) (Some 1700000007) 0 0 false)).

(** The failure counter of an account as every path of the program leaves
    it: not negative (and far from the end of [int]). *)
Definition counter_ok (a : Account.t) : Prop := 0 <= failures_of a < 2 ^ 62.

Definition second_account : Account.t :=
  Account.mk "erin@example.com_77aa88bb" "erin@example.com" "Erin" "ya29.erin"
    "1//erin" 3599 1700000000000 true ∅ 1700000000000 "success"
    (Some (UsageStats.mk 0 0 0 0 None))
    (Some (ErrorTracking.mk 0 "" None None 0 0 false)).

Definition plain_request : ChatCompletionRequest.t :=
  ChatCompletionRequest.mk "gemini-2.0-flash" [user_message "2+2?"]
    false 0 0 0 0 [] JNull 0 0.

Definition quota_response : http.Response :=
  http.mk 429 (http.mkBody "quota exceeded" ["quota exceeded"]).

Definition answer_response : http.Response :=
  http.mk 200 (http.mkBody (String.concat (String (ascii_of_nat 10) "") answer_body)
                 answer_body).

(** An upstream that refuses every request as malformed. *)
Definition bad_request : GoogleRequest.t -> string -> string + http.Response :=
  fun _ _ => inr (http.mk 400 (http.mkBody "malformed request" ["malformed request"])).

(** The upstream throttles Erin's token and answers Alice's. *)
Definition throttle_erin : GoogleRequest.t -> string -> string + http.Response :=
  fun _ token => if String.eqb token "ya29.erin" then inr quota_response
                 else inr answer_response.

(** Happy streaming: two events with the texts A and B, then [[DONE]]. *)
Definition text_payload (text : string) : string :=
  json_text "{'response':{'candidates':[{'content':{'role':'model','parts':[{'text':'"
  +:+ text +:+ json_text "'}]}}]}}".

Definition text_event (text : string) : GoogleResponse.t :=
  GoogleResponse.mk
    (GoogleResponseInner.mk
       [GoogleCandidate.mk (GoogleContent.mk "model" [GooglePart.text text]) ""] None).

(** Every account file that decodes satisfies [P]. *)
Definition stored_all (P : Account.t -> Prop) (store : AccountStore.t) : Prop :=
  forall accountID account,
    AccountStore.files store !! accountID = Some (Some account) -> P account.

(** [is_permission_denied] implies [enable = false]. *)
Definition denied_disabled (a : Account.t) : Prop :=
  ErrorTracking.IsPermissionDenied (Account.tracking a) = true ->
  Account.Enable a = false.

(** The rate-limit backoff is one the code produces: none, or 120 to 1800
    seconds. *)
Definition backoff_bounded (a : Account.t) : Prop :=
  backoff_of a = 0 \/ 120 <= backoff_of a <= 1800.

Definition accounts_of (s : server.Server) : AccountStore.t :=
  oauth.accountStore (server.oauthClient s).

(** An upstream that answers every request with 403. *)
Definition forbidden : GoogleRequest.t -> string -> string + http.Response :=
  fun _ _ => inr (http.mk 403 (http.mkBody "forbidden" ["forbidden"])).

(** An account with the id [accountID] is disabled. *)
Definition disabled_id (accountID : string) (a : Account.t) : Prop :=
  Account.AccountID a = accountID -> Account.Enable a = false.

(** The account a file decodes to, if it does. *)
Definition stored_account (accountID : string) (s : server.Server) : option Account.t :=
  match stored accountID s with
  | inr account => Some account
  | inl _ => None
  end.

(** The token is good for the next half hour at least. *)
Definition fresh (now : time.Time) (a : Account.t) : Prop :=
  Account.IsExpired now a = false
  /\ 30 * time.Minute <= Account.sub_sat (Account.expiryTime a) now.

(** The account comes out of a refresh made in world [w] and is on disk. *)
Definition refreshed (w : oauth.World) (store : AccountStore.t) (a : Account.t) : Prop :=
  exists old token,
    oauth.TokenSource w (Account.RefreshToken old) = inr token
    /\ Account.AccessToken a = oauth.Token.AccessToken token
    /\ Account.ExpiresIn a = oauth.Token.ExpiresIn token
    /\ Account.Timestamp a = time.UnixMilli (oauth.Now w)
    /\ Account.RefreshStatus a = "success"
    /\ AccountStore.Load (Account.AccountID a) store = inr a.

(** A token endpoint that renews every token for an hour. *)
Definition renewing_world : oauth.World :=
  oauth.mkWorld (1700000000 * time.Second)
    (fun refreshToken => inr (oauth.Token.mk ("ya29.new." +:+ refreshToken) "" 3599))
    (fun _ => inl "models: unavailable").

(** Alice's account with a token issued two hours ago. *)
Definition stale_account : Account.t :=
  Account.set_Timestamp 1699992800000 new_account.

(** Usage recorded call after call: each call is the instant and the input
    and output token counts. *)
Definition record_usages (calls : list (time.Time * Z * Z)) (a : Account.t) : Account.t :=
  foldl (fun acc '(now, inputTokens, outputTokens) =>
           Account.RecordUsage now inputTokens outputTokens acc) a calls.

Definition input_sum (calls : list (time.Time * Z * Z)) : Z :=
  foldr (fun '(_, inputTokens, _) acc => inputTokens + acc) 0 calls.

Definition output_sum (calls : list (time.Time * Z * Z)) : Z :=
  foldr (fun '(_, _, outputTokens) acc => outputTokens + acc) 0 calls.

(** The [j]-th candidate of an acquisition that starts with client [c]: the
    outcome of loading the account file the cursor reaches after [j + 1]
    steps. *)
Definition candidate (c : oauth.Client) (accountIDs : list string) (j : nat)
  : option (string + Account.t) :=
  (fun accountID => AccountStore.Load accountID (oauth.accountStore c))
    <$> accountIDs !! ((oauth.currentIndex c + 1 + j) `mod` length accountIDs)%nat.

(** Enabled, out of cooldown and with a token good for half an hour. *)
Definition ready (now : time.Time) (a : Account.t) : bool :=
  Account.Enable a && negb (Account.IsInCooldown now a)
  && negb (Account.NeedsRefresh now a).

(** Successive acquisitions in the same world: their outcomes. *)
Fixpoint acquire_seq (w : oauth.World) (k : nat) (c : oauth.Client)
  : list (go.outcome oauth.GetTokenError Account.t) :=
  match k with
  | O => []
  | S k' => let '(c', r) := oauth.GetToken w c in r :: acquire_seq w k' c'
  end.

(** The accounts that the files named by [accountIDs] decode to. *)
Definition loadable (store : AccountStore.t) (accountIDs : list string) : list Account.t :=
  omap (fun accountID =>
          match AccountStore.Load accountID store with
          | inr account => Some account
          | inl _ => None
          end) accountIDs.

(** The key every call of [generateKey] makes. *)
Definition generated_key : string := "sk-antigravity-" +:+ server.generateRandomString 32.

(** The name [generateKey] gives the key. *)
Definition key_name (bound : string + string) : string :=
  match bound with inr name => name | inl _ => "Default Key" end.

Definition empty_keys : KeyStore.t := KeyStore.mk ∅ None false.

(** What the middleware does once it has the key of the request: the
    check against the configured key, then against the key store. *)
Definition check_key (configKey : string) (now : time.Time) (apiKey : string)
    (keys : KeyStore.t) : KeyStore.t * server.Auth :=
  if negb (String.eqb configKey "") && String.eqb apiKey configKey then
    (keys, server.Next "config" None)
  else
    match KeyStore.Load apiKey keys with
    | inl _ =>
        (keys, server.Abort 401 "Invalid API key" "invalid_request_error" "invalid_api_key")
    | inr key =>
        (fst (KeyStore.Save (APIKey.UpdateUsage now key) keys),
         server.Next "database" (Some (APIKey.UpdateUsage now key)))
    end.

(** A key store holding one record, made by hand with colons in the key. *)
Definition team_key : APIKey.t := APIKey.mk "sk:team:1" "team" None 1700000000000 None 0.

Definition team_keys : KeyStore.t := fst (KeyStore.Save team_key empty_keys).

(** Entries added one after the other. *)
Definition add_all (new : list LogEntry.t) (b : LogBuffer.t) : LogBuffer.t :=
  foldl (fun b e =>
           LogBuffer.Add (LogEntry.Timestamp e) (LogEntry.Level e) (LogEntry.Message e) b)
    b new.

(** How many entries [GetRecent n] returns from a buffer of [held] entries. *)
Definition recent_count (n : Z) (held : nat) : nat :=
  if (n <=? 0) || (Z.of_nat held <? n) then held else Z.to_nat n.

Definition log_line (message : string) (second : Z) : LogEntry.t :=
  LogEntry.mk "info" message (second * time.Second).

Definition is_system (msg : ChatCompletionMessage.t) : bool :=
  String.eqb (ChatCompletionMessage.Role msg) "system".

(** The content a message that is not a system message becomes. *)
Definition toContent (msg : ChatCompletionMessage.t) : GoogleContent.t :=
  GoogleContent.mk
    (if String.eqb (ChatCompletionMessage.Role msg) "assistant" then "model"
     else ChatCompletionMessage.Role msg)
    (server.contentParts (ChatCompletionMessage.Content msg)).

(** The system instruction a system message becomes: its text when its
    content is a string, the empty text otherwise. *)
Definition toSystemInstruction (msg : ChatCompletionMessage.t) : GoogleSystemInstruction.t :=
  GoogleSystemInstruction.mk "user"
    [GooglePart.text
       (match ChatCompletionMessage.Content msg with JString s => s | _ => "" end)].

(** The request with everything cleared that the translator does not read:
    of each message the reasoning, the name, the tool calls and the tool
    call id; of the request the stream flag, the tool choice, the penalties
    and the tools whose type is not [function]. *)
Definition strip_message (msg : ChatCompletionMessage.t) : ChatCompletionMessage.t :=
  ChatCompletionMessage.mk (ChatCompletionMessage.Role msg)
    (ChatCompletionMessage.Content msg) "" "" [] "".

Definition strip_request (req : ChatCompletionRequest.t) : ChatCompletionRequest.t :=
  ChatCompletionRequest.mk (ChatCompletionRequest.Model req)
    (strip_message <$> ChatCompletionRequest.Messages req) false
    (ChatCompletionRequest.MaxTokens req) (ChatCompletionRequest.Temperature req)
    (ChatCompletionRequest.TopP req) (ChatCompletionRequest.TopK req)
    (filter (fun t => Tool.Type_ t = "function") (ChatCompletionRequest.Tools req))
    JNull 0 0.

(** A conversation with two system prompts. *)
Definition chat_message (role text : string) : ChatCompletionMessage.t :=
  ChatCompletionMessage.mk role (JString text) "" "" [] "".

Definition prompted_request : ChatCompletionRequest.t :=
  ChatCompletionRequest.mk "gemini-2.0-flash"
    [chat_message "system" "Be brief."; chat_message "user" "2+2?";
     chat_message "assistant" "4"; chat_message "system" "Be formal.";
     chat_message "user" "And 3+3?"]
    false 0 0 0 0 [] JNull 0 0.

(** An [image_url] item of a content array. *)
Definition image_item (url : string) : JSON :=
  JObject (<["type" := JString "image_url"]>
             (<["image_url" := JObject (<["url" := JString url]> ∅)]> ∅)).

(** The texts of the parts that [keep] selects, one after the other. *)
Definition texts (keep : GooglePart.t -> bool) (parts : list GooglePart.t) : string :=
  foldr (fun p acc => if keep p then GooglePart.Text p +:+ acc else acc) "" parts.

Definition is_thought (p : GooglePart.t) : bool := GooglePart.Thought p.

Definition is_plain (p : GooglePart.t) : bool := negb (GooglePart.Thought p).

(** The lines of an upstream body that the handlers act on: the data lines
    that decode, up to the [[DONE]] line. *)
Fixpoint significant (unmarshal : string -> option GoogleResponse.t)
    (lines : list string) : list string :=
  match lines with
  | [] => []
  | line :: rest =>
      if negb (strings.HasPrefix line "data: ") then significant unmarshal rest
      else if String.eqb (strings.TrimPrefix line "data: ") "[DONE]" then []
      else match unmarshal (strings.TrimPrefix line "data: ") with
           | Some _ => line :: significant unmarshal rest
           | None => significant unmarshal rest
           end
  end.

(** The events they decode to. *)
Definition events (unmarshal : string -> option GoogleResponse.t) (lines : list string)
  : list GoogleResponse.t :=
  omap (fun line => unmarshal (strings.TrimPrefix line "data: "))
    (significant unmarshal lines).

(** The text of an aggregated reply and the text a streamed reply adds up
    to. *)
Definition reply_text (reply : gin.Reply) : string :=
  match reply with
  | gin.JSON_ _ (gin.Completion resp) =>
      String.concat ""
        ((fun choice =>
            match ChatCompletionMessage.Content (ChatCompletionChoice.Message choice) with
            | JString s => s
            | _ => ""
            end) <$> ChatCompletionResponse.Choices resp)
  | _ => ""
  end.

Definition streamed_text (reply : gin.Reply) : string :=
  match reply with
  | gin.EventStream evs =>
      String.concat ""
        (evs ≫= fun ev =>
           match ev with
           | gin.Data chunk => ChatCompletionDelta.Content <$> deltas chunk
           | gin.DONE => []
           end)
  | _ => ""
  end.

(** A stream whose usage metadata comes in a last event without candidates. *)
Definition usage_only_payload : string :=
  json_text "{'response':{'usageMetadata':{'promptTokenCount':10,'candidatesTokenCount':5,'totalTokenCount':15}}}".

Definition usage_last_body : list string :=
  ["data: " +:+ text_payload "4"; "data: " +:+ usage_only_payload; "data: [DONE]"].

Definition usage_last_decode : string -> option GoogleResponse.t :=
  decode_table
    [(text_payload "4", text_event "4");
     (usage_only_payload,
      GoogleResponse.mk (GoogleResponseInner.mk [] (Some (GoogleUsage.mk 10 5 15))))].

(** The token fields of an account. *)
Definition tokens_of (a : Account.t) : string * string * Z * Z :=
  (Account.AccessToken a, Account.RefreshToken a, Account.ExpiresIn a, Account.Timestamp a).

(** Every account file that decodes holds the account it is named after. *)
Definition keyed (store : AccountStore.t) : Prop :=
  forall accountID account,
    AccountStore.files store !! accountID = Some (Some account) ->
    Account.AccountID account = accountID.

(** No file of [before] is missing in [after]. *)
Definition keeps_files (before after : AccountStore.t) : Prop :=
  forall accountID,
    is_Some (AccountStore.files before !! accountID) ->
    is_Some (AccountStore.files after !! accountID).

(** The record of a day and an account; the zero record of that day and
    account when the file is not there. *)
Definition daily (today accountID : string) (s : UsageStore.t) : UsageRecord.t :=
  default (UsageRecord.mk today accountID 0 0 0 0)
    (UsageStore.files s !! UsageStore.filename today accountID).

(** The backoff a 429 leaves on an account whose backoff was [b]. *)
Definition next_backoff (b : Z) : Z :=
  let doubled := if b >? 0 then go.wrap64 (b * 2) else 120 in
  if doubled >? 1800 then 1800 else doubled.

(** [s2] is [s1] with one account file written, the one named after
    [account], which now decodes to [stored]: the other account files, the
    cursor and the usage files are those of [s1], and [stored] has the
    expiry, time stamp, last refresh and usage of [account]. *)
Definition records (account stored : Account.t) (s1 s2 : server.Server) : Prop :=
  server.usageStore s2 = server.usageStore s1
  /\ oauth.currentIndex (server.oauthClient s2) = oauth.currentIndex (server.oauthClient s1)
  /\ AccountStore.Load (Account.AccountID account) (accounts_of s2) = inr stored
  /\ (forall accountID,
        accountID <> Account.AccountID account ->
        AccountStore.Load accountID (accounts_of s2)
        = AccountStore.Load accountID (accounts_of s1))
  /\ Account.ExpiresIn stored = Account.ExpiresIn account
  /\ Account.Timestamp stored = Account.Timestamp account
  /\ Account.LastRefresh stored = Account.LastRefresh account
  /\ Account.Usage stored = Account.Usage account.

(** The numbers and flags of [stored] are those of [account] after a 429 at
    [now]: one more rate limit, the next backoff, in cooldown until [now]
    plus that backoff, and the rest as it was. *)
Definition marked_rate_limited (now : time.Time) (account stored : Account.t) : Prop :=
  Account.RefreshStatus stored = "rate_limited"
  /\ rate_limit_count_of stored = go.wrap64 (rate_limit_count_of account + 1)
  /\ backoff_of stored = next_backoff (backoff_of account)
  /\ failed_until_of stored
     = Some (go.wrap64 (time.Unix now + next_backoff (backoff_of account)))
  /\ ErrorTracking.LastErrorTime (Account.tracking stored) = Some (time.Unix now)
  /\ failures_of stored = failures_of account
  /\ Account.Enable stored = Account.Enable account
  /\ ErrorTracking.IsPermissionDenied (Account.tracking stored)
     = ErrorTracking.IsPermissionDenied (Account.tracking account).

(** ... after a 403 at [now]: disabled and marked permission-denied, the
    counters and the cooldown as they were. *)
Definition marked_denied (now : time.Time) (account stored : Account.t) : Prop :=
  Account.RefreshStatus stored = "permission_denied"
  /\ Account.Enable stored = false
  /\ ErrorTracking.IsPermissionDenied (Account.tracking stored) = true
  /\ ErrorTracking.LastErrorTime (Account.tracking stored) = Some (time.Unix now)
  /\ failures_of stored = failures_of account
  /\ failed_until_of stored = failed_until_of account
  /\ rate_limit_count_of stored = rate_limit_count_of account
  /\ backoff_of stored = backoff_of account.

(** ... after a generic failure at [now]: one more failure in a row, in
    cooldown until [now] plus the cooldown of that count, and the rest as
    it was. *)
Definition marked_failed (now : time.Time) (account stored : Account.t) : Prop :=
  Account.RefreshStatus stored = "failed"
  /\ failures_of stored = failures_of account + 1
  /\ failed_until_of stored
     = Some (go.wrap64 (time.Unix now + cooldown_of_failures (failures_of account + 1)))
  /\ ErrorTracking.LastErrorTime (Account.tracking stored) = Some (time.Unix now)
  /\ Account.Enable stored = Account.Enable account
  /\ rate_limit_count_of stored = rate_limit_count_of account
  /\ backoff_of stored = backoff_of account
  /\ ErrorTracking.IsPermissionDenied (Account.tracking stored)
     = ErrorTracking.IsPermissionDenied (Account.tracking account).

(** The panic of a nil pointer dereference, as the handler is left by it. *)
Definition nil_dereference : gin.Reply :=
  gin.Aborted "runtime error: invalid memory address or nil pointer dereference".

(** An attempt made [second] seconds into the epoch. *)
Definition attempt_at (second : Z)
    (Do : GoogleRequest.t -> string -> string + http.Response) : server.Attempt :=
  server.mkAttempt
    (oauth.mkWorld (second * time.Second) (oauth.TokenSource example_world)
       (oauth.fetchModels example_world))
    "2023-11-14" example_entropy
    (fun n => "00000000-0000-4000-8000-00000000000" +:+ pretty n) Do.

(** The clock of the five attempts on an upstream that is down, with one
    account: the loop sleeps 2 seconds after the second attempt and 4 after
    the fourth, which find the account in cooldown. *)
Definition down_clock (n : nat) : Z :=
  match n with
  | 0%nat | 1%nat => 1700000000
  | 2%nat | 3%nat => 1700000002
  | _ => 1700000006
  end.

(** An upstream that throttles every request. *)
Definition throttle_all : GoogleRequest.t -> string -> string + http.Response :=
  fun _ _ => inr quota_response.

(** * Properties *)

(** ** Wrap-around arithmetic *)

Lemma wrap64_id z : go.in_int64 z -> go.wrap64 z = z.
Proof.
  unfold go.in_int64, go.wrap64. intros H.
  rewrite Z.mod_small; lia.
Qed.

Lemma wrap64_range z : go.in_int64 (go.wrap64 z).
Proof.
  unfold go.in_int64, go.wrap64.
  pose proof (Z.mod_pos_bound (z + 2 ^ 63) (2 ^ 64) ltac:(lia)). lia.
Qed.

Lemma wrap64_add_l x y : go.wrap64 (go.wrap64 x + y) = go.wrap64 (x + y).
Proof.
  unfold go.wrap64.
  replace ((x + 2 ^ 63) `mod` 2 ^ 64 - 2 ^ 63 + y + 2 ^ 63)
    with ((x + 2 ^ 63) `mod` 2 ^ 64 + y) by lia.
  rewrite Zplus_mod_idemp_l. f_equal. f_equal. lia.
Qed.

Lemma wrap64_add_r x y : go.wrap64 (x + go.wrap64 y) = go.wrap64 (x + y).
Proof. rewrite (Z.add_comm x), wrap64_add_l. f_equal. lia. Qed.

Lemma wrap64_add_cancel x y z :
  go.wrap64 (x + y) = go.wrap64 (x + z) <-> go.wrap64 y = go.wrap64 z.
Proof.
  split; intros H.
  - assert (E : go.wrap64 (go.wrap64 (x + y) + - x) = go.wrap64 (go.wrap64 (x + z) + - x))
      by (rewrite H; reflexivity).
    rewrite !wrap64_add_l in E.
    replace (x + y + - x) with y in E by lia.
    replace (x + z + - x) with z in E by lia. exact E.
  - rewrite <- (wrap64_add_r x y), <- (wrap64_add_r x z), H. reflexivity.
Qed.

(** ** Account state machine *)

Lemma backoff_RecordSuccess t a : backoff_of (Account.RecordSuccess t a) = 0.
Proof. reflexivity. Qed.

Lemma backoff_RecordRateLimit t a :
  backoff_of (Account.RecordRateLimit t a) =
    if backoff_of a >? 0
    then (if go.wrap64 (backoff_of a * 2) >? 1800 then 1800
          else go.wrap64 (backoff_of a * 2))
    else 120.
Proof.
  unfold backoff_of, Account.RecordRateLimit. cbn.
  destruct (_ >? 0); reflexivity.
Qed.

Lemma failed_until_RecordRateLimit t a :
  failed_until_of (Account.RecordRateLimit t a) =
    Some (go.wrap64 (time.Unix t + backoff_of (Account.RecordRateLimit t a))).
Proof. reflexivity. Qed.

Lemma rate_limits_snoc ts t a :
  rate_limits (ts ++ [t]) a = Account.RecordRateLimit t (rate_limits ts a).
Proof. unfold rate_limits. rewrite foldl_app. reflexivity. Qed.

Lemma backoff_first t a :
  backoff_of a = 0 -> backoff_of (Account.RecordRateLimit t a) = 120.
Proof. intros H. rewrite backoff_RecordRateLimit, H. reflexivity. Qed.

Lemma backoff_next t a :
  0 < backoff_of a <= 1800 ->
  backoff_of (Account.RecordRateLimit t a) = Z.min (backoff_of a * 2) 1800.
Proof.
  intros H. rewrite backoff_RecordRateLimit.
  rewrite wrap64_id by (unfold go.in_int64; lia).
  destruct (Z.gtb_spec (backoff_of a) 0); [|lia].
  destruct (Z.gtb_spec (backoff_of a * 2) 1800); lia.
Qed.

Lemma backoff_sequence ts t a :
  backoff_of a = 0 ->
  backoff_of (Account.RecordRateLimit t (rate_limits ts a))
  = Z.min (120 * 2 ^ Z.of_nat (length ts)) 1800.
Proof.
  intros H0. revert t. induction ts as [|t' ts IH] using rev_ind; intros t.
  - cbn [rate_limits foldl length]. rewrite backoff_first by assumption. reflexivity.
  - rewrite rate_limits_snoc, length_app. cbn [length].
    rewrite backoff_next.
    + rewrite IH. replace (Z.of_nat (length ts + 1)) with (Z.succ (Z.of_nat (length ts))) by lia.
      rewrite Z.pow_succ_r by lia.
      assert (0 < 2 ^ Z.of_nat (length ts)) by (apply Z.pow_pos_nonneg; lia).
      lia.
    + rewrite IH.
      assert (0 < 2 ^ Z.of_nat (length ts)) by (apply Z.pow_pos_nonneg; lia).
      lia.
Qed.

Lemma rate_limit_count_sequence ts a :
  rate_limit_count_of a = 0 ->
  rate_limit_count_of (rate_limits ts a) = go.wrap64 (Z.of_nat (length ts)).
Proof.
  intros H0. induction ts as [|t' ts IH] using rev_ind.
  - cbn. rewrite H0. reflexivity.
  - rewrite rate_limits_snoc, length_app. cbn [length].
    unfold rate_limit_count_of in *. cbn. fold (Account.tracking (rate_limits ts a)).
    rewrite IH, wrap64_add_l. f_equal. lia.
Qed.

(** C6. Rate-limit backoff: on an account whose backoff is 0 (a new account,
    or one that just recorded a success), the first 429 sets the backoff to
    120 s, the 429 that follows [n] earlier ones without a success in between
    sets it to min(120 * 2^n, 1800) s, and each time [failed_until] is the clock's
    second plus that backoff; recording a success puts the backoff and the
    rate-limit count back to 0. *)
Theorem rate_limit_backoff (a : Account.t) (ts : list time.Time) (t t' : time.Time) :
  backoff_of a = 0 ->
  clock_ok t ->
  let a1 := Account.RecordRateLimit t a in
  let an := Account.RecordRateLimit t (rate_limits ts a) in
  backoff_of a1 = 120
  /\ backoff_of an = Z.min (120 * 2 ^ Z.of_nat (length ts)) 1800
  /\ failed_until_of an = Some (time.Unix t + backoff_of an)
  /\ Account.RefreshStatus an = "rate_limited"
  /\ backoff_of (Account.RecordSuccess t' an) = 0
  /\ rate_limit_count_of (Account.RecordSuccess t' an) = 0
  /\ backoff_of (Account.RecordRateLimit t (Account.RecordSuccess t' an)) = 120.
Proof.
  intros H0 Ht a1 an. subst a1 an.
  split; [apply backoff_first, H0|].
  split; [apply backoff_sequence, H0|].
  split.
  { rewrite failed_until_RecordRateLimit, backoff_sequence by assumption.
    f_equal. apply wrap64_id. unfold clock_ok, go.in_int64 in *.
    assert (0 < 2 ^ Z.of_nat (length ts)) by (apply Z.pow_pos_nonneg; lia).
    lia. }
  split; [reflexivity|].
  split; [reflexivity|].
  split; [reflexivity|].
  apply backoff_first. reflexivity.
Qed.

Lemma rate_limit_backoff_witness :
  let t := 1700000100 * time.Second in
  let an := Account.RecordRateLimit t (rate_limits [t; t; t; t; t] new_account) in
  backoff_of an = 1800 /\ failed_until_of an = Some (1700000100 + 1800).
Proof.
  intros t an.
  destruct (rate_limit_backoff new_account [t; t; t; t; t] t t) as (_ & Hn & Hu & _).
  - reflexivity.
  - unfold clock_ok. vm_compute. split; [discriminate | reflexivity].
  - fold an in Hn, Hu. split.
    + rewrite Hn. reflexivity.
    + rewrite Hu, Hn. reflexivity.
Defined.

Lemma shl64_one n :
  0 <= n ->
  go.shl64 1 n = Some (if n <? 63 then 2 ^ n else if n =? 63 then - 2 ^ 63 else 0).
Proof.
  intros Hn. unfold go.shl64.
  destruct (Z.ltb_spec n 0); [lia|]. f_equal.
  destruct (Z.leb_spec 64 n).
  - destruct (Z.ltb_spec n 63); [lia|]. destruct (Z.eqb_spec n 63); [lia|]. reflexivity.
  - rewrite Z.shiftl_1_l.
    destruct (Z.ltb_spec n 63).
    + apply wrap64_id. unfold go.in_int64.
      assert (0 < 2 ^ n) by (apply Z.pow_pos_nonneg; lia).
      assert (2 ^ n < 2 ^ 63) by (apply Z.pow_lt_mono_r; lia). lia.
    + assert (n = 63) as -> by lia. reflexivity.
Qed.

Lemma RecordFailure_spec t err a :
  0 <= failures_of a < 2 ^ 62 ->
  exists a',
    Account.RecordFailure t err a = go.Ret a'
    /\ failures_of a' = failures_of a + 1
    /\ failed_until_of a' =
         Some (go.wrap64 (time.Unix t + cooldown_of_failures (failures_of a + 1)))
    /\ Account.RefreshStatus a' = "failed"
    /\ Account.Enable a' = Account.Enable a
    /\ Account.AccountID a' = Account.AccountID a.
Proof.
  intros Hn. unfold Account.RecordFailure.
  fold (failures_of a).
  rewrite (wrap64_id (failures_of a + 1)) by (unfold go.in_int64; lia).
  rewrite shl64_one by lia.
  eexists. split; [reflexivity|]. split; [reflexivity|].
  split; [|repeat split].
  unfold failed_until_of. cbn. do 2 f_equal.
  unfold cooldown_of_failures.
  destruct (Z.ltb_spec (failures_of a + 1) 63).
  - destruct (Z.gtb_spec (2 ^ (failures_of a + 1)) 3600); lia.
  - destruct (Z.eqb_spec (failures_of a + 1) 63); reflexivity.
Qed.

Lemma fail_times_snoc ts t a :
  fail_times (ts ++ [t]) a =
    match fail_times ts a with
    | go.Ret a' => Account.RecordFailure t "upstream failure" a'
    | other => other
    end.
Proof.
  revert a. induction ts as [|t0 ts IH]; intros a; cbn.
  - destruct (Account.RecordFailure _ _ _); reflexivity.
  - destruct (Account.RecordFailure t0 _ a); try reflexivity. apply IH.
Qed.

Lemma fail_times_count ts a :
  0 <= failures_of a ->
  failures_of a + Z.of_nat (length ts) < 2 ^ 62 ->
  exists a', fail_times ts a = go.Ret a'
             /\ failures_of a' = failures_of a + Z.of_nat (length ts).
Proof.
  revert a. induction ts as [|t ts IH]; intros a H0 Hk; cbn [fail_times length] in *.
  - exists a. split; [reflexivity | lia].
  - destruct (RecordFailure_spec t "upstream failure" a) as (a1 & E & Hc & _); [lia|].
    rewrite E. destruct (IH a1) as (a' & E' & Hc'); [lia | lia |].
    exists a'. split; [exact E' | lia].
Qed.

(** Up to 62 failures in a row the cooldowns are 2, 4, 8, ..., 2048, 3600,
    3600, ... *)
Lemma cooldown_sequence ts t a :
  failures_of a = 0 ->
  clock_ok t ->
  (length ts < 62)%nat ->
  cooldown_after (ts ++ [t]) a = Some (Z.min (2 ^ Z.of_nat (S (length ts))) 3600).
Proof.
  intros H0 Ht Hk. unfold cooldown_after. rewrite fail_times_snoc.
  destruct (fail_times_count ts a) as (a' & E & Hc); [lia | lia |].
  rewrite E.
  destruct (RecordFailure_spec t "upstream failure" a') as (a2 & E2 & Hc2 & Hu & _); [lia|].
  rewrite E2, Hu, last_snoc. cbn. f_equal.
  rewrite Hc, H0. unfold cooldown_of_failures.
  replace (0 + Z.of_nat (length ts) + 1) with (Z.of_nat (S (length ts))) by lia.
  destruct (Z.ltb_spec (Z.of_nat (S (length ts))) 63); [|lia].
  rewrite wrap64_id; [lia|].
  unfold clock_ok, go.in_int64 in *.
  assert (0 < 2 ^ Z.of_nat (S (length ts))) by (apply Z.pow_pos_nonneg; lia). lia.
Qed.

(** C7. Backoff of consecutive generic failures, at the input where the code
    leaves the sequence 2, 4, 8, ..., 3600: the 62nd failure in a row still
    gives 3600 s, the 63rd gives [failed_until - now = -2^63] (the shift
    [1 << 63] is negative in [int64] and passes the cap test), which puts
    the account out of cooldown, and every later one gives 0. *)
Theorem failure_cooldown_overflow :
  let t := 1700000000 * time.Second in
  cooldown_after (replicate 62 t) new_account = Some 3600
  /\ cooldown_after (replicate 63 t) new_account = Some (- 2 ^ 63)
  /\ cooldown_after (replicate 64 t) new_account = Some 0
  /\ Z.min (2 ^ 63) 3600 = 3600
  /\ match fail_times (replicate 63 t) new_account with
     | go.Ret a => Account.IsInCooldown t a = false
     | _ => False
     end.
Proof.
  intros t.
  split; [vm_compute; reflexivity|].
  split; [vm_compute; reflexivity|].
  split; [vm_compute; reflexivity|].
  split; [reflexivity|].
  vm_compute. reflexivity.
Qed.

(** ** Strings *)

Lemma length_append (s1 s2 : string) :
  String.length (s1 +:+ s2) = (String.length s1 + String.length s2)%nat.
Proof. induction s1 as [|c s1 IH]; simpl; [reflexivity | f_equal; exact IH]. Qed.

Lemma length_substring (s : string) (n m : nat) :
  String.length (String.substring n m s) = Nat.min m (String.length s - n).
Proof.
  revert n m. induction s as [|c s IH]; intros [|n] [|m]; cbn; try reflexivity.
  - rewrite IH. cbn. rewrite Nat.sub_0_r. reflexivity.
  - apply IH.
  - apply IH.
Qed.

Lemma append_cons (c : ascii) (s1 s2 : string) :
  String c s1 +:+ s2 = String c (s1 +:+ s2).
Proof. reflexivity. Qed.

Lemma append_nil_l (s : string) : "" +:+ s = s.
Proof. reflexivity. Qed.

Lemma substring_full (s : string) : String.substring 0 (String.length s) s = s.
Proof. induction s as [|c s IH]; simpl; [reflexivity | f_equal; exact IH]. Qed.

Lemma substring_split (s : string) (n : nat) :
  (n <= String.length s)%nat ->
  String.substring 0 n s +:+ String.substring n (String.length s - n) s = s.
Proof.
  revert n. induction s as [|c s IH]; intros [|n] Hn; simpl in *;
    try reflexivity; try lia.
  - rewrite append_nil_l. f_equal. apply substring_full.
  - rewrite append_cons. f_equal. apply IH. lia.
Qed.

Lemma TrimSuffix_append (s suffix : string) :
  strings.HasSuffix s suffix = true ->
  strings.TrimSuffix s suffix +:+ suffix = s.
Proof.
  intros H. unfold strings.TrimSuffix. rewrite H.
  unfold strings.HasSuffix in H. apply andb_true_iff in H as [Hlen Heq].
  apply Nat.leb_le in Hlen. apply String.eqb_eq in Heq.
  unfold strings.from, strings.slice, strings.len in *.
  remember (String.length s - String.length suffix)%nat as L eqn:HL.
  rewrite <- Heq, Nat.sub_0_r.
  apply substring_split. lia.
Qed.

(** ** Request translation *)

(** C8. Thinking models: a model name ending with [-thinking] reaches the
    vendor without that suffix and with thinking enabled; whenever thinking
    is enabled the generation config carries [includeThoughts = true] and
    [thinkingBudget = 8192], and [maxOutputTokens] is 12288 when the caller
    gave none (0) or one of at most 8192. *)
Theorem thinking_mode (e : server.Entropy) (req : ChatCompletionRequest.t) :
  let g := server.transformRequest e req in
  let cfg := GoogleInner.GenerationConfig (GoogleRequest.Request g) in
  (strings.HasSuffix (ChatCompletionRequest.Model req) "-thinking" = true ->
     GoogleRequest.Model g +:+ "-thinking" = ChatCompletionRequest.Model req
     /\ server.enableThinking (ChatCompletionRequest.Model req) = true)
  /\ (server.enableThinking (ChatCompletionRequest.Model req) = true ->
        GoogleGenerationConfig.ThinkingConfig cfg
          = Some (GoogleThinkingConfig.mk true (Some 8192) "")
        /\ (ChatCompletionRequest.MaxTokens req <= 8192 ->
              GoogleGenerationConfig.MaxOutputTokens cfg = Some 12288)
        /\ (8192 < ChatCompletionRequest.MaxTokens req ->
              GoogleGenerationConfig.MaxOutputTokens cfg
                = Some (ChatCompletionRequest.MaxTokens req))).
Proof.
  intros g cfg. subst g cfg. unfold server.transformRequest.
  destruct (server.buildContents _ _ _) as [contents systemInstruction]. cbn.
  split.
  - intros Hs. rewrite Hs. split.
    + apply TrimSuffix_append, Hs.
    + unfold server.enableThinking. rewrite Hs. reflexivity.
  - intros Ht. unfold server.buildGenerationConfig. rewrite Ht. cbn.
    split; [reflexivity|]. split; intros Hm.
    + destruct (Z.eqb_spec (ChatCompletionRequest.MaxTokens req) 0); cbn; [reflexivity|].
      destruct (Z.leb_spec (ChatCompletionRequest.MaxTokens req) 8192); [reflexivity | lia].
    + destruct (Z.eqb_spec (ChatCompletionRequest.MaxTokens req) 0); cbn; [lia|].
      destruct (Z.leb_spec (ChatCompletionRequest.MaxTokens req) 8192); [lia | reflexivity].
Qed.

Lemma thinking_mode_witness :
  let g := server.transformRequest example_entropy thinking_request in
  let cfg := GoogleInner.GenerationConfig (GoogleRequest.Request g) in
  GoogleRequest.Model g = "gemini-2.0-flash"
  /\ GoogleRequest.Project g = "useful-wave-41023"
  /\ GoogleGenerationConfig.ThinkingConfig cfg
       = Some (GoogleThinkingConfig.mk true (Some 8192) "")
  /\ GoogleGenerationConfig.MaxOutputTokens cfg = Some 12288.
Proof.
  intros g cfg.
  destruct (thinking_mode example_entropy thinking_request) as [Hs Ht].
  destruct Hs as [_ He]; [reflexivity|].
  destruct (Ht He) as (Hc & Hm & _).
  split; [reflexivity|]. split; [reflexivity|]. split; [exact Hc|].
  apply Hm. cbn. lia.
Defined.

(** ** Response translation: streaming *)

Lemma chunksOf_forget a model n parts :
  server.chunksOf a model n (forget_thought_part <$> parts)
  = server.chunksOf a model n parts.
Proof.
  unfold server.chunksOf. rewrite imap_fmap. apply imap_ext.
  intros i p _. reflexivity.
Qed.

Lemma stream_forget unmarshal a model lines n t :
  server.stream (fun d => forget_thought <$> unmarshal d) a model lines n t
  = server.stream unmarshal a model lines n t.
Proof.
  revert n t. induction lines as [|line rest IH]; intros n t; [reflexivity|].
  cbn [server.stream].
  destruct (negb _); [apply IH|].
  destruct (String.eqb _ _); [reflexivity|].
  destruct (unmarshal _) as [r|]; cbn [fmap option_fmap option_map]; [|apply IH].
  change (GoogleResponseInner.Candidates (GoogleResponse.Response (forget_thought r)))
    with (forget_thought_candidate
            <$> GoogleResponseInner.Candidates (GoogleResponse.Response r)).
  change (server.trackUsage (forget_thought r) t) with (server.trackUsage r t).
  destruct (GoogleResponseInner.Candidates _) as [|candidate candidates];
    cbn [fmap list_fmap]; [apply IH|].
  change (GoogleContent.Parts (GoogleCandidate.Content (forget_thought_candidate candidate)))
    with (forget_thought_part <$> GoogleContent.Parts (GoogleCandidate.Content candidate)).
  rewrite length_fmap, chunksOf_forget, IH. reflexivity.
Qed.

Lemma chunksOf_deltas a model n parts :
  deltas <$> server.chunksOf a model n parts
  = (fun p => [ChatCompletionDelta.mk "" (GooglePart.Text p) "" []]) <$> parts.
Proof.
  unfold server.chunksOf. rewrite fmap_imap, <- imap_const. apply imap_ext.
  intros i p _. reflexivity.
Qed.

Lemma stream_deltas unmarshal a model lines n t :
  deltas <$> fst (server.stream unmarshal a model lines n t)
  = (fun p => [ChatCompletionDelta.mk "" (GooglePart.Text p) "" []])
      <$> upstream_parts unmarshal lines.
Proof.
  revert n t. induction lines as [|line rest IH]; intros n t; [reflexivity|].
  cbn [server.stream upstream_parts].
  destruct (negb _); [apply IH|].
  destruct (String.eqb _ _); [reflexivity|].
  destruct (unmarshal _) as [r|]; [|apply IH].
  destruct (GoogleResponseInner.Candidates _) as [|candidate candidates]; [apply IH|].
  specialize (IH (n + length (GoogleContent.Parts (GoogleCandidate.Content candidate)))%nat
                 (server.trackUsage r t)).
  destruct (server.stream _ _ _ _ _ _) as [chunks t']. cbn [fst] in *.
  rewrite !fmap_app, chunksOf_deltas, IH. reflexivity.
Qed.

(** C10. Streaming mode makes no difference between thought and plain
    parts: the events written are those written for the same upstream
    stream with every [thought] flag cleared; they are one chunk per part
    followed by [[DONE]], each chunk with a single delta whose [content] is
    the part's text as received (no [<think>] extraction) and whose
    [reasoning] and [tool_calls] are empty. *)
Theorem stream_ignores_thought (unmarshal : string -> option GoogleResponse.t)
    (a : server.Attempt) (body : list string) (model : string)
    (account : Account.t) (s : server.Server) :
  let reply := snd (server.handleStreamResponse unmarshal a body model account s) in
  reply = snd (server.handleStreamResponse (fun d => forget_thought <$> unmarshal d)
                 a body model account s)
  /\ exists chunks,
       reply = gin.EventStream ((gin.Data <$> chunks) ++ [gin.DONE])
       /\ deltas <$> chunks
          = (fun p => [ChatCompletionDelta.mk "" (GooglePart.Text p) "" []])
              <$> upstream_parts unmarshal body.
Proof.
  intros reply. subst reply. unfold server.handleStreamResponse.
  rewrite stream_forget.
  pose proof (stream_deltas unmarshal a model body 0 (server.mkTotals 0 0 0)) as Hd.
  destruct (server.stream _ _ _ _ _ _) as [chunks t]. cbn [fst snd] in *.
  split; [reflexivity|].
  exists chunks. split; [reflexivity | exact Hd].
Qed.

(** ** Response translation: aggregated mode, and usage accounting *)

Lemma handleNormalResponse_message unmarshal a body model account s :
  exists id created content reasoning usage,
    snd (server.handleNormalResponse unmarshal a body model account s)
    = gin.JSON_ 200
        (gin.Completion
           (ChatCompletionResponse.mk id "chat.completion" created model
              [ChatCompletionChoice.mk 0
                 (ChatCompletionMessage.mk "assistant" (JString content) reasoning "" [] "")
                 "stop"]
              usage "")).
Proof.
  unfold server.handleNormalResponse.
  destruct (server.aggregate _ _ _ _ _) as [[content reasoning] t].
  destruct (server.extractThinking content reasoning) as [content' reasoning'].
  cbn [snd]. do 5 eexists. reflexivity.
Qed.

(** C1. Aggregated mode at an upstream stream with a function-call part:
    the response carries no tool call (the message has empty content and an
    empty tool-call list), where the claim has the one entry
    [{id:"call_1", type:"function", function:{name:"get_time", arguments:"{}"}}];
    and no aggregated response of the handler ever carries a tool call. *)
Theorem aggregated_function_call_dropped :
  let reply :=
    snd (server.handleNormalResponse function_call_decode (example_attempt no_upstream)
           function_call_body "gemini-2.0-flash" new_account (server_with [new_account])) in
  reply
  = gin.JSON_ 200
      (gin.Completion
         (ChatCompletionResponse.mk "chatcmpl-00000000-0000-4000-8000-000000000000"
            "chat.completion" 1700000000 "gemini-2.0-flash"
            [ChatCompletionChoice.mk 0
               (ChatCompletionMessage.mk "assistant" (JString "") "" "" [] "")
               "stop"]
            (Some (Usage.mk 0 0 0)) ""))
  /\ upstream_parts function_call_decode function_call_body = [function_call_part]
  /\ tool_calls_of reply = []
  /\ tool_calls_of reply <> [expected_tool_call]
  /\ forall unmarshal a body model account s,
       tool_calls_of (snd (server.handleNormalResponse unmarshal a body model account s))
       = [].
Proof.
  intros reply.
  split; [vm_compute; reflexivity|].
  split; [vm_compute; reflexivity|].
  split; [vm_compute; reflexivity|].
  split; [vm_compute; discriminate|].
  intros unmarshal a body model account s.
  destruct (handleNormalResponse_message unmarshal a body model account s)
    as (id & created & content & reasoning & usage & E).
  rewrite E. reflexivity.
Qed.

Lemma handleNormalResponse_records unmarshal a body model account s :
  fst (server.handleNormalResponse unmarshal a body model account s)
  = server.recordUsage a account (captured_normal unmarshal body) s.
Proof.
  unfold server.handleNormalResponse, captured_normal.
  destruct (server.aggregate _ _ _ _ _) as [[content reasoning] t].
  destruct (server.extractThinking content reasoning). reflexivity.
Qed.

Lemma handleStreamResponse_records unmarshal a body model account s :
  fst (server.handleStreamResponse unmarshal a body model account s)
  = server.recordUsage a account (captured_stream unmarshal a model body) s.
Proof.
  unfold server.handleStreamResponse, captured_stream.
  destruct (server.stream _ _ _ _ _ _) as [chunks t]. reflexivity.
Qed.

(** C2. The usage sinks after a successful completion, at an account with
    zero usage and an answer reporting 10 input and 5 output tokens: the
    daily file [2023-11-14_{account_id}.json] is created with the counts and
    one request, the account record has its counts and request count
    updated, but its [last_used] stays absent, where the claim (and
    [Account.RecordUsage]) sets it to now; an account stored without a usage
    object is not updated at all. *)
Theorem usage_sinks_last_used_missing :
  let a := example_attempt no_upstream in
  let s := server_with [new_account; bare_account] in
  let s1 := fst (server.handleNormalResponse answer_decode a answer_body
                   "gemini-2.0-flash" new_account s) in
  let s2 := fst (server.handleStreamResponse answer_decode a answer_body
                   "gemini-2.0-flash" new_account s) in
  let s3 := fst (server.handleNormalResponse answer_decode a answer_body
                   "gemini-2.0-flash" bare_account s) in
  stored_usage (Account.AccountID new_account) s1
    = Some (Some (UsageStats.mk 20 10 5 1 None))
  /\ stored_usage (Account.AccountID new_account) s2
    = Some (Some (UsageStats.mk 20 10 5 1 None))
  /\ Account.Usage (Account.RecordUsage (oauth.Now example_world) 10 5 new_account)
    = Some (UsageStats.mk 15 10 5 1 (Some 1700000000000))
  /\ UsageStore.files (server.usageStore s1)
       !! "2023-11-14_alice@example.com_1a2b3c4d.json"
    = Some (UsageRecord.mk "2023-11-14" "alice@example.com_1a2b3c4d" 15 10 5 1)
  /\ stored_usage (Account.AccountID bare_account) s3 = Some None
  /\ Account.Usage (Account.RecordUsage (oauth.Now example_world) 10 5 bare_account)
    = Some (UsageStats.mk 15 10 5 1 (Some 1700000000000)).
Proof.
  intros a s s1 s2 s3. repeat split; vm_compute; reflexivity.
Qed.

(** C3, as stated, fails: after a successful aggregated call whose usage
    metadata reports 10 + 5 tokens and a total of 20, the stored account has
    [total_tokens = 20] and [input_tokens + output_tokens = 15]. *)
Lemma usage_invariant_counterexample :
  usage_invariant new_account
  /\ match stored (Account.AccountID new_account)
             (fst (server.handleNormalResponse answer_decode
                     (example_attempt no_upstream) answer_body "gemini-2.0-flash"
                     new_account (server_with [new_account]))) with
     | inr account' => ~ usage_invariant account'
     | inl _ => False
     end.
Proof.
  split; [reflexivity|]. vm_compute. intros H. discriminate H.
Qed.

Lemma usage_invariant_RecordUsage now inputTokens outputTokens a :
  usage_invariant a ->
  usage_invariant (Account.RecordUsage now inputTokens outputTokens a).
Proof.
  unfold usage_invariant, Account.RecordUsage, Account.usage.
  destruct (Account.Usage a) as [u|]; cbn; intros H.
  - rewrite H. repeat (rewrite wrap64_add_l || rewrite wrap64_add_r). f_equal. lia.
  - repeat (rewrite wrap64_add_l || rewrite wrap64_add_r). f_equal.
Qed.

Lemma recordUsage_invariant a account t s u :
  Account.Usage account = Some u ->
  AccountStore.read_only (oauth.accountStore (server.oauthClient s)) = false ->
  usage_invariant account ->
  exists account',
    stored (Account.AccountID account) (server.recordUsage a account t s) = inr account'
    /\ (usage_invariant account' <->
        go.wrap64 (server.totalTokens t)
        = go.wrap64 (server.inputTokens t + server.outputTokens t)).
Proof.
  intros Hu Hw Hinv. unfold server.recordUsage, stored. rewrite Hu.
  unfold server.saveAccount, AccountStore.Save. rewrite Hw. cbn.
  unfold AccountStore.Load. cbn. rewrite lookup_insert_eq.
  eexists. split; [reflexivity|].
  unfold usage_invariant in *. rewrite Hu in Hinv. cbn. rewrite Hinv.
  repeat (rewrite wrap64_add_l || rewrite wrap64_add_r).
  replace (UsageStats.InputTokens u + server.inputTokens t
           + (UsageStats.OutputTokens u + server.outputTokens t))
    with (UsageStats.InputTokens u + UsageStats.OutputTokens u
          + (server.inputTokens t + server.outputTokens t)) by lia.
  rewrite wrap64_add_cancel. reflexivity.
Qed.

(** C3, amended. [Account.RecordUsage] keeps
    [total_tokens = input_tokens + output_tokens] (in [int64]); a successful
    proxy call, aggregated or streaming, adds the total the upstream
    reported, and keeps the invariant on the stored account exactly when
    that total equals the reported prompt count plus the reported candidates
    count (as when no usage metadata arrives). *)
Theorem usage_invariant_preserved :
  (forall now inputTokens outputTokens a,
     usage_invariant a ->
     usage_invariant (Account.RecordUsage now inputTokens outputTokens a))
  /\ (forall unmarshal a body model account s u,
        Account.Usage account = Some u ->
        AccountStore.read_only (oauth.accountStore (server.oauthClient s)) = false ->
        usage_invariant account ->
        (exists account',
           stored (Account.AccountID account)
             (fst (server.handleNormalResponse unmarshal a body model account s))
           = inr account'
           /\ (usage_invariant account' <->
               let t := captured_normal unmarshal body in
               go.wrap64 (server.totalTokens t)
               = go.wrap64 (server.inputTokens t + server.outputTokens t)))
        /\ (exists account',
              stored (Account.AccountID account)
                (fst (server.handleStreamResponse unmarshal a body model account s))
              = inr account'
              /\ (usage_invariant account' <->
                  let t := captured_stream unmarshal a model body in
                  go.wrap64 (server.totalTokens t)
                  = go.wrap64 (server.inputTokens t + server.outputTokens t)))).
Proof.
  split; [apply usage_invariant_RecordUsage|].
  intros unmarshal a body model account s u Hu Hw Hinv.
  rewrite handleNormalResponse_records, handleStreamResponse_records.
  split; eapply recordUsage_invariant; eassumption.
Qed.

Lemma usage_invariant_preserved_witness :
  let a := example_attempt no_upstream in
  let s := server_with [new_account] in
  usage_invariant (Account.RecordUsage (oauth.Now example_world) 10 5 new_account)
  /\ exists account',
       stored (Account.AccountID new_account)
         (fst (server.handleStreamResponse function_call_decode a function_call_body
                 "gemini-2.0-flash" new_account s))
       = inr account'
       /\ usage_invariant account'.
Proof.
  intros a s. destruct usage_invariant_preserved as [Hr Hh]. split.
  - apply Hr. reflexivity.
  - destruct (Hh function_call_decode a function_call_body "gemini-2.0-flash"
                new_account s (UsageStats.mk 0 0 0 0 None))
      as [_ (account' & Hs & Hi)]; [reflexivity | reflexivity | reflexivity |].
    exists account'. split; [exact Hs|]. apply Hi. reflexivity.
Defined.

(** ** Account selection *)

Lemma RefreshToken_success w account c c' account' :
  oauth.RefreshToken w account c = (c', account', go.Ret tt) ->
  Account.Enable account' = Account.Enable account
  /\ Account.IsInCooldown (oauth.Now w) account' = false.
Proof.
  unfold oauth.RefreshToken.
  destruct (oauth.TokenSource w _) as [err|newToken].
  - destruct (Account.RecordFailure _ _ _) as [a1|[]|msg].
    + destruct (AccountStore.Save _ _). intros [=].
    + intros [=].
  - destruct (AccountStore.Save _ _) as [store' [err|]]; intros [= <- <-].
    split; [|reflexivity].
    cbn. destruct (String.eqb _ _), (oauth.fetchModels w _); reflexivity.
Qed.

Lemma rotate_returns_usable w accountIDs rounds c c' account :
  oauth.rotate w accountIDs rounds c = (c', go.Ret account) ->
  Account.Enable account = true
  /\ Account.IsInCooldown (oauth.Now w) account = false.
Proof.
  revert c. induction rounds as [|rounds IH]; intros c; cbn [oauth.rotate]; [intros [=]|].
  destruct (accountIDs !! _) as [accountID|]; [|intros [=]].
  destruct (AccountStore.Load _ _) as [err|candidate]; [apply IH|].
  destruct (Account.Enable candidate) eqn:He; cbn [negb]; [|apply IH].
  destruct (Account.IsInCooldown _ candidate) eqn:Hc; [apply IH|].
  destruct (Account.NeedsRefresh _ candidate).
  - destruct (oauth.RefreshToken w candidate _) as [[c2 account'] [[]|err|msg]] eqn:Hr.
    + intros [= <- <-]. apply RefreshToken_success in Hr as [-> ?]. auto.
    + apply IH.
    + intros [=].
  - intros [= <- <-]. auto.
Qed.

Lemma rotate_error w accountIDs rounds c c' e :
  oauth.rotate w accountIDs rounds c = (c', go.Err e) -> e = oauth.ErrNoValidAccounts.
Proof.
  revert c. induction rounds as [|rounds IH]; intros c; cbn [oauth.rotate];
    [intros [= <- <-]; reflexivity|].
  destruct (accountIDs !! _) as [accountID|]; [|intros [=]].
  destruct (AccountStore.Load _ _) as [err|candidate]; [apply IH|].
  destruct (negb _); [apply IH|].
  destruct (Account.IsInCooldown _ _); [apply IH|].
  destruct (Account.NeedsRefresh _ _); [|intros [=]].
  destruct (oauth.RefreshToken w candidate _) as [[c2 account'] [[]|err|msg]];
    [intros [=] | apply IH | intros [=]].
Qed.

Lemma rotate_all_unusable w accountIDs rounds c :
  accountIDs <> [] ->
  (forall accountID, accountID ∈ accountIDs ->
     unusable (oauth.Now w) (AccountStore.Load accountID (oauth.accountStore c)) = true) ->
  exists c', oauth.rotate w accountIDs rounds c = (c', go.Err oauth.ErrNoValidAccounts)
             /\ oauth.accountStore c' = oauth.accountStore c.
Proof.
  intros Hne. revert c. induction rounds as [|rounds IH]; intros c Hall; cbn [oauth.rotate].
  - exists c. split; reflexivity.
  - set (c1 := oauth.mkClient _ _).
    assert (Hidx : (oauth.currentIndex c1 < length accountIDs)%nat).
    { cbn. apply Nat.mod_upper_bound. destruct accountIDs; [congruence | cbn; lia]. }
    destruct (lookup_lt_is_Some_2 _ _ Hidx) as [accountID Hid]. rewrite Hid.
    pose proof (Hall accountID (list_elem_of_lookup_2 _ _ _ Hid)) as Hu.
    change (oauth.accountStore c1) with (oauth.accountStore c).
    destruct (IH c1 Hall) as (c' & Hrot & Hstore).
    destruct (AccountStore.Load _ _) as [err|candidate]; cbn [unusable] in Hu.
    + exists c'. split; assumption.
    + destruct (negb _); [exists c'; split; assumption|].
      cbn in Hu. rewrite Hu. exists c'. split; assumption.
Qed.

(** C5. [GetToken] (acquire) never returns a disabled account nor one whose
    [failed_until] is still ahead of the clock; an error it returns is
    [ErrNoAccounts] ("no accounts available") exactly when the store lists
    no account and [ErrNoValidAccounts] ("no valid accounts available")
    when the store lists some and the walk over all of them returned none,
    as it does when every listed account fails to load, is disabled or is in
    cooldown. *)
Theorem acquire_returns_usable :
  (forall w c c' account,
     oauth.GetToken w c = (c', go.Ret account) ->
     Account.Enable account = true
     /\ Account.IsInCooldown (oauth.Now w) account = false
     /\ forall failedUntil,
          failed_until_of account = Some failedUntil ->
          failedUntil <= time.Unix (oauth.Now w))
  /\ (forall w c,
        AccountStore.List (oauth.accountStore c) = inr [] ->
        oauth.GetToken w c = (c, go.Err oauth.ErrNoAccounts))
  /\ (forall w c c' e accountIDs,
        AccountStore.List (oauth.accountStore c) = inr accountIDs ->
        oauth.GetToken w c = (c', go.Err e) ->
        (accountIDs = [] /\ e = oauth.ErrNoAccounts)
        \/ (accountIDs <> [] /\ e = oauth.ErrNoValidAccounts))
  /\ (forall w c accountIDs,
        AccountStore.List (oauth.accountStore c) = inr accountIDs ->
        accountIDs <> [] ->
        (forall accountID, accountID ∈ accountIDs ->
           unusable (oauth.Now w) (AccountStore.Load accountID (oauth.accountStore c))
           = true) ->
        exists c', oauth.GetToken w c = (c', go.Err oauth.ErrNoValidAccounts)).
Proof.
  split; [|split; [|split]].
  - intros w c c' account. unfold oauth.GetToken.
    destruct (AccountStore.List _) as [err|accountIDs]; [intros [=]|].
    destruct (length accountIDs =? 0)%nat; [intros [=]|].
    intros H. apply rotate_returns_usable in H as [He Hc].
    split; [exact He|]. split; [exact Hc|].
    intros failedUntil Hf. unfold failed_until_of, Account.tracking in Hf.
    unfold Account.IsInCooldown in Hc.
    destruct (Account.ErrorTracking account) as [et|]; cbn in Hf; [|discriminate].
    rewrite Hf in Hc. apply Z.ltb_ge in Hc. exact Hc.
  - intros w c H. unfold oauth.GetToken. rewrite H. reflexivity.
  - intros w c c' e accountIDs H. unfold oauth.GetToken. rewrite H.
    destruct accountIDs as [|accountID accountIDs]; cbn [length Nat.eqb].
    + intros [= <- <-]. left. split; reflexivity.
    + intros Hr. right. split; [discriminate|]. eapply rotate_error, Hr.
  - intros w c accountIDs H Hne Hall. unfold oauth.GetToken. rewrite H.
    destruct accountIDs as [|accountID accountIDs]; [congruence|]. cbn [length Nat.eqb].
    destruct (rotate_all_unusable w (accountID :: accountIDs)
                (length (accountID :: accountIDs)) c Hne Hall) as (c' & Hr & _).
    exists c'. exact Hr.
Qed.

Lemma acquire_returns_usable_witness :
  let pool := server.oauthClient (server_with [disabled_account; cooling_account; new_account]) in
  let spent := server.oauthClient (server_with [disabled_account; cooling_account]) in
  let empty := server.oauthClient (server_with []) in
  (exists c', oauth.GetToken example_world pool = (c', go.Ret new_account))
  /\ Account.Enable new_account = true
  /\ Account.IsInCooldown (oauth.Now example_world) new_account = false
  /\ (exists c', oauth.GetToken example_world spent = (c', go.Err oauth.ErrNoValidAccounts))
  /\ oauth.GetToken example_world empty = (empty, go.Err oauth.ErrNoAccounts).
Proof.
  intros pool spent empty.
  destruct acquire_returns_usable as (Hok & Hempty & _ & Hnone).
  assert (Hget : oauth.GetToken example_world pool
                 = (oauth.mkClient (oauth.accountStore pool) 0, go.Ret new_account))
    by (vm_compute; reflexivity).
  destruct (Hok _ _ _ _ Hget) as (He & Hc & _).
  split; [eexists; exact Hget|]. split; [exact He|]. split; [exact Hc|]. split.
  - apply (Hnone example_world spent
             ["carol@example.com_0a0b0c0d"; "dave@example.com_9f8e7d6c"]).
    + vm_compute. reflexivity.
    + discriminate.
    + intros accountID Hin.
      apply elem_of_cons in Hin as [->|Hin]; [vm_compute; reflexivity|].
      apply elem_of_cons in Hin as [->|Hin]; [vm_compute; reflexivity|].
      apply elem_of_nil in Hin. contradiction.
  - apply Hempty. vm_compute. reflexivity.
Defined.

(** ** The retry loop *)

Lemma retry_step unmarshal req env remaining n lastErr s :
  server.retry unmarshal req env (S remaining) n lastErr s
  = match server.attempt unmarshal req (env n) s with
    | server.Continue s' err =>
        server.retry unmarshal req env remaining (S n) (Some err) s'
    | server.Return s' reply => (s', reply)
    end.
Proof. reflexivity. Qed.

Lemma RecordFailure_ok t err a :
  counter_ok a ->
  exists a', Account.RecordFailure t err a = go.Ret a'
             /\ Account.RefreshStatus a' = "failed"
             /\ failures_of a' = failures_of a + 1.
Proof.
  intros H. destruct (RecordFailure_spec t err a H) as (a' & E & Hc & _ & Hs & _).
  exists a'. auto.
Qed.

Lemma saveAccount_records account stored s1 :
  AccountStore.read_only (accounts_of s1) = false ->
  Account.AccountID stored = Account.AccountID account ->
  Account.ExpiresIn stored = Account.ExpiresIn account ->
  Account.Timestamp stored = Account.Timestamp account ->
  Account.LastRefresh stored = Account.LastRefresh account ->
  Account.Usage stored = Account.Usage account ->
  records account stored s1 (server.saveAccount stored s1).
Proof.
  intros Hw Hid He Ht Hl Hu. unfold records, server.saveAccount, AccountStore.Save.
  fold (accounts_of s1). rewrite Hw. unfold accounts_of.
  cbn [fst server.usageStore server.oauthClient oauth.currentIndex oauth.accountStore].
  split; [reflexivity|]. split; [reflexivity|]. split; [|split].
  - unfold AccountStore.Load. cbn [AccountStore.files]. rewrite <- Hid, lookup_insert_eq.
    reflexivity.
  - intros accountID Hne. unfold AccountStore.Load. cbn [AccountStore.files].
    rewrite lookup_insert_ne by congruence. reflexivity.
  - auto.
Qed.

Lemma RecordFailure_marked now err account :
  counter_ok account ->
  exists stored,
    Account.RecordFailure now err account = go.Ret stored
    /\ marked_failed now account stored
    /\ Account.AccountID stored = Account.AccountID account
    /\ Account.ExpiresIn stored = Account.ExpiresIn account
    /\ Account.Timestamp stored = Account.Timestamp account
    /\ Account.LastRefresh stored = Account.LastRefresh account
    /\ Account.Usage stored = Account.Usage account.
Proof.
  intros Hc.
  destruct (RecordFailure_spec now err account Hc) as (stored & E & Hf & Hu & Hs & He & Hid).
  exists stored. split; [exact E|].
  unfold Account.RecordFailure in E. destruct (go.shl64 _ _); [|discriminate].
  injection E as E. unfold marked_failed.
  split; [|rewrite <- E; repeat (split; [reflexivity|]); reflexivity].
  split; [exact Hs|]. split; [exact Hf|]. split; [exact Hu|].
  rewrite <- E. repeat (split; [reflexivity|]). reflexivity.
Qed.

(** C4. Classification of an attempt's upstream outcome in [chatCompletions],
    for an attempt that acquired [account] with the account directory
    writable.  On 429 the account is recorded as rate limited (next backoff,
    cooldown) and the loop goes on to the next attempt, but only for an
    account that has its error tracking: for one stored without it the
    handler panics on a nil pointer before anything is recorded, and there
    is no further attempt.  On 403 the account is recorded as disabled and
    permission-denied and the loop goes on.  On any other 4xx a generic
    failure is recorded and the caller is answered with the upstream status
    and body, with no further attempt.  On any other status but 200, and on
    a transport error, a generic failure is recorded and the loop goes on.
    In each case only the file of that account is written.  When none of
    the 5 attempts ends the request the caller gets 503 with the last reason
    and the number 5. *)
Theorem upstream_outcome_classification
    (unmarshal : string -> option GoogleResponse.t)
    (req : ChatCompletionRequest.t) (env : nat -> server.Attempt) :
  (forall remaining n lastErr s c account,
     oauth.GetToken (server.world (env n)) (server.oauthClient s) = (c, go.Ret account) ->
     AccountStore.read_only (oauth.accountStore c) = false ->
     let now := oauth.Now (server.world (env n)) in
     let s1 := server.mkServer c (server.usageStore s) in
     let sent := server.Do (env n) (server.transformRequest (server.entropy (env n)) req)
                   (Account.AccessToken account) in
     let ends_with s2 reply :=
       server.retry unmarshal req env (S remaining) n lastErr s = (s2, reply) in
     let goes_on reason s2 :=
       server.retry unmarshal req env (S remaining) n lastErr s
       = server.retry unmarshal req env remaining (S n) (Some reason) s2 in
     (forall resp,
        sent = inr resp -> http.StatusCode resp = 429 ->
        (Account.ErrorTracking account = None -> ends_with s1 nil_dereference)
        /\ (Account.ErrorTracking account <> None ->
            exists s2 stored,
              goes_on "rate limit exceeded" s2
              /\ records account stored s1 s2
              /\ marked_rate_limited now account stored))
     /\ (forall resp,
           sent = inr resp -> http.StatusCode resp = 403 ->
           exists s2 stored,
             goes_on "permission denied" s2
             /\ records account stored s1 s2
             /\ marked_denied now account stored)
     /\ (forall resp,
           sent = inr resp ->
           400 <= http.StatusCode resp < 500 ->
           http.StatusCode resp <> 429 -> http.StatusCode resp <> 403 ->
           counter_ok account ->
           exists s2 stored,
             ends_with s2
               (gin.JSON_ (http.StatusCode resp)
                  (gin.H_error_details "Upstream API error"
                     (http.ReadAll (http.Body_ resp))))
             /\ records account stored s1 s2
             /\ marked_failed now account stored)
     /\ (forall resp,
           sent = inr resp ->
           http.StatusCode resp <> 200 ->
           ~ 400 <= http.StatusCode resp < 500 ->
           counter_ok account ->
           exists s2 stored,
             goes_on ("HTTP " +:+ pretty (http.StatusCode resp) +:+ ": "
                      +:+ http.ReadAll (http.Body_ resp)) s2
             /\ records account stored s1 s2
             /\ marked_failed now account stored)
     /\ (forall err,
           sent = inl err ->
           counter_ok account ->
           exists s2 stored,
             goes_on err s2
             /\ records account stored s1 s2
             /\ marked_failed now account stored))
  /\ (forall s0 s1 s2 s3 s4 s5 e0 e1 e2 e3 e4,
        server.attempt unmarshal req (env 0%nat) s0 = server.Continue s1 e0 ->
        server.attempt unmarshal req (env 1%nat) s1 = server.Continue s2 e1 ->
        server.attempt unmarshal req (env 2%nat) s2 = server.Continue s3 e2 ->
        server.attempt unmarshal req (env 3%nat) s3 = server.Continue s4 e3 ->
        server.attempt unmarshal req (env 4%nat) s4 = server.Continue s5 e4 ->
        server.chatCompletions unmarshal (inr req) env s0
        = (s5, gin.JSON_ 503
                 (gin.H_error_details_retries "Service unavailable after retries" e4 5))).
Proof.
  split.
  - intros remaining n lastErr s c account Hget Hw now s1 sent ends_with goes_on.
    assert (Hattempt : server.attempt unmarshal req (env n) s
                       = server.upstreamCall unmarshal req (env n) account s1)
      by (unfold server.attempt; rewrite Hget; reflexivity).
    unfold server.upstreamCall in Hattempt. fold now sent in Hattempt.
    assert (Hw1 : AccountStore.read_only (accounts_of s1) = false) by exact Hw.
    repeat apply conj.
    + intros resp Hsent Hst. rewrite Hsent in Hattempt. cbn zeta in Hattempt.
      rewrite Hst in Hattempt. cbn [Z.eqb Pos.eqb negb] in Hattempt. split.
      * intros Hnil. unfold ends_with. rewrite retry_step, Hattempt, Hnil. reflexivity.
      * intros Hsome. destruct (Account.ErrorTracking account) as [et|] eqn:Eet;
          [|congruence].
        exists (server.saveAccount (Account.RecordRateLimit now account) s1),
          (Account.RecordRateLimit now account).
        split; [unfold goes_on; rewrite retry_step, Hattempt; reflexivity|].
        split; [apply saveAccount_records; auto|].
        unfold marked_rate_limited. repeat (split; [reflexivity|]). reflexivity.
    + intros resp Hsent Hst. rewrite Hsent in Hattempt. cbn zeta in Hattempt.
      rewrite Hst in Hattempt. cbn [Z.eqb Pos.eqb negb] in Hattempt.
      exists (server.saveAccount (Account.RecordPermissionDenied now account) s1),
        (Account.RecordPermissionDenied now account).
      split; [unfold goes_on; rewrite retry_step, Hattempt; reflexivity|].
      split; [apply saveAccount_records; auto|].
      unfold marked_denied. repeat (split; [reflexivity|]). reflexivity.
    + intros resp Hsent Hst H429 H403 Hcnt.
      destruct (RecordFailure_marked now
                  ("HTTP " +:+ pretty (http.StatusCode resp) +:+ ": "
                   +:+ http.ReadAll (http.Body_ resp)) account Hcnt)
        as (stored & E & Hm & Hid & He & Ht & Hl & Hu).
      exists (server.saveAccount stored s1), stored.
      split; [|split; [apply saveAccount_records; auto | exact Hm]].
      unfold ends_with. rewrite retry_step, Hattempt, Hsent. cbn zeta. rewrite E.
      destruct (Z.eqb_spec (http.StatusCode resp) 200); [lia|]. cbn [negb].
      destruct (Z.eqb_spec (http.StatusCode resp) 429); [lia|].
      destruct (Z.eqb_spec (http.StatusCode resp) 403); [lia|].
      destruct (Z.leb_spec 400 (http.StatusCode resp)); [|lia].
      destruct (Z.ltb_spec (http.StatusCode resp) 500); [|lia].
      reflexivity.
    + intros resp Hsent H200 H4xx Hcnt.
      destruct (RecordFailure_marked now
                  ("HTTP " +:+ pretty (http.StatusCode resp) +:+ ": "
                   +:+ http.ReadAll (http.Body_ resp)) account Hcnt)
        as (stored & E & Hm & Hid & He & Ht & Hl & Hu).
      exists (server.saveAccount stored s1), stored.
      split; [|split; [apply saveAccount_records; auto | exact Hm]].
      unfold goes_on. rewrite retry_step, Hattempt, Hsent. cbn zeta. rewrite E.
      destruct (Z.eqb_spec (http.StatusCode resp) 200); [lia|]. cbn [negb].
      destruct (Z.eqb_spec (http.StatusCode resp) 429); [lia|].
      destruct (Z.eqb_spec (http.StatusCode resp) 403); [lia|].
      destruct (Z.leb_spec 400 (http.StatusCode resp));
        destruct (Z.ltb_spec (http.StatusCode resp) 500); try lia; reflexivity.
    + intros err Hsent Hcnt.
      destruct (RecordFailure_marked now err account Hcnt)
        as (stored & E & Hm & Hid & He & Ht & Hl & Hu).
      exists (server.saveAccount stored s1), stored.
      split; [|split; [apply saveAccount_records; auto | exact Hm]].
      unfold goes_on. rewrite retry_step, Hattempt, Hsent, E. reflexivity.
  - intros s0 s1 s2 s3 s4 s5 e0 e1 e2 e3 e4 H0 H1 H2 H3 H4.
    unfold server.chatCompletions, server.maxRetries.
    rewrite retry_step, H0, retry_step, H1, retry_step, H2, retry_step, H3,
      retry_step, H4.
    reflexivity.
Qed.

Lemma upstream_outcome_classification_witness :
  let throttled := fun _ : nat => example_attempt throttle_erin in
  let refuse := fun _ : nat => example_attempt bad_request in
  let down := fun n : nat => attempt_at (down_clock n) no_upstream in
  let bare := fun _ : nat => example_attempt throttle_all in
  (exists s2 erin,
     server.chatCompletions answer_decode (inr plain_request) throttled
       (server_with [new_account; second_account])
     = server.retry answer_decode plain_request throttled 4 1
         (Some "rate limit exceeded") s2
     /\ stored (Account.AccountID second_account) s2 = inr erin
     /\ stored (Account.AccountID new_account) s2 = inr new_account
     /\ Account.RefreshStatus erin = "rate_limited"
     /\ rate_limit_count_of erin = 1
     /\ backoff_of erin = 120
     /\ failed_until_of erin = Some 1700000120
     /\ Account.Enable erin = true)
  /\ (exists s2 alice,
        server.chatCompletions answer_decode (inr plain_request) refuse
          (server_with [new_account])
        = (s2, gin.JSON_ 400 (gin.H_error_details "Upstream API error" "malformed request"))
        /\ stored (Account.AccountID new_account) s2 = inr alice
        /\ Account.RefreshStatus alice = "failed"
        /\ failures_of alice = 1
        /\ failed_until_of alice = Some 1700000002)
  /\ snd (server.chatCompletions answer_decode (inr plain_request) down
            (server_with [new_account]))
     = gin.JSON_ 503
         (gin.H_error_details_retries "Service unavailable after retries"
            "dial tcp: connection refused" 5)
  /\ (let out := server.chatCompletions answer_decode (inr plain_request) bare
                   (server_with [bare_account]) in
      snd out = nil_dereference
      /\ stored (Account.AccountID bare_account) (fst out) = inr bare_account).
Proof.
  intros throttled refuse down bare. split; [|split; [|split]].
  - destruct (upstream_outcome_classification answer_decode plain_request throttled)
      as [Hcls _].
    set (s := server_with [new_account; second_account]).
    assert (Hget : oauth.GetToken (server.world (throttled 0%nat)) (server.oauthClient s)
                   = (oauth.mkClient (oauth.accountStore (server.oauthClient s)) 1,
                      go.Ret second_account))
      by (vm_compute; reflexivity).
    destruct (Hcls 4%nat 0%nat None s _ _ Hget eq_refl) as (H429 & _).
    destruct (H429 quota_response eq_refl eq_refl) as [_ Hsome].
    destruct Hsome as (s2 & erin & Hgo & Hrec & Hmark); [discriminate|].
    destruct Hrec as (_ & _ & Hload & Hother & _).
    destruct Hmark as (Hst & Hcount & Hback & Huntil & _ & _ & Hen & _).
    exists s2, erin. split; [exact Hgo|]. split; [exact Hload|].
    split; [unfold stored; fold (accounts_of s2); rewrite Hother by discriminate;
            vm_compute; reflexivity|].
    split; [exact Hst|]. split; [rewrite Hcount; vm_compute; reflexivity|].
    split; [rewrite Hback; vm_compute; reflexivity|].
    split; [rewrite Huntil; vm_compute; reflexivity|].
    rewrite Hen. reflexivity.
  - destruct (upstream_outcome_classification answer_decode plain_request refuse)
      as [Hcls _].
    set (s := server_with [new_account]).
    assert (Hget : oauth.GetToken (server.world (refuse 0%nat)) (server.oauthClient s)
                   = (oauth.mkClient (oauth.accountStore (server.oauthClient s)) 0,
                      go.Ret new_account))
      by (vm_compute; reflexivity).
    destruct (Hcls 4%nat 0%nat None s _ _ Hget eq_refl) as (_ & _ & H4xx & _).
    destruct (H4xx (http.mk 400 (http.mkBody "malformed request" ["malformed request"]))
                eq_refl) as (s2 & alice & Hends & Hrec & Hmark).
    + cbn. lia.
    + cbn. lia.
    + cbn. lia.
    + unfold counter_ok. vm_compute. split; [discriminate | reflexivity].
    + destruct Hrec as (_ & _ & Hload & _).
      destruct Hmark as (Hst & Hf & Huntil & _).
      exists s2, alice. split; [exact Hends|]. split; [exact Hload|].
      split; [exact Hst|]. split; [rewrite Hf; vm_compute; reflexivity|].
      rewrite Huntil. vm_compute. reflexivity.
  - destruct (upstream_outcome_classification answer_decode plain_request down)
      as [_ Hout].
    erewrite Hout; [reflexivity | vm_compute; reflexivity ..].
  - destruct (upstream_outcome_classification answer_decode plain_request bare)
      as [Hcls _].
    set (s := server_with [bare_account]).
    assert (Hget : oauth.GetToken (server.world (bare 0%nat)) (server.oauthClient s)
                   = (oauth.mkClient (oauth.accountStore (server.oauthClient s)) 0,
                      go.Ret bare_account))
      by (vm_compute; reflexivity).
    destruct (Hcls 4%nat 0%nat None s _ _ Hget eq_refl) as (H429 & _).
    destruct (H429 quota_response eq_refl eq_refl) as [Hnil _].
    specialize (Hnil eq_refl).
    unfold server.chatCompletions, server.maxRetries. cbn zeta. rewrite Hnil.
    split; [reflexivity | vm_compute; reflexivity].
Defined.

(** ** Reasoning extraction *)

Lemma length_string_of_list_ascii (l : list ascii) :
  String.length (string_of_list_ascii l) = length l.
Proof. induction l as [|c l IH]; simpl; [reflexivity | f_equal; exact IH]. Qed.

Lemma length_list_ascii_of_string (s : string) :
  length (list_ascii_of_string s) = String.length s.
Proof. induction s as [|c s IH]; simpl; [reflexivity | f_equal; exact IH]. Qed.

Lemma length_reverse (s : string) : strings.len (strings.reverse s) = strings.len s.
Proof.
  unfold strings.reverse, strings.len.
  rewrite length_string_of_list_ascii, length_rev. apply length_list_ascii_of_string.
Qed.

Lemma length_from (i : nat) (s : string) :
  strings.len (strings.from i s) = (strings.len s - i)%nat.
Proof.
  unfold strings.from, strings.slice, strings.len. rewrite length_substring. lia.
Qed.

Lemma length_trim_rounds (width : string -> nat) (rounds : nat) (s : string) :
  (strings.len (strings.trim_rounds width rounds s) <= strings.len s)%nat.
Proof.
  revert s. induction rounds as [|rounds IH]; intros s; cbn [strings.trim_rounds];
    [reflexivity|].
  destruct (width s) as [|w]; [reflexivity|].
  etransitivity; [apply IH|]. rewrite length_from. lia.
Qed.

Lemma length_TrimSpace (s : string) :
  (strings.len (strings.TrimSpace s) <= strings.len s)%nat.
Proof.
  unfold strings.TrimSpace, strings.TrimRightSpace, strings.TrimLeftSpace.
  rewrite length_reverse.
  etransitivity; [apply length_trim_rounds|]. rewrite length_reverse.
  apply length_trim_rounds.
Qed.

(** Where an instance is found there is room for it. *)
Lemma Index_bound (s substr : string) (i : nat) :
  strings.Index s substr = Some i ->
  String.substring i (String.length substr) s = substr
  /\ (i + String.length substr <= String.length s)%nat.
Proof.
  intros H. split; [exact (String.index_correct1 _ _ _ _ H)|].
  destruct substr as [|c substr].
  - unfold strings.Index in H. destruct s; simpl in H; injection H as <-; simpl; lia.
  - apply String.index_correct1 in H.
    pose proof (f_equal String.length H) as Hl. rewrite length_substring in Hl.
    cbn [String.length] in Hl |- *. lia.
Qed.

(** An instance anywhere makes [Index] find one. *)
Lemma Index_found (s substr : string) (i : nat) :
  substr <> "" ->
  String.substring i (String.length substr) s = substr ->
  exists k, strings.Index s substr = Some k.
Proof.
  intros Hne H. unfold strings.Index.
  destruct (String.index 0 substr s) as [k|] eqn:E; [eauto|].
  exfalso. exact (String.index_correct3 0 i substr s E Hne (Nat.le_0_l i) H).
Qed.

Lemma findThink_match (content match0 match1 : string) :
  server.findThink content = Some (match0, match1) ->
  (15 <= String.length match0)%nat
  /\ exists i, String.substring i (String.length match0) content = match0.
Proof.
  unfold server.findThink.
  destruct (strings.Index content "<think>") as [i|] eqn:Ei; [|discriminate].
  destruct (strings.Index (strings.from (i + 7) content) "</think>") as [j|] eqn:Ej;
    [|discriminate].
  intros [= <- <-].
  apply Index_bound in Ei as [_ Hi]. apply Index_bound in Ej as [_ Hj].
  change (String.length (strings.from (i + 7) content))
    with (strings.len (strings.from (i + 7) content)) in Hj.
  rewrite length_from in Hj. unfold strings.len in Hj. cbn [String.length] in Hi, Hj.
  assert (Hlen : String.length (strings.slice i (i + 7 + j + 8) content) = (15 + j)%nat).
  { unfold strings.slice. rewrite length_substring. lia. }
  split; [lia|].
  exists i. rewrite Hlen. unfold strings.slice. f_equal. lia.
Qed.

Lemma length_ReplaceFirst_cut (s old : string) (i : nat) :
  old <> "" ->
  String.substring i (String.length old) s = old ->
  (strings.len (strings.ReplaceFirst s old "") + String.length old = strings.len s)%nat.
Proof.
  intros Hne H. unfold strings.ReplaceFirst.
  destruct (String.eqb_spec old ""); [contradiction|].
  destruct (Index_found s old i Hne H) as [k Hk]. rewrite Hk.
  apply Index_bound in Hk as [_ Hb].
  unfold strings.len in *.
  rewrite !length_append. cbn [String.length].
  change (String.length (strings.from (k + String.length old) s))
    with (strings.len (strings.from (k + String.length old) s)).
  rewrite length_from. unfold strings.slice, strings.len.
  rewrite length_substring. lia.
Qed.

Lemma extractThinking_shrinks (content match0 match1 : string) :
  server.findThink content = Some (match0, match1) ->
  (strings.len (fst (server.extractThinking content "")) < strings.len content)%nat.
Proof.
  intros H. unfold server.extractThinking. rewrite H. cbn [String.eqb fst].
  apply findThink_match in H as (Hlen & i & Hi).
  assert (Hne : match0 <> "") by (intros ->; cbn in Hlen; lia).
  pose proof (length_ReplaceFirst_cut content match0 i Hne Hi).
  pose proof (length_TrimSpace (strings.ReplaceFirst content match0 "")). lia.
Qed.

(** The extraction leaves a content unchanged exactly when it holds no
    [<think>...</think>] block. *)
Lemma extractThinking_fixed (content : string) :
  server.extractThinking content "" = (content, "")
  <-> server.findThink content = None.
Proof.
  split.
  - intros H. destruct (server.findThink content) as [[match0 match1]|] eqn:E;
      [|reflexivity].
    pose proof (extractThinking_shrinks content match0 match1 E) as Hlt.
    rewrite H in Hlt. cbn [fst] in Hlt. lia.
  - intros H. unfold server.extractThinking. rewrite H. reflexivity.
Qed.

(** C9, as stated, fails: with two blocks in the content the first run
    leaves the second one, and the run on that output takes it out. *)
Lemma think_extraction_counterexample :
  let content := "<think>a</think><think>b</think>" in
  let once := server.extractThinking content "" in
  once = ("<think>b</think>", "a")
  /\ server.extractThinking (fst once) "" = ("", "b")
  /\ fst (server.extractThinking (fst once) "") <> fst once.
Proof.
  intros content once. repeat split; vm_compute; [reflexivity..|discriminate].
Qed.

(** C9, amended. The extractor takes out the first [<think>...</think>]
    block only: running it again on its own output content makes no further
    change exactly when that output holds no further complete block; and the
    handler's step, which runs the extractor only while reasoning is empty,
    makes no further change on its own output whenever the first run
    produced non-empty reasoning. *)
Theorem think_extraction_rerun (content : string) :
  let once := server.extractThinking content "" in
  (server.extractThinking (fst once) "" = (fst once, "")
   <-> server.findThink (fst once) = None)
  /\ (snd once <> "" -> server.extractThinking (fst once) (snd once) = once)
  /\ (server.findThink content = None -> once = (content, "")).
Proof.
  intros once. split; [apply extractThinking_fixed|]. split.
  - intros Hne. unfold server.extractThinking at 1.
    destruct (String.eqb_spec (snd once) ""); [contradiction|].
    destruct once; reflexivity.
  - intros H. apply extractThinking_fixed, H.
Qed.

Lemma think_extraction_rerun_witness :
  let once := server.extractThinking "<think>because</think>final" "" in
  once = ("final", "because")
  /\ server.extractThinking (fst once) "" = (fst once, "")
  /\ server.extractThinking (fst once) (snd once) = once
  /\ server.extractThinking "no block here" "" = ("no block here", "").
Proof.
  intros once.
  destruct (think_extraction_rerun "<think>because</think>final") as (Hfix & Hguard & _).
  destruct (think_extraction_rerun "no block here") as (_ & _ & Hplain).
  fold once in Hfix, Hguard.
  split; [vm_compute; reflexivity|]. split; [|split].
  - apply Hfix. vm_compute. reflexivity.
  - apply Hguard. vm_compute. discriminate.
  - apply Hplain. vm_compute. reflexivity.
Defined.

(** ** The end-to-end scenarios of the specification, run on the model *)

Example strings_TrimSuffix :
  strings.TrimSuffix "gemini-2.0-flash-thinking" "-thinking" = "gemini-2.0-flash".
Proof. reflexivity. Qed.

Example strings_Split :
  strings.Split "data:image/png;base64,AAAA" ";base64," = ["data:image/png"; "AAAA"].
Proof. reflexivity. Qed.

Example strings_TrimSpace :
  strings.TrimSpace (String (ascii_of_nat 10) "  final " +:+ String (ascii_of_nat 9) "")
  = "final".
Proof. reflexivity. Qed.

Example strings_ReplaceFirst : strings.ReplaceFirst "a<b>c<b>" "<b>" "" = "ac<b>".
Proof. reflexivity. Qed.

Example scenario_happy_streaming :
  let decode := decode_table [(text_payload "A", text_event "A");
                              (text_payload "B", text_event "B")] in
  let body := ["data: " +:+ text_payload "A"; ""; "data: " +:+ text_payload "B"; "";
               "data: [DONE]"] in
  let out := server.handleStreamResponse decode (example_attempt no_upstream) body
               "gemini-2.0-flash" new_account (server_with [new_account]) in
  (exists c1 c2,
     snd out = gin.EventStream [gin.Data c1; gin.Data c2; gin.DONE]
     /\ deltas c1 = [ChatCompletionDelta.mk "" "A" "" []]
     /\ deltas c2 = [ChatCompletionDelta.mk "" "B" "" []])
  /\ stored_usage (Account.AccountID new_account) (fst out)
     = Some (Some (UsageStats.mk 0 0 0 1 None)).
Proof.
  intros decode body out. split.
  - do 2 eexists. vm_compute. repeat split.
  - vm_compute. reflexivity.
Qed.

(** Permission disablement: one account, the upstream answers 403. *)
Example scenario_permission_disablement :
  let denied := fun (_ : GoogleRequest.t) (_ : string) =>
                  inr (http.mk 403 (http.mkBody "denied" ["denied"])) in
  let out := server.chatCompletions answer_decode (inr plain_request)
               (fun _ => example_attempt denied) (server_with [new_account]) in
  snd out
  = gin.JSON_ 503
      (gin.H_error_details_retries "Service unavailable after retries"
         "no valid accounts available (all disabled, in cooldown, or failed refresh)" 5)
  /\ match stored (Account.AccountID new_account) (fst out) with
     | inr alice =>
         Account.Enable alice = false
         /\ ErrorTracking.IsPermissionDenied (Account.tracking alice) = true
     | inl _ => False
     end.
Proof. intros denied out. vm_compute. repeat split. Qed.

(** System message hoist. *)
Example scenario_system_message :
  let req := ChatCompletionRequest.mk "gemini-2.0-flash"
               [ChatCompletionMessage.mk "system" (JString "be terse") "" "" [] "";
                user_message "hi"]
               false 0 0 0 0 [] JNull 0 0 in
  let inner := GoogleRequest.Request (server.transformRequest example_entropy req) in
  GoogleInner.Contents inner = [GoogleContent.mk "user" [GooglePart.text "hi"]]
  /\ GoogleInner.SystemInstruction inner
     = Some (GoogleSystemInstruction.mk "user" [GooglePart.text "be terse"]).
Proof. intros req inner. split; reflexivity. Qed.

(** * Further properties of the code *)

(** ** Invariants of the stored accounts *)

Lemma stored_all_Save (P : Account.t -> Prop) account store :
  P account -> stored_all P store ->
  stored_all P (fst (AccountStore.Save account store)).
Proof.
  intros Ha Hs. unfold AccountStore.Save.
  destruct (AccountStore.read_only store); [exact Hs|].
  intros accountID a. cbn. rewrite lookup_insert.
  case_decide; [intros [= <-]; exact Ha | apply Hs].
Qed.

Lemma stored_all_Load (P : Account.t -> Prop) accountID account store :
  stored_all P store -> AccountStore.Load accountID store = inr account -> P account.
Proof.
  intros Hs. unfold AccountStore.Load.
  destruct (AccountStore.files store !! accountID) as [[a|]|] eqn:E; intros [= <-].
  exact (Hs _ _ E).
Qed.

Section StoreInvariant.

(** An invariant [J] of the account directory that rests on a property
    [P] of the accounts written to it. *)
Variable J : AccountStore.t -> Prop.
Variable P : Account.t -> Prop.

Hypothesis J_Save :
  forall account store, P account -> J store -> J (fst (AccountStore.Save account store)).
Hypothesis J_Load :
  forall accountID account store,
    J store -> AccountStore.Load accountID store = inr account -> P account.

Hypothesis P_success : forall now a, P a -> P (Account.RecordSuccess now a).
Hypothesis P_failure :
  forall now err a a', P a -> Account.RecordFailure now err a = go.Ret a' -> P a'.
Hypothesis P_rate_limit : forall now a, P a -> P (Account.RecordRateLimit now a).
Hypothesis P_denied : forall now a, P a -> P (Account.RecordPermissionDenied now a).
Hypothesis P_usage : forall u a, P a -> P (Account.set_Usage u a).
Hypothesis P_access : forall v a, P a -> P (Account.set_AccessToken v a).
Hypothesis P_refresh : forall v a, P a -> P (Account.set_RefreshToken v a).
Hypothesis P_expires : forall v a, P a -> P (Account.set_ExpiresIn v a).
Hypothesis P_timestamp : forall v a, P a -> P (Account.set_Timestamp v a).
Hypothesis P_models : forall v a, P a -> P (Account.set_Models v a).

Lemma invariant_saveAccount account s :
  P account -> J (accounts_of s) ->
  J (accounts_of (server.saveAccount account s)).
Proof. intros Ha Hs. apply J_Save; assumption. Qed.

Lemma invariant_RefreshToken w account c c' account' r :
  P account -> J (oauth.accountStore c) ->
  oauth.RefreshToken w account c = (c', account', r) ->
  J (oauth.accountStore c') /\ P account'.
Proof.
  intros Ha Hs. unfold oauth.RefreshToken.
  destruct (oauth.TokenSource w _) as [err|newToken].
  - destruct (Account.RecordFailure _ _ _) as [a1|[]|msg] eqn:Ef.
    + pose proof (P_failure _ _ _ _ Ha Ef) as H1.
      pose proof (J_Save a1 _ H1 Hs) as H2.
      destruct (AccountStore.Save a1 _) as [store' e]. intros [= <- <- <-]. auto.
    + intros [= <- <- <-]. auto.
  - set (a5 := Account.RecordSuccess _ _).
    assert (H5 : P a5).
    { apply P_success. destruct (oauth.fetchModels w _); [|apply P_models];
        apply P_timestamp, P_expires; destruct (String.eqb _ _); auto. }
    pose proof (J_Save a5 _ H5 Hs) as H2.
    destruct (AccountStore.Save a5 _) as [store' [e|]]; intros [= <- <- <-]; auto.
Qed.

Lemma invariant_rotate w accountIDs rounds c c' r :
  J (oauth.accountStore c) ->
  oauth.rotate w accountIDs rounds c = (c', r) ->
  J (oauth.accountStore c')
  /\ forall account, r = go.Ret account -> P account.
Proof.
  revert c. induction rounds as [|rounds IH]; intros c Hs; cbn [oauth.rotate].
  - intros [= <- <-]. split; [exact Hs | discriminate].
  - destruct (accountIDs !! _) as [accountID|];
      [|intros [= <- <-]; split; [exact Hs | discriminate]].
    destruct (AccountStore.Load _ _) as [err|candidate] eqn:El; [apply IH, Hs|].
    pose proof (J_Load _ _ _ Hs El) as Hc.
    destruct (negb _); [apply IH, Hs|].
    destruct (Account.IsInCooldown _ _); [apply IH, Hs|].
    destruct (Account.NeedsRefresh _ _).
    + destruct (oauth.RefreshToken w candidate _) as [[c2 account'] r'] eqn:Er.
      destruct (invariant_RefreshToken _ _ (oauth.mkClient _ _) _ _ _ Hc Hs Er)
        as [H2 Ha'].
      destruct r' as [[]|err|msg].
      * intros [= <- <-]. split; [exact H2|]. intros a [= <-]. exact Ha'.
      * apply IH, H2.
      * intros [= <- <-]. split; [exact H2 | discriminate].
    + intros [= <- <-]. split; [exact Hs|]. intros a [= <-]. exact Hc.
Qed.

Lemma invariant_GetToken w c c' r :
  J (oauth.accountStore c) ->
  oauth.GetToken w c = (c', r) ->
  J (oauth.accountStore c')
  /\ forall account, r = go.Ret account -> P account.
Proof.
  intros Hs. unfold oauth.GetToken.
  destruct (AccountStore.List _) as [err|accountIDs];
    [intros [= <- <-]; split; [exact Hs | discriminate]|].
  destruct (length accountIDs =? 0)%nat;
    [intros [= <- <-]; split; [exact Hs | discriminate]|].
  apply invariant_rotate, Hs.
Qed.

Lemma invariant_recordUsage a account t s :
  P account -> J (accounts_of s) ->
  J (accounts_of (server.recordUsage a account t s)).
Proof.
  intros Ha Hs. unfold server.recordUsage.
  destruct (Account.Usage account) as [u|]; [|exact Hs].
  apply invariant_saveAccount; [apply P_usage, Ha | exact Hs].
Qed.

Lemma invariant_upstreamCall unmarshal req a account s1 :
  P account -> J (accounts_of s1) ->
  match server.upstreamCall unmarshal req a account s1 with
  | server.Continue s' _ | server.Return s' _ => J (accounts_of s')
  end.
Proof.
  intros Ha Hs. unfold server.upstreamCall.
  destruct (server.Do a _ _) as [err|resp].
  - destruct (Account.RecordFailure _ _ _) as [a1|[]|msg] eqn:Ef; [|exact Hs].
    apply invariant_saveAccount; [eapply P_failure; eassumption | exact Hs].
  - cbn zeta. destruct (negb _).
    + destruct (_ =? 429);
        [destruct (Account.ErrorTracking account);
           [apply invariant_saveAccount; auto | exact Hs]|].
      destruct (_ =? 403); [apply invariant_saveAccount; auto|].
      destruct (Account.RecordFailure _ _ _) as [a1|[]|msg] eqn:Ef; [|exact Hs].
      assert (J (accounts_of (server.saveAccount a1 s1)))
        by (apply invariant_saveAccount; [eapply P_failure; eassumption | exact Hs]).
      destruct (_ && _); assumption.
    + assert (H2 : J (accounts_of
                     (server.saveAccount (Account.RecordSuccess (oauth.Now (server.world a)) account) s1)))
        by (apply invariant_saveAccount; auto).
      destruct (ChatCompletionRequest.Stream req).
      * pose proof (handleStreamResponse_records unmarshal a
                      (http.Lines (http.Body_ resp)) (ChatCompletionRequest.Model req)
                      (Account.RecordSuccess (oauth.Now (server.world a)) account)
                      (server.saveAccount
                         (Account.RecordSuccess (oauth.Now (server.world a)) account) s1)) as E.
        destruct (server.handleStreamResponse _ _ _ _ _ _) as [s3 reply].
        cbn [fst] in E. rewrite E. apply invariant_recordUsage; auto.
      * pose proof (handleNormalResponse_records unmarshal a
                      (http.Lines (http.Body_ resp)) (ChatCompletionRequest.Model req)
                      (Account.RecordSuccess (oauth.Now (server.world a)) account)
                      (server.saveAccount
                         (Account.RecordSuccess (oauth.Now (server.world a)) account) s1)) as E.
        destruct (server.handleNormalResponse _ _ _ _ _ _) as [s3 reply].
        cbn [fst] in E. rewrite E. apply invariant_recordUsage; auto.
Qed.

Lemma invariant_attempt unmarshal req a s :
  J (accounts_of s) ->
  match server.attempt unmarshal req a s with
  | server.Continue s' _ | server.Return s' _ => J (accounts_of s')
  end.
Proof.
  intros Hs. unfold server.attempt.
  destruct (oauth.GetToken _ _) as [c r] eqn:Eg.
  destruct (invariant_GetToken _ _ _ _ Hs Eg) as [Hc Hr].
  destruct r as [account|err|msg]; [|exact Hc..].
  apply invariant_upstreamCall; [apply Hr; reflexivity | exact Hc].
Qed.

Lemma invariant_retry unmarshal req env remaining n lastErr s :
  J (accounts_of s) ->
  J (accounts_of (fst (server.retry unmarshal req env remaining n lastErr s))).
Proof.
  revert n lastErr s. induction remaining as [|remaining IH]; intros n lastErr s Hs.
  - exact Hs.
  - rewrite retry_step. pose proof (invariant_attempt unmarshal req (env n) s Hs) as Ha.
    destruct (server.attempt _ _ _ _) as [s' err|s' reply]; [apply IH, Ha | exact Ha].
Qed.

Lemma invariant_refreshEach w accountIDs c n c' r :
  J (oauth.accountStore c) ->
  oauth.refreshEach w accountIDs c n = (c', r) ->
  J (oauth.accountStore c').
Proof.
  revert c n. induction accountIDs as [|accountID rest IH]; intros c n Hs;
    cbn [oauth.refreshEach]; [intros [= <- <-]; exact Hs|].
  destruct (AccountStore.Load _ _) as [err|account] eqn:El; [apply IH, Hs|].
  pose proof (J_Load _ _ _ Hs El) as Ha.
  destruct (negb _); [apply IH, Hs|].
  destruct (Account.IsInCooldown _ _); [apply IH, Hs|].
  destruct (Account.NeedsRefresh _ _); [|apply IH, Hs].
  destruct (oauth.RefreshToken w account c) as [[c2 account'] r'] eqn:Er.
  destruct (invariant_RefreshToken _ _ _ _ _ _ Ha Hs Er) as [H2 _].
  destruct r' as [[]|err|msg]; [apply IH, H2 | apply IH, H2 | intros [= <- <-]; exact H2].
Qed.

(** An invariant of the stored accounts that the account methods keep is
    kept by acquiring, by a whole chat completion and by a batch refresh. *)
Lemma invariant_core unmarshal bound env s w :
  J (accounts_of s) ->
  J (accounts_of (fst (server.chatCompletions unmarshal bound env s)))
  /\ (forall c' r,
        oauth.GetToken w (server.oauthClient s) = (c', r) ->
        J (oauth.accountStore c')
        /\ forall account, r = go.Ret account -> P account)
  /\ J (oauth.accountStore (fst (oauth.RefreshAllTokens w (server.oauthClient s)))).
Proof.
  intros Hs. split; [|split].
  - unfold server.chatCompletions. destruct bound as [err|req]; [exact Hs|].
    apply invariant_retry, Hs.
  - intros c' r. apply invariant_GetToken, Hs.
  - unfold oauth.RefreshAllTokens.
    destruct (AccountStore.List _) as [err|accountIDs]; [exact Hs|].
    destruct (oauth.refreshEach _ _ _ _) as [c' r] eqn:Er.
    pose proof (invariant_refreshEach _ _ _ _ _ _ Hs Er) as H.
    destruct r as [n|[]|msg]; exact H.
Qed.

End StoreInvariant.

Lemma stored_all_core (P : Account.t -> Prop) :
  (forall now a, P a -> P (Account.RecordSuccess now a)) ->
  (forall now err a a', P a -> Account.RecordFailure now err a = go.Ret a' -> P a') ->
  (forall now a, P a -> P (Account.RecordRateLimit now a)) ->
  (forall now a, P a -> P (Account.RecordPermissionDenied now a)) ->
  (forall u a, P a -> P (Account.set_Usage u a)) ->
  (forall v a, P a -> P (Account.set_AccessToken v a)) ->
  (forall v a, P a -> P (Account.set_RefreshToken v a)) ->
  (forall v a, P a -> P (Account.set_ExpiresIn v a)) ->
  (forall v a, P a -> P (Account.set_Timestamp v a)) ->
  (forall v a, P a -> P (Account.set_Models v a)) ->
  forall unmarshal bound env s w,
    stored_all P (accounts_of s) ->
    stored_all P (accounts_of (fst (server.chatCompletions unmarshal bound env s)))
    /\ (forall c' r,
          oauth.GetToken w (server.oauthClient s) = (c', r) ->
          stored_all P (oauth.accountStore c')
          /\ forall account, r = go.Ret account -> P account)
    /\ stored_all P
         (oauth.accountStore (fst (oauth.RefreshAllTokens w (server.oauthClient s)))).
Proof.
  intros. apply (invariant_core (stored_all P) P); auto.
  - intros account store. apply stored_all_Save.
  - intros accountID account store. apply stored_all_Load.
Qed.

Lemma stored_all_server_with (P : Account.t -> Prop) accounts :
  Forall P accounts -> stored_all P (accounts_of (server_with accounts)).
Proof.
  intros HF accountID a H. cbn in H.
  apply elem_of_list_to_map_2 in H.
  apply list_elem_of_fmap in H as (a0 & [= _ <-] & Hin).
  rewrite Forall_forall in HF. auto.
Qed.

Lemma IsInCooldown_failed_until t a :
  Account.IsInCooldown t a
  = match failed_until_of a with
    | Some failedUntil => time.Unix t <? failedUntil
    | None => false
    end.
Proof.
  unfold Account.IsInCooldown, failed_until_of, Account.tracking.
  destruct (Account.ErrorTracking a); reflexivity.
Qed.

(** The fields [RecordFailure] leaves alone. *)
Ltac account_failure :=
  let Ha := fresh "Ha" in
  intros ? ? ? ? Ha; unfold Account.RecordFailure;
  destruct (go.shl64 _ _); intros [= <-]; exact Ha.

(** X1. In every stored account, [is_permission_denied] implies
    [enable = false]: a chat completion, an acquisition (which returns such
    an account) and a batch refresh keep this true of all the account
    files. *)
Theorem permission_denied_stays_disabled unmarshal bound env s w :
  stored_all denied_disabled (accounts_of s) ->
  stored_all denied_disabled
    (accounts_of (fst (server.chatCompletions unmarshal bound env s)))
  /\ (forall c' r,
        oauth.GetToken w (server.oauthClient s) = (c', r) ->
        stored_all denied_disabled (oauth.accountStore c')
        /\ forall account, r = go.Ret account -> denied_disabled account)
  /\ stored_all denied_disabled
       (oauth.accountStore (fst (oauth.RefreshAllTokens w (server.oauthClient s)))).
Proof.
  apply stored_all_core;
    try (unfold denied_disabled; intros; cbn in *; auto; fail).
  account_failure.
Qed.

Lemma permission_denied_stays_disabled_witness :
  let s := server_with [disabled_account; new_account] in
  let env := fun _ : nat => example_attempt forbidden in
  stored_all denied_disabled
    (accounts_of (fst (server.chatCompletions answer_decode (inr plain_request) env s)))
  /\ stored (Account.AccountID new_account)
       (fst (server.chatCompletions answer_decode (inr plain_request) env s))
     = inr (Account.RecordPermissionDenied (oauth.Now example_world) new_account).
Proof.
  intros s env. split; [|vm_compute; reflexivity].
  apply (permission_denied_stays_disabled answer_decode (inr plain_request) env s example_world).
  apply stored_all_server_with.
  constructor; [|constructor; [|constructor]].
  - intros _. reflexivity.
  - vm_compute. discriminate.
Defined.

Lemma GetToken_returns_usable w c c' account :
  oauth.GetToken w c = (c', go.Ret account) ->
  Account.Enable account = true
  /\ Account.IsInCooldown (oauth.Now w) account = false.
Proof.
  unfold oauth.GetToken. destruct (AccountStore.List _) as [err|accountIDs]; [intros [=]|].
  destruct (length accountIDs =? 0)%nat; [intros [=]|]. apply rotate_returns_usable.
Qed.

Lemma disabled_id_core accountID unmarshal bound env s w :
  stored_all (disabled_id accountID) (accounts_of s) ->
  stored_all (disabled_id accountID)
    (accounts_of (fst (server.chatCompletions unmarshal bound env s)))
  /\ (forall c' r,
        oauth.GetToken w (server.oauthClient s) = (c', r) ->
        stored_all (disabled_id accountID) (oauth.accountStore c')
        /\ forall account, r = go.Ret account -> disabled_id accountID account)
  /\ stored_all (disabled_id accountID)
       (oauth.accountStore (fst (oauth.RefreshAllTokens w (server.oauthClient s)))).
Proof.
  apply stored_all_core;
    try (unfold disabled_id; intros; cbn in *; auto; fail).
  account_failure.
Qed.

(** X2. A disabled account stays out: if every account file with a given
    [account_id] is disabled, this is still so after a chat completion and
    after a batch refresh, and an acquisition never returns an account with
    that id. *)
Theorem disabled_account_stays_out accountID unmarshal bound env s w :
  stored_all (disabled_id accountID) (accounts_of s) ->
  stored_all (disabled_id accountID)
    (accounts_of (fst (server.chatCompletions unmarshal bound env s)))
  /\ stored_all (disabled_id accountID)
       (oauth.accountStore (fst (oauth.RefreshAllTokens w (server.oauthClient s))))
  /\ forall c' account,
       oauth.GetToken w (server.oauthClient s) = (c', go.Ret account) ->
       Account.AccountID account <> accountID
       /\ stored_all (disabled_id accountID) (oauth.accountStore c').
Proof.
  intros Hs.
  destruct (disabled_id_core accountID unmarshal bound env s w Hs) as (Hc & Hg & Hr).
  split; [exact Hc|]. split; [exact Hr|].
  intros c' account Eg. destruct (Hg _ _ Eg) as [Hc' Ha]. split; [|exact Hc'].
  intros Hid. apply GetToken_returns_usable in Eg as [He _].
  rewrite (Ha account eq_refl Hid) in He. discriminate.
Qed.

Lemma disabled_account_stays_out_witness :
  let s := server_with [disabled_account; new_account] in
  let env := fun _ : nat => example_attempt throttle_erin in
  let out := server.chatCompletions answer_decode (inr plain_request) env s in
  stored_all (disabled_id "carol@example.com_0a0b0c0d") (accounts_of (fst out))
  /\ stored "carol@example.com_0a0b0c0d" (fst out) = inr disabled_account.
Proof.
  intros s env out. split; [|vm_compute; reflexivity].
  apply (disabled_account_stays_out "carol@example.com_0a0b0c0d" answer_decode
           (inr plain_request) env s example_world).
  apply stored_all_server_with.
  constructor; [|constructor; [|constructor]].
  - intros _. reflexivity.
  - intros H. vm_compute in H. discriminate.
Defined.

Lemma backoff_bounded_RecordRateLimit now a :
  backoff_bounded a ->
  120 <= backoff_of (Account.RecordRateLimit now a) <= 1800.
Proof.
  unfold backoff_bounded. intros H0. rewrite backoff_RecordRateLimit.
  destruct (Z.gtb_spec (backoff_of a) 0); [|lia].
  rewrite wrap64_id by (unfold go.in_int64; lia).
  destruct (Z.gtb_spec (backoff_of a * 2) 1800); lia.
Qed.

(** X3. The rate-limit backoff of every stored account stays either 0 or
    between 120 and 1800 seconds through chat completions, acquisitions and
    batch refreshes. *)
Theorem rate_limit_backoff_stays_bounded unmarshal bound env s w :
  stored_all backoff_bounded (accounts_of s) ->
  stored_all backoff_bounded
    (accounts_of (fst (server.chatCompletions unmarshal bound env s)))
  /\ (forall c' r,
        oauth.GetToken w (server.oauthClient s) = (c', r) ->
        stored_all backoff_bounded (oauth.accountStore c')
        /\ forall account, r = go.Ret account -> backoff_bounded account)
  /\ stored_all backoff_bounded
       (oauth.accountStore (fst (oauth.RefreshAllTokens w (server.oauthClient s)))).
Proof.
  apply stored_all_core; try (intros; assumption).
  - intros now a _. unfold backoff_bounded. rewrite backoff_RecordSuccess. lia.
  - account_failure.
  - intros now a Ha. pose proof (backoff_bounded_RecordRateLimit now a Ha).
    unfold backoff_bounded. lia.
Qed.

Lemma rate_limit_backoff_stays_bounded_witness :
  let s := server_with [second_account; new_account] in
  let env := fun _ : nat => example_attempt throttle_erin in
  let out := server.chatCompletions answer_decode (inr plain_request) env s in
  stored_all backoff_bounded (accounts_of (fst out))
  /\ (backoff_of <$> stored_account "erin@example.com_77aa88bb" (fst out)) = Some 120.
Proof.
  intros s env out. split; [|vm_compute; reflexivity].
  apply (rate_limit_backoff_stays_bounded answer_decode (inr plain_request) env s
           example_world).
  apply stored_all_server_with.
  constructor; [|constructor; [|constructor]]; left; reflexivity.
Defined.

Lemma RecordRateLimit_window now a :
  clock_ok now -> backoff_bounded a ->
  120 <= backoff_of (Account.RecordRateLimit now a) <= 1800
  /\ forall t, Account.IsInCooldown t (Account.RecordRateLimit now a)
               = (time.Unix t <? time.Unix now
                                 + backoff_of (Account.RecordRateLimit now a)).
Proof.
  unfold clock_ok. intros Hnow Hb.
  pose proof (backoff_bounded_RecordRateLimit now a Hb) as H.
  split; [exact H|]. intros t.
  rewrite IsInCooldown_failed_until, failed_until_RecordRateLimit.
  rewrite wrap64_id by (unfold go.in_int64; lia). reflexivity.
Qed.

Lemma RecordFailure_window now err a :
  clock_ok now -> 0 <= failures_of a < 62 ->
  exists a',
    Account.RecordFailure now err a = go.Ret a'
    /\ forall t, Account.IsInCooldown t a'
                 = (time.Unix t <? time.Unix now
                                   + Z.min (2 ^ (failures_of a + 1)) 3600).
Proof.
  unfold clock_ok. intros Hnow Hf.
  destruct (RecordFailure_spec now err a) as (a' & Hr & _ & Hu & _); [lia|].
  exists a'. split; [exact Hr|]. intros t.
  rewrite IsInCooldown_failed_until, Hu. unfold cooldown_of_failures.
  destruct (Z.ltb_spec (failures_of a + 1) 63); [|lia].
  rewrite wrap64_id; [reflexivity|].
  unfold go.in_int64.
  assert (0 < 2 ^ (failures_of a + 1)) by (apply Z.pow_pos_nonneg; lia). lia.
Qed.

(** X4. Cooldown windows.  With the clock in range, a 429 on an account
    whose backoff is in range puts it in cooldown for exactly the new
    backoff, 120 to 1800 seconds; a generic failure on an account with fewer
    than 62 failures in a row puts it in cooldown for exactly
    [min (2^failures, 3600)] seconds. *)
Theorem cooldown_windows now err a :
  clock_ok now ->
  (backoff_bounded a ->
   let a' := Account.RecordRateLimit now a in
   120 <= backoff_of a' <= 1800
   /\ forall t, Account.IsInCooldown t a'
                = (time.Unix t <? time.Unix now + backoff_of a'))
  /\ (0 <= failures_of a < 62 ->
      exists a',
        Account.RecordFailure now err a = go.Ret a'
        /\ forall t, Account.IsInCooldown t a'
                     = (time.Unix t <? time.Unix now
                                       + Z.min (2 ^ (failures_of a + 1)) 3600)).
Proof.
  intros Hnow. split.
  - intros Hb. exact (RecordRateLimit_window now a Hnow Hb).
  - exact (RecordFailure_window now err a Hnow).
Qed.

Lemma cooldown_windows_witness :
  let now := 1700000000 * time.Second in
  let later := 1700000008 * time.Second in
  Account.IsInCooldown now (Account.RecordRateLimit now new_account) = true
  /\ exists a',
       Account.RecordFailure now "HTTP 500" cooling_account = go.Ret a'
       /\ Account.IsInCooldown later a' = true.
Proof.
  intros now later.
  destruct (cooldown_windows now "HTTP 500" new_account) as [Hr _];
    [vm_compute; split; [discriminate | reflexivity]|].
  destruct (cooldown_windows now "HTTP 500" cooling_account) as [_ Hf];
    [vm_compute; split; [discriminate | reflexivity]|].
  split.
  - destruct Hr as [_ Hr]; [left; reflexivity|].
    rewrite Hr. vm_compute. reflexivity.
  - destruct Hf as (a' & Ha' & Hc); [vm_compute; split; [discriminate | reflexivity]|].
    exists a'. split; [exact Ha'|]. rewrite Hc. vm_compute. reflexivity.
Defined.

Lemma Load_Save account store store' :
  AccountStore.Save account store = (store', None) ->
  AccountStore.Load (Account.AccountID account) store' = inr account.
Proof.
  unfold AccountStore.Save, AccountStore.Load.
  destruct (AccountStore.read_only store); intros [= <-]. cbn.
  rewrite lookup_insert_eq. reflexivity.
Qed.

Lemma RefreshToken_refreshed w account c c' account' :
  oauth.RefreshToken w account c = (c', account', go.Ret tt) ->
  exists token,
    oauth.TokenSource w (Account.RefreshToken account) = inr token
    /\ Account.AccessToken account' = oauth.Token.AccessToken token
    /\ Account.ExpiresIn account' = oauth.Token.ExpiresIn token
    /\ Account.Timestamp account' = time.UnixMilli (oauth.Now w)
    /\ Account.RefreshStatus account' = "success"
    /\ AccountStore.Load (Account.AccountID account') (oauth.accountStore c')
       = inr account'.
Proof.
  unfold oauth.RefreshToken.
  destruct (oauth.TokenSource w _) as [err|token].
  - destruct (Account.RecordFailure _ _ _) as [a1|[]|msg]; [|intros [=]].
    destruct (AccountStore.Save a1 _). intros [=].
  - destruct (AccountStore.Save _ _) as [store' [e|]] eqn:Es; intros [= <- <-].
    exists token. apply Load_Save in Es. split; [reflexivity|].
    split; [|split; [|split; [|split; [|exact Es]]]].
    + destruct (oauth.fetchModels w _), (String.eqb _ _); reflexivity.
    + destruct (oauth.fetchModels w _), (String.eqb _ _); reflexivity.
    + destruct (oauth.fetchModels w _), (String.eqb _ _); reflexivity.
    + reflexivity.
Qed.

Lemma NeedsRefresh_fresh now a :
  Account.Enable a = true -> Account.IsInCooldown now a = false ->
  Account.NeedsRefresh now a = false -> fresh now a.
Proof.
  unfold fresh, Account.NeedsRefresh, Account.IsExpired. intros -> ->. cbn [negb orb].
  destruct (_ || _); [discriminate|]. intros H.
  apply Z.ltb_ge in H. split; [|exact H].
  apply Z.ltb_ge. unfold Account.sub_sat, time.Minute, time.Second in H. lia.
Qed.

Lemma rotate_fresh_or_refreshed w accountIDs rounds c c' account :
  oauth.rotate w accountIDs rounds c = (c', go.Ret account) ->
  (fresh (oauth.Now w) account
   /\ exists accountID,
        accountID ∈ accountIDs
        /\ AccountStore.Load accountID (oauth.accountStore c') = inr account)
  \/ refreshed w (oauth.accountStore c') account.
Proof.
  revert c. induction rounds as [|rounds IH]; intros c; cbn [oauth.rotate]; [intros [=]|].
  destruct (accountIDs !! _) as [accountID|] eqn:Ei; [|intros [=]].
  destruct (AccountStore.Load _ _) as [err|candidate] eqn:El; [apply IH|].
  destruct (Account.Enable candidate) eqn:He; cbn [negb]; [|apply IH].
  destruct (Account.IsInCooldown _ candidate) eqn:Hc; [apply IH|].
  destruct (Account.NeedsRefresh _ candidate) eqn:Hn.
  - destruct (oauth.RefreshToken w candidate _) as [[c2 account'] [[]|err|msg]] eqn:Hr.
    + intros [= <- <-]. right. apply RefreshToken_refreshed in Hr as (token & H).
      exists candidate, token. exact H.
    + apply IH.
    + intros [=].
  - intros [= <- <-]. left. split; [apply NeedsRefresh_fresh; assumption|].
    exists accountID. split; [|exact El]. eapply list_elem_of_lookup_2, Ei.
Qed.

(** X5. The account an acquisition returns is either read from a listed
    account file as it is, its token not expired and good for at least 30
    more minutes, or it comes out of a successful refresh in this call: it
    carries the token the endpoint returned, stamped with the current time,
    and is saved under its id. *)
Theorem acquire_fresh_or_refreshed w c c' account :
  oauth.GetToken w c = (c', go.Ret account) ->
  (fresh (oauth.Now w) account
   /\ exists accountIDs accountID,
        AccountStore.List (oauth.accountStore c) = inr accountIDs
        /\ accountID ∈ accountIDs
        /\ AccountStore.Load accountID (oauth.accountStore c') = inr account)
  \/ refreshed w (oauth.accountStore c') account.
Proof.
  unfold oauth.GetToken.
  destruct (AccountStore.List _) as [err|accountIDs]; [intros [=]|].
  destruct (length accountIDs =? 0)%nat; [intros [=]|].
  intros H. apply rotate_fresh_or_refreshed in H as [(Hf & accountID & Hin & Hl)|H].
  - left. split; [exact Hf|]. exists accountIDs, accountID. auto.
  - right. exact H.
Qed.

Lemma acquire_fresh_or_refreshed_witness :
  let pool := server.oauthClient (server_with [new_account]) in
  let stale := server.oauthClient (server_with [stale_account]) in
  let renewed :=
    Account.RecordSuccess (oauth.Now renewing_world)
      (Account.set_Timestamp 1700000000000
         (Account.set_AccessToken "ya29.new.1//refresh" stale_account)) in
  fresh (oauth.Now example_world) new_account
  /\ snd (oauth.GetToken renewing_world stale) = go.Ret renewed
  /\ ((fresh (oauth.Now renewing_world) renewed
       /\ exists accountIDs accountID,
            AccountStore.List (oauth.accountStore stale) = inr accountIDs
            /\ accountID ∈ accountIDs
            /\ AccountStore.Load accountID
                 (oauth.accountStore (fst (oauth.GetToken renewing_world stale)))
               = inr renewed)
      \/ refreshed renewing_world
           (oauth.accountStore (fst (oauth.GetToken renewing_world stale))) renewed).
Proof.
  intros pool stale renewed.
  assert (H1 : oauth.GetToken example_world pool
               = (oauth.mkClient (oauth.accountStore pool) 0, go.Ret new_account))
    by (vm_compute; reflexivity).
  assert (H2 : oauth.GetToken renewing_world stale
               = (fst (oauth.GetToken renewing_world stale), go.Ret renewed))
    by (vm_compute; reflexivity).
  split; [|split].
  - destruct (acquire_fresh_or_refreshed _ _ _ _ H1) as [[H _]|(old & token & H & _)];
      [exact H | discriminate H].
  - rewrite H2. reflexivity.
  - exact (acquire_fresh_or_refreshed _ _ _ _ H2).
Defined.

(** X6. A success clears the history: the account is out of cooldown at
    every instant and as enabled as before, and whatever it went through
    the next generic failure costs a 2 second cooldown and the next 429 a
    120 second one. *)
Theorem success_clears_history now a :
  let s := Account.RecordSuccess now a in
  (forall t, Account.IsInCooldown t s = false)
  /\ Account.Enable s = Account.Enable a
  /\ (forall t err,
        clock_ok t ->
        exists a',
          Account.RecordFailure t err s = go.Ret a'
          /\ forall t', Account.IsInCooldown t' a' = (time.Unix t' <? time.Unix t + 2))
  /\ (forall t,
        clock_ok t ->
        forall t', Account.IsInCooldown t' (Account.RecordRateLimit t s)
                   = (time.Unix t' <? time.Unix t + 120)).
Proof.
  intros s. split; [reflexivity|]. split; [reflexivity|]. split.
  - intros t err Ht.
    destruct (RecordFailure_window t err s Ht) as (a' & Hr & Hc); [cbn; lia|].
    exists a'. split; [exact Hr|]. exact Hc.
  - intros t Ht t'.
    destruct (RecordRateLimit_window t s Ht) as [_ Hc]; [left; reflexivity|].
    rewrite Hc. reflexivity.
Qed.

Lemma success_clears_history_witness :
  let now := 1700000000 * time.Second in
  let s := Account.RecordSuccess now cooling_account in
  Account.IsInCooldown now cooling_account = true
  /\ Account.IsInCooldown now s = false
  /\ Account.IsInCooldown (1700000119 * time.Second) (Account.RecordRateLimit now s) = true
  /\ Account.IsInCooldown (1700000120 * time.Second) (Account.RecordRateLimit now s) = false.
Proof.
  intros now s.
  destruct (success_clears_history now cooling_account) as (Hc & _ & _ & Hr).
  split; [reflexivity|]. split; [apply Hc|].
  assert (Hnow : clock_ok now) by (vm_compute; split; [discriminate | reflexivity]).
  split; fold s in Hr; rewrite (Hr now Hnow); reflexivity.
Defined.

Lemma wrap64_add_m x y z : go.wrap64 (x + go.wrap64 y + z) = go.wrap64 (x + y + z).
Proof.
  rewrite <- (wrap64_add_l (x + go.wrap64 y)), wrap64_add_r, wrap64_add_l. reflexivity.
Qed.

Lemma last_cons_default {A} (l : list A) (x d : A) :
  List.last (x :: l) d = List.last l x.
Proof.
  revert x d. induction l as [|y l IH]; intros x d; [reflexivity|].
  change (List.last (x :: y :: l) d) with (List.last (y :: l) d).
  rewrite (IH y d), (IH y x). reflexivity.
Qed.

Lemma record_usages_cons now i o calls a :
  record_usages ((now, i, o) :: calls) a
  = record_usages calls (Account.RecordUsage now i o a).
Proof. reflexivity. Qed.

Lemma record_usages_usage calls now i o a :
  Account.Usage (record_usages ((now, i, o) :: calls) a)
  = Some (UsageStats.mk
            (go.wrap64 (UsageStats.TotalTokens (Account.usage a)
                        + (i + o) + (input_sum calls + output_sum calls)))
            (go.wrap64 (UsageStats.InputTokens (Account.usage a) + i + input_sum calls))
            (go.wrap64 (UsageStats.OutputTokens (Account.usage a) + o + output_sum calls))
            (go.wrap64 (UsageStats.RequestCount (Account.usage a) + 1
                        + Z.of_nat (length calls)))
            (Some (time.UnixMilli (List.last calls (now, i, o)).1.1))).
Proof.
  revert now i o a. induction calls as [|[[now' i'] o'] calls IH]; intros now i o a.
  - cbn. rewrite wrap64_add_r. f_equal. f_equal; apply (f_equal go.wrap64); lia.
  - rewrite record_usages_cons, IH.
    rewrite (last_cons_default calls (now', i', o') (now, i, o)).
    cbn.
    rewrite <- !Z.add_assoc, !wrap64_add_l, ?wrap64_add_m.
    f_equal. f_equal; apply (f_equal go.wrap64); unfold input_sum, output_sum; lia.
Qed.

Lemma record_usages_rest calls a u :
  Account.set_Usage u (record_usages calls a) = Account.set_Usage u a.
Proof.
  revert a. induction calls as [|[[now i] o] calls IH]; intros a; [reflexivity|].
  rewrite record_usages_cons, IH. reflexivity.
Qed.

(** X7. Recording usage call after call adds up: after one call or more the
    account's counters are the old ones plus the sums of the calls' input
    and output tokens (in [int64]), the request count grows by the number of
    calls, [last_used] is the instant of the last call, and nothing else of
    the account changes. *)
Theorem RecordUsage_accumulates call calls a :
  let u := Account.usage a in
  let a' := record_usages (call :: calls) a in
  Account.Usage a'
  = Some (UsageStats.mk
            (go.wrap64 (UsageStats.TotalTokens u
                        + (input_sum (call :: calls) + output_sum (call :: calls))))
            (go.wrap64 (UsageStats.InputTokens u + input_sum (call :: calls)))
            (go.wrap64 (UsageStats.OutputTokens u + output_sum (call :: calls)))
            (go.wrap64 (UsageStats.RequestCount u + Z.of_nat (length (call :: calls))))
            (Some (time.UnixMilli (List.last calls call).1.1)))
  /\ Account.set_Usage (Account.Usage a) a' = a.
Proof.
  destruct call as [[now i] o]. intros u a'. split.
  - unfold a'. rewrite record_usages_usage. fold u.
    unfold input_sum, output_sum. cbn [foldr length].
    f_equal. f_equal; apply (f_equal go.wrap64); lia.
  - unfold a'. rewrite record_usages_rest. destruct a; reflexivity.
Qed.

Lemma cursor_shift (cur n j : nat) :
  (((cur + 1) `mod` n + 1 + j) `mod` n = (cur + 1 + S j) `mod` n)%nat.
Proof.
  rewrite <- Nat.add_assoc, Nat.Div0.add_mod_idemp_l. f_equal; lia.
Qed.

Lemma rotate_picks w accountIDs skipped rounds c account :
  (skipped < rounds)%nat ->
  (forall j, (j < skipped)%nat ->
     exists loaded, candidate c accountIDs j = Some loaded
                    /\ unusable (oauth.Now w) loaded = true) ->
  candidate c accountIDs skipped = Some (inr account) ->
  ready (oauth.Now w) account = true ->
  oauth.rotate w accountIDs rounds c
  = (oauth.mkClient (oauth.accountStore c)
       ((oauth.currentIndex c + 1 + skipped) `mod` length accountIDs)%nat,
     go.Ret account).
Proof.
  revert rounds c.
  induction skipped as [|skipped IH]; intros rounds c Hr Hskip Hc Hready;
    (destruct rounds as [|rounds]; [lia|]); cbn [oauth.rotate oauth.currentIndex
                                                   oauth.accountStore].
  - unfold candidate in Hc. rewrite Nat.add_0_r in Hc |- *.
    destruct (accountIDs !! _) as [accountID|]; [|discriminate].
    injection Hc as ->. unfold ready in Hready.
    destruct (Account.Enable account); [|discriminate].
    destruct (Account.IsInCooldown _ account); [discriminate|].
    destruct (Account.NeedsRefresh _ account); [discriminate|]. reflexivity.
  - set (c1 := oauth.mkClient (oauth.accountStore c)
                 ((oauth.currentIndex c + 1) `mod` length accountIDs)%nat).
    assert (Hshift : forall j, candidate c1 accountIDs j = candidate c accountIDs (S j)).
    { intros j. unfold candidate, c1. cbn [oauth.currentIndex oauth.accountStore].
      rewrite cursor_shift. reflexivity. }
    assert (Hrest : oauth.rotate w accountIDs rounds c1
                    = (oauth.mkClient (oauth.accountStore c)
                         ((oauth.currentIndex c + 1 + S skipped) `mod` length accountIDs)%nat,
                       go.Ret account)).
    { rewrite (IH rounds c1); [| lia | | rewrite Hshift; exact Hc | exact Hready].
      - unfold c1. cbn [oauth.currentIndex oauth.accountStore].
        rewrite cursor_shift. reflexivity.
      - intros j Hj. rewrite Hshift. apply Hskip. lia. }
    destruct (Hskip 0%nat) as (loaded & Hl & Hu); [lia|].
    unfold candidate in Hl. rewrite Nat.add_0_r in Hl.
    destruct (accountIDs !! _) as [accountID|]; [|discriminate].
    injection Hl as <-. fold c1.
    change (oauth.accountStore c) with (oauth.accountStore c1) in Hu.
    destruct (AccountStore.Load accountID _) as [err|a]; [exact Hrest|].
    cbn [unusable] in Hu.
    destruct (Account.Enable a); cbn [negb orb] in Hu |- *; [|exact Hrest].
    rewrite Hu. exact Hrest.
Qed.

(** X8. An acquisition takes the accounts in the order of the listing,
    starting after the cursor and wrapping around: when the next [skipped]
    candidates cannot be loaded, are disabled or are in cooldown, and the
    one after them is enabled, out of cooldown and needs no refresh, that
    account is returned as stored, the cursor rests on it and the account
    files are untouched. *)
Theorem acquire_picks_next_usable w c accountIDs skipped account :
  AccountStore.List (oauth.accountStore c) = inr accountIDs ->
  (skipped < length accountIDs)%nat ->
  (forall j, (j < skipped)%nat ->
     exists loaded, candidate c accountIDs j = Some loaded
                    /\ unusable (oauth.Now w) loaded = true) ->
  candidate c accountIDs skipped = Some (inr account) ->
  ready (oauth.Now w) account = true ->
  oauth.GetToken w c
  = (oauth.mkClient (oauth.accountStore c)
       ((oauth.currentIndex c + 1 + skipped) `mod` length accountIDs)%nat,
     go.Ret account).
Proof.
  intros Hl Hn Hskip Hc Hready. unfold oauth.GetToken. rewrite Hl.
  destruct (length accountIDs =? 0)%nat eqn:E; [apply Nat.eqb_eq in E; lia|].
  apply rotate_picks; assumption.
Qed.

Lemma acquire_picks_next_usable_witness :
  let pool := server.oauthClient (server_with [disabled_account; cooling_account; new_account]) in
  oauth.GetToken example_world pool
  = (oauth.mkClient (oauth.accountStore pool) 0, go.Ret new_account).
Proof.
  intros pool.
  apply (acquire_picks_next_usable example_world pool
           ["alice@example.com_1a2b3c4d"; "carol@example.com_0a0b0c0d";
            "dave@example.com_9f8e7d6c"] 2 new_account).
  - vm_compute. reflexivity.
  - cbn. lia.
  - intros j Hj. destruct j as [|[|j]]; [| |lia].
    + exists (inr disabled_account). split; vm_compute; reflexivity.
    + exists (inr cooling_account). split; vm_compute; reflexivity.
  - vm_compute. reflexivity.
  - vm_compute. reflexivity.
Defined.

(** X9. Round robin: when every listed account is enabled, out of cooldown
    and needs no refresh, successive acquisitions return the accounts in
    turn, the [i]-th one the account [i + 1] places after the cursor in
    the listing, wrapping around. *)
Theorem acquire_round_robin w c accountIDs k i :
  AccountStore.List (oauth.accountStore c) = inr accountIDs ->
  accountIDs <> [] ->
  (forall accountID,
     accountID ∈ accountIDs ->
     exists account,
       AccountStore.Load accountID (oauth.accountStore c) = inr account
       /\ ready (oauth.Now w) account = true) ->
  (i < k)%nat ->
  exists account,
    candidate c accountIDs i = Some (inr account)
    /\ acquire_seq w k c !! i = Some (go.Ret account).
Proof.
  intros Hl Hne Hall. revert c i Hl Hall.
  induction k as [|k IH]; intros c i Hl Hall Hi; [lia|].
  assert (Hn : (0 < length accountIDs)%nat) by (destruct accountIDs; [congruence | cbn; lia]).
  assert (Hcand : forall j, exists account,
             candidate c accountIDs j = Some (inr account)
             /\ ready (oauth.Now w) account = true).
  { intros j. unfold candidate.
    destruct (lookup_lt_is_Some_2 accountIDs
                ((oauth.currentIndex c + 1 + j) `mod` length accountIDs)%nat)
      as [accountID Hid]; [apply Nat.mod_upper_bound; lia|].
    destruct (Hall accountID) as (account & Ha & Hr);
      [eapply list_elem_of_lookup_2, Hid|].
    exists account. rewrite Hid. cbn. rewrite Ha. auto. }
  destruct (Hcand 0%nat) as (first & Hf & Hrf).
  cbn [acquire_seq]. unfold oauth.GetToken at 1. rewrite Hl.
  destruct (length accountIDs =? 0)%nat eqn:E; [apply Nat.eqb_eq in E; lia|].
  rewrite (rotate_picks w accountIDs 0 (length accountIDs) c first);
    [| exact Hn | intros j; lia | exact Hf | exact Hrf].
  destruct i as [|i].
  - exists first. split; [exact Hf | reflexivity].
  - set (c1 := oauth.mkClient _ _).
    destruct (IH c1 i) as (account & Hc & Hs); [exact Hl | exact Hall | lia |].
    exists account. split; [|exact Hs].
    rewrite <- Hc. unfold candidate, c1. cbn [oauth.currentIndex oauth.accountStore].
    rewrite Nat.add_0_r, cursor_shift. reflexivity.
Qed.

Lemma acquire_round_robin_witness :
  let pool := server.oauthClient (server_with [new_account; second_account]) in
  let accountIDs := ["alice@example.com_1a2b3c4d"; "erin@example.com_77aa88bb"] in
  exists account,
    candidate pool accountIDs 2 = Some (inr account)
    /\ acquire_seq example_world 3 pool !! 2%nat = Some (go.Ret account).
Proof.
  intros pool accountIDs.
  apply (acquire_round_robin example_world pool accountIDs 3 2).
  - vm_compute. reflexivity.
  - discriminate.
  - intros accountID Hin. apply elem_of_cons in Hin as [->|Hin].
    + exists new_account. split; vm_compute; reflexivity.
    + apply elem_of_cons in Hin as [->|Hin]; [|inversion Hin].
      exists second_account. split; vm_compute; reflexivity.
  - lia.
Defined.

Lemma loadable_cons store accountID rest :
  loadable store (accountID :: rest)
  = match AccountStore.Load accountID store with
    | inr account => account :: loadable store rest
    | inl _ => loadable store rest
    end.
Proof. unfold loadable. cbn. destruct (AccountStore.Load _ _); reflexivity. Qed.

Lemma refreshEach_idle w accountIDs c n :
  stored_all (fun a => Account.NeedsRefresh (oauth.Now w) a = false) (oauth.accountStore c) ->
  oauth.refreshEach w accountIDs c n
  = (c, go.Ret (oauth.mkCounts (oauth.successCount n) (oauth.failCount n)
                  (oauth.skippedCount n
                   + length (loadable (oauth.accountStore c) accountIDs)))).
Proof.
  intros Hs. revert n. induction accountIDs as [|accountID rest IH]; intros n.
  - cbn. rewrite Nat.add_0_r. destruct n; reflexivity.
  - cbn [oauth.refreshEach]. rewrite loadable_cons.
    destruct (AccountStore.Load accountID _) as [err|account] eqn:El; [apply IH|].
    assert (Hn : Account.NeedsRefresh (oauth.Now w) account = false).
    { apply (Hs accountID). unfold AccountStore.Load in El.
      destruct (AccountStore.files _ !! accountID) as [[a|]|]; congruence. }
    rewrite Hn.
    destruct (negb _); [|destruct (Account.IsInCooldown _ _)]; rewrite IH;
      cbn [oauth.successCount oauth.failCount oauth.skippedCount length];
      do 3 f_equal; lia.
Qed.

(** X10. A batch refresh in which no stored account needs a refresh (each
    one is disabled, in cooldown, or has a token good for half an hour)
    writes nothing and asks the token endpoint for nothing: the client is
    unchanged, and every account file that decodes is counted as skipped. *)
Theorem batch_refresh_idle w c accountIDs :
  stored_all (fun a => Account.NeedsRefresh (oauth.Now w) a = false) (oauth.accountStore c) ->
  AccountStore.List (oauth.accountStore c) = inr accountIDs ->
  oauth.RefreshAllTokens w c
  = (c, go.Ret (Some (oauth.mkCounts 0 0
                        (length (loadable (oauth.accountStore c) accountIDs))))).
Proof.
  intros Hs Hl. unfold oauth.RefreshAllTokens. rewrite Hl.
  rewrite refreshEach_idle by exact Hs. reflexivity.
Qed.

Lemma batch_refresh_idle_witness :
  let pool := server.oauthClient (server_with [disabled_account; cooling_account; new_account]) in
  oauth.RefreshAllTokens example_world pool
  = (pool, go.Ret (Some (oauth.mkCounts 0 0 3))).
Proof.
  intros pool.
  apply (batch_refresh_idle example_world pool
           ["alice@example.com_1a2b3c4d"; "carol@example.com_0a0b0c0d";
            "dave@example.com_9f8e7d6c"]).
  - apply (stored_all_server_with
             (fun a => Account.NeedsRefresh (oauth.Now example_world) a = false)).
    constructor; [|constructor; [|constructor; [|constructor]]]; vm_compute; reflexivity.
  - vm_compute. reflexivity.
Defined.

(** ** API keys *)

Lemma generateKey_spec bound now keys :
  KeyStore.read_only keys = false ->
  server.generateKey bound now keys
  = (KeyStore.mk
       (<[generated_key :=
            Some (APIKey.mk generated_key (key_name bound) None (time.UnixMilli now) None 0)]>
          (KeyStore.files keys))
       (KeyStore.list_error keys) false,
     server.KeyGenerated generated_key (key_name bound) (time.UnixMilli now)).
Proof.
  intros Hw. unfold server.generateKey, KeyStore.Save. rewrite Hw.
  cbn [APIKey.Key]. fold generated_key.
  change (KeyStore.sanitizeKeyFilename generated_key) with generated_key.
  destruct bound; reflexivity.
Qed.

(** X11. [generateKey] makes the same key string at every call: with a
    writable key store, two generations answer the same key,
    [sk-antigravity-] followed by the first 32 characters of the alphabet,
    and the second record replaces the first, so that the store is as if
    the first generation had not happened. *)
Theorem generateKey_overwrites bound1 bound2 now1 now2 keys :
  KeyStore.read_only keys = false ->
  let first := server.generateKey bound1 now1 keys in
  let second := server.generateKey bound2 now2 (fst first) in
  generated_key = "sk-antigravity-abcdefghijklmnopqrstuvwxyzABCDEF"
  /\ snd first = server.KeyGenerated generated_key (key_name bound1) (time.UnixMilli now1)
  /\ snd second = server.KeyGenerated generated_key (key_name bound2) (time.UnixMilli now2)
  /\ KeyStore.Load generated_key (fst second)
     = inr (APIKey.mk generated_key (key_name bound2) None (time.UnixMilli now2) None 0)
  /\ fst second = fst (server.generateKey bound2 now2 keys).
Proof.
  intros Hw first second. unfold second, first.
  rewrite (generateKey_spec bound1 now1 keys Hw).
  rewrite (generateKey_spec bound2 now2 keys Hw).
  cbn [fst snd]. rewrite generateKey_spec by reflexivity. cbn [fst snd KeyStore.files
                                                              KeyStore.list_error].
  split; [reflexivity|]. split; [reflexivity|]. split; [reflexivity|]. split.
  - unfold KeyStore.Load. cbn [KeyStore.files].
    change (KeyStore.sanitizeKeyFilename generated_key) with generated_key.
    rewrite lookup_insert_eq. reflexivity.
  - rewrite insert_insert_eq. reflexivity.
Qed.

Lemma generateKey_overwrites_witness :
  let first := server.generateKey (inr "ci") (1700000000 * time.Second) empty_keys in
  let second := server.generateKey (inl "EOF") (1700000060 * time.Second) (fst first) in
  snd first = server.KeyGenerated "sk-antigravity-abcdefghijklmnopqrstuvwxyzABCDEF" "ci"
                1700000000000
  /\ KeyStore.Load "sk-antigravity-abcdefghijklmnopqrstuvwxyzABCDEF" (fst second)
     = inr (APIKey.mk "sk-antigravity-abcdefghijklmnopqrstuvwxyzABCDEF" "Default Key" None
              1700000060000 None 0).
Proof.
  intros first second.
  destruct (generateKey_overwrites (inr "ci") (inl "EOF") (1700000000 * time.Second)
              (1700000060 * time.Second) empty_keys eq_refl)
    as (_ & H1 & _ & H2 & _).
  split; [exact H1 | exact H2].
Defined.

Lemma middleware_bearer configKey now apiKey keys :
  apiKey <> "" ->
  server.apiKeyAuthMiddleware configKey now ("Bearer " +:+ apiKey) keys
  = check_key configKey now apiKey keys.
Proof.
  intros Hk. destruct apiKey as [|c rest]; [congruence|].
  unfold server.apiKeyAuthMiddleware, check_key.
  rewrite !append_cons, append_nil_l.
  cbn [String.eqb Ascii.eqb Bool.eqb].
  unfold strings.from, strings.slice, strings.len.
  cbn [String.length Nat.ltb Nat.leb Nat.sub String.substring String.eqb Ascii.eqb
         Bool.eqb andb].
  rewrite substring_full. reflexivity.
Qed.

Lemma prefix_substring (p s : string) :
  String.eqb (String.substring 0 (String.length p) s) p = String.prefix p s.
Proof.
  revert s. induction p as [|a p IH]; intros [|b s]; try reflexivity.
  cbn. destruct (ascii_dec a b) as [->|Hne].
  - rewrite Ascii.eqb_refl. apply IH.
  - destruct (Ascii.eqb_spec b a); [congruence | reflexivity].
Qed.

Lemma middleware_bare configKey now apiKey keys :
  apiKey <> "" -> strings.HasPrefix apiKey "Bearer " = false ->
  server.apiKeyAuthMiddleware configKey now apiKey keys
  = check_key configKey now apiKey keys.
Proof.
  intros Hk Hp. unfold server.apiKeyAuthMiddleware, check_key.
  destruct (String.eqb_spec apiKey ""); [congruence|].
  unfold strings.slice. change (7 - 0)%nat with (String.length "Bearer ").
  rewrite prefix_substring. unfold strings.HasPrefix in Hp. rewrite Hp, andb_false_r.
  reflexivity.
Qed.

Lemma sanitize_generated : KeyStore.sanitizeKeyFilename generated_key = generated_key.
Proof. reflexivity. Qed.

(** X12. A generated key works until it is deleted: after [generateKey] on
    a writable key store, a request carrying the key, with or without the
    [Bearer] prefix, passes as a database key, and the stored record counts
    the use and its time; once [deleteKey] has answered 200 the same
    request is refused with 401 and the store is left alone. *)
Theorem generated_key_authenticates configKey bound now t keys :
  KeyStore.read_only keys = false ->
  configKey <> generated_key ->
  let keys1 := fst (server.generateKey bound now keys) in
  let used := APIKey.mk generated_key (key_name bound) None (time.UnixMilli now)
                (Some (time.Unix t)) 1 in
  let accepted :=
    server.apiKeyAuthMiddleware configKey t ("Bearer " +:+ generated_key) keys1 in
  let deleted := server.deleteKey generated_key (fst accepted) in
  snd accepted = server.Next "database" (Some used)
  /\ KeyStore.Load generated_key (fst accepted) = inr used
  /\ server.apiKeyAuthMiddleware configKey t generated_key keys1 = accepted
  /\ snd deleted = 200
  /\ server.apiKeyAuthMiddleware configKey t ("Bearer " +:+ generated_key) (fst deleted)
     = (fst deleted,
        server.Abort 401 "Invalid API key" "invalid_request_error" "invalid_api_key").
Proof.
  intros Hw Hcfg keys1 used accepted deleted.
  assert (Hne : generated_key <> "") by discriminate.
  assert (Hcheck : (negb (String.eqb configKey "") && String.eqb generated_key configKey)
                   = false).
  { destruct (String.eqb_spec generated_key configKey); [congruence|].
    apply andb_false_r. }
  assert (Ha : accepted
               = (KeyStore.mk (<[generated_key := Some used]> (KeyStore.files keys))
                    (KeyStore.list_error keys) false,
                  server.Next "database" (Some used))).
  { unfold accepted, keys1. rewrite middleware_bearer by exact Hne.
    rewrite generateKey_spec by exact Hw. unfold check_key.
    rewrite Hcheck. unfold KeyStore.Load, KeyStore.Save.
    cbn [fst KeyStore.files KeyStore.read_only KeyStore.list_error].
    rewrite sanitize_generated, lookup_insert_eq.
    cbn [fst APIKey.UpdateUsage APIKey.Key]. rewrite sanitize_generated, insert_insert_eq.
    reflexivity. }
  split; [rewrite Ha; reflexivity|].
  split; [rewrite Ha; unfold KeyStore.Load; cbn [fst KeyStore.files];
          rewrite sanitize_generated, lookup_insert_eq; reflexivity|].
  split; [unfold accepted; rewrite middleware_bearer by exact Hne;
          apply middleware_bare; [exact Hne | reflexivity]|].
  assert (Hd : deleted
               = (KeyStore.mk (delete generated_key (KeyStore.files keys))
                    (KeyStore.list_error keys) false, 200)).
  { unfold deleted. rewrite Ha. unfold server.deleteKey, KeyStore.Delete.
    change (strings.Contains generated_key "/") with false.
    change (strings.Contains generated_key (String (ascii_of_nat 92) "")) with false.
    change (strings.Contains generated_key "..") with false.
    cbn [orb fst KeyStore.files KeyStore.read_only KeyStore.list_error].
    rewrite sanitize_generated, lookup_insert_eq, delete_insert_eq. reflexivity. }
  split; [rewrite Hd; reflexivity|].
  rewrite Hd. cbn [fst]. rewrite middleware_bearer by exact Hne. unfold check_key.
  rewrite Hcheck. unfold KeyStore.Load. cbn [KeyStore.files].
  rewrite sanitize_generated, lookup_delete_eq. reflexivity.
Qed.

Lemma generated_key_authenticates_witness :
  let keys1 := fst (server.generateKey (inr "ci") (1700000000 * time.Second) empty_keys) in
  let accepted :=
    server.apiKeyAuthMiddleware "static-key" (1700000300 * time.Second)
      ("Bearer " +:+ generated_key) keys1 in
  snd accepted
  = server.Next "database"
      (Some (APIKey.mk generated_key "ci" None 1700000000000 (Some 1700000300) 1))
  /\ snd (server.deleteKey generated_key (fst accepted)) = 200.
Proof.
  intros keys1 accepted.
  destruct (generated_key_authenticates "static-key" (inr "ci") (1700000000 * time.Second)
              (1700000300 * time.Second) empty_keys eq_refl)
    as (H1 & _ & _ & H2 & _); [discriminate|].
  split; [exact H1 | exact H2].
Defined.

(** X13. The key store is looked up by file name, and the middleware does
    not compare the key of the request with the key in the file: two keys
    that differ only in [:] against [_] are treated alike, so that a
    request is accepted under either spelling when a record is stored
    under one of them. *)
Theorem auth_accepts_alias configKey now apiKey alias keys :
  apiKey <> "" -> alias <> "" ->
  apiKey <> configKey -> alias <> configKey ->
  KeyStore.sanitizeKeyFilename alias = KeyStore.sanitizeKeyFilename apiKey ->
  server.apiKeyAuthMiddleware configKey now ("Bearer " +:+ alias) keys
  = server.apiKeyAuthMiddleware configKey now ("Bearer " +:+ apiKey) keys.
Proof.
  intros Hk Ha Hkc Hac Hs. rewrite !middleware_bearer by assumption.
  unfold check_key, KeyStore.Load. rewrite Hs.
  destruct (String.eqb_spec apiKey configKey); [congruence|].
  destruct (String.eqb_spec alias configKey); [congruence|]. reflexivity.
Qed.

Lemma auth_accepts_alias_witness :
  snd (server.apiKeyAuthMiddleware "static-key" (1700000300 * time.Second)
         "Bearer sk_team_1" team_keys)
  = server.Next "database" (Some (APIKey.UpdateUsage (1700000300 * time.Second) team_key)).
Proof.
  change "Bearer sk_team_1" with ("Bearer " +:+ "sk_team_1").
  rewrite (auth_accepts_alias "static-key" (1700000300 * time.Second) "sk:team:1"
             "sk_team_1" team_keys);
    [vm_compute; reflexivity | discriminate | discriminate | discriminate | discriminate
     | reflexivity].
Defined.

(** ** The log buffer *)

Lemma LogBuffer_Add_entries now level message b :
  LogBuffer.entries (LogBuffer.Add now level message b)
  = drop (S (length (LogBuffer.entries b)) - LogBuffer.limit b)
      (LogBuffer.entries b ++ [LogEntry.mk level message now])
  /\ LogBuffer.limit (LogBuffer.Add now level message b) = LogBuffer.limit b.
Proof.
  unfold LogBuffer.Add. rewrite length_app. cbn [length]. rewrite Nat.add_1_r.
  destruct (Nat.ltb_spec (LogBuffer.limit b) (S (length (LogBuffer.entries b)))).
  - split; reflexivity.
  - cbn. replace (_ - _)%nat with 0%nat by lia. split; reflexivity.
Qed.

Lemma add_all_entries new b :
  (length (LogBuffer.entries b) <= LogBuffer.limit b)%nat ->
  LogBuffer.entries (add_all new b)
  = drop (length (LogBuffer.entries b ++ new) - LogBuffer.limit b)
      (LogBuffer.entries b ++ new)
  /\ LogBuffer.limit (add_all new b) = LogBuffer.limit b.
Proof.
  revert b. induction new as [|[level message now] new IH]; intros b Hb.
  - cbn. rewrite app_nil_r. replace (_ - _)%nat with 0%nat by lia. split; reflexivity.
  - cbn [add_all foldl LogEntry.Timestamp LogEntry.Level LogEntry.Message].
    fold (add_all new (LogBuffer.Add now level message b)).
    destruct (LogBuffer_Add_entries now level message b) as [He Hl].
    set (e := LogEntry.mk level message now) in *.
    set (b1 := LogBuffer.Add now level message b) in *.
    assert (Hb1 : (length (LogBuffer.entries b1) <= LogBuffer.limit b1)%nat).
    { rewrite He, Hl, length_drop, length_app. cbn [length]. lia. }
    destruct (IH b1 Hb1) as [IHe IHl]. rewrite IHe, IHl, Hl. split; [|reflexivity].
    rewrite He.
    replace (LogBuffer.entries b ++ e :: new)%list
      with ((LogBuffer.entries b ++ [e]) ++ new)%list by (rewrite <- app_assoc; reflexivity).
    rewrite <- (drop_app_le (LogBuffer.entries b ++ [e])%list new)
      by (rewrite length_app; cbn [length]; lia).
    rewrite drop_drop. f_equal.
    rewrite length_drop, !length_app. cbn [length]. lia.
Qed.

Lemma GetRecent_take n b :
  LogBuffer.GetRecent n b
  = take (recent_count n (length (LogBuffer.entries b))) (reverse (LogBuffer.entries b)).
Proof.
  unfold LogBuffer.GetRecent, recent_count. rewrite take_reverse. reflexivity.
Qed.

(** X14. The log buffer keeps the latest entries: after any number of
    additions to a buffer within its limit, it holds the last [limit]
    entries of all that were there or were added, oldest first, and
    [GetRecent n] returns the newest of them first, [n] of them when [n]
    is positive and no more than are held, all of them otherwise. *)
Theorem LogBuffer_keeps_latest new b n :
  (length (LogBuffer.entries b) <= LogBuffer.limit b)%nat ->
  let all := (LogBuffer.entries b ++ new)%list in
  let held := Nat.min (length all) (LogBuffer.limit b) in
  LogBuffer.entries (add_all new b) = drop (length all - LogBuffer.limit b) all
  /\ length (LogBuffer.entries (add_all new b)) = held
  /\ LogBuffer.GetRecent n (add_all new b) = take (recent_count n held) (reverse all).
Proof.
  intros Hb all held. destruct (add_all_entries new b Hb) as [He _]. fold all in He.
  assert (Hlen : length (LogBuffer.entries (add_all new b)) = held)
    by (rewrite He, length_drop; unfold held; lia).
  split; [exact He|]. split; [exact Hlen|].
  rewrite GetRecent_take, Hlen, He, reverse_drop.
  rewrite take_take. f_equal.
  assert (recent_count n held <= held)%nat.
  { unfold recent_count. destruct (_ || _) eqn:E; [lia|].
    apply orb_false_iff in E as [_ E]. apply Z.ltb_ge in E. lia. }
  unfold held in *. lia.
Qed.

Lemma LogBuffer_keeps_latest_witness :
  let b := LogBuffer.mk [log_line "a" 1; log_line "b" 2] 3 in
  let new := [log_line "c" 3; log_line "d" 4] in
  LogBuffer.entries (add_all new b) = [log_line "b" 2; log_line "c" 3; log_line "d" 4]
  /\ LogBuffer.GetRecent 2 (add_all new b) = [log_line "d" 4; log_line "c" 3]
  /\ LogBuffer.GetRecent 0 (add_all new b)
     = [log_line "d" 4; log_line "c" 3; log_line "b" 2].
Proof.
  intros b new.
  destruct (LogBuffer_keeps_latest new b 2) as (He & _ & H2); [cbn; lia|].
  destruct (LogBuffer_keeps_latest new b 0) as (_ & _ & H0); [cbn; lia|].
  split; [rewrite He; reflexivity|]. split; [rewrite H2 | rewrite H0]; reflexivity.
Defined.

(** ** The request translator *)

Lemma buildContents_spec msgs contents systemInstruction :
  server.buildContents msgs contents systemInstruction
  = ((contents ++ (toContent <$> List.filter (fun m => negb (is_system m)) msgs))%list,
     match last (List.filter is_system msgs) with
     | Some msg => Some (toSystemInstruction msg)
     | None => systemInstruction
     end).
Proof.
  revert contents systemInstruction.
  induction msgs as [|msg rest IH]; intros contents systemInstruction.
  - cbn. rewrite app_nil_r. reflexivity.
  - cbn [server.buildContents List.filter].
    change (String.eqb (ChatCompletionMessage.Role msg) "system") with (is_system msg).
    destruct (is_system msg) eqn:E; cbn [negb].
    + rewrite IH, last_cons. destruct (last _); [reflexivity|].
      unfold toSystemInstruction. destruct (ChatCompletionMessage.Content msg); reflexivity.
    + rewrite IH, <- app_assoc. reflexivity.
Qed.

(** X15. The translator keeps the conversation in order and hoists the
    system prompt: the vendor contents are the messages that are not system
    messages, one content each and in their order, with the role
    [assistant] renamed to [model] and every other role kept; the system
    instruction is that of the last system message (none without one), so
    that earlier system messages are lost. *)
Theorem transform_messages e req :
  let inner := GoogleRequest.Request (server.transformRequest e req) in
  let msgs := ChatCompletionRequest.Messages req in
  GoogleInner.Contents inner
  = (toContent <$> List.filter (fun m => negb (is_system m)) msgs)
  /\ GoogleInner.SystemInstruction inner
     = (toSystemInstruction <$> last (List.filter is_system msgs))
  /\ forall content,
       content ∈ GoogleInner.Contents inner ->
       GoogleContent.Role content <> "system"
       /\ GoogleContent.Role content <> "assistant".
Proof.
  intros inner msgs.
  assert (H : GoogleInner.Contents inner
              = (toContent <$> List.filter (fun m => negb (is_system m)) msgs)
              /\ GoogleInner.SystemInstruction inner
                 = (toSystemInstruction <$> last (List.filter is_system msgs))).
  { unfold inner, server.transformRequest. rewrite buildContents_spec. cbn.
    fold msgs. destruct (last _); split; reflexivity. }
  destruct H as [Hc Hs]. split; [exact Hc|]. split; [exact Hs|].
  intros content Hin. rewrite Hc in Hin.
  apply list_elem_of_fmap in Hin as (msg & -> & Hin).
  apply list_elem_of_In, List.filter_In in Hin as [_ Hsys].
  unfold is_system in Hsys. unfold toContent. cbn [GoogleContent.Role].
  destruct (String.eqb_spec (ChatCompletionMessage.Role msg) "system"); [discriminate|].
  destruct (String.eqb_spec (ChatCompletionMessage.Role msg) "assistant");
    [split; discriminate | split; assumption].
Qed.

Lemma transform_messages_witness :
  let inner := GoogleRequest.Request (server.transformRequest example_entropy prompted_request) in
  GoogleInner.Contents inner
  = [GoogleContent.mk "user" [GooglePart.text "2+2?"];
     GoogleContent.mk "model" [GooglePart.text "4"];
     GoogleContent.mk "user" [GooglePart.text "And 3+3?"]]
  /\ GoogleInner.SystemInstruction inner
     = Some (GoogleSystemInstruction.mk "user" [GooglePart.text "Be formal."])
  /\ GoogleContent.Role (GoogleContent.mk "model" [GooglePart.text "4"]) <> "assistant".
Proof.
  intros inner.
  destruct (transform_messages example_entropy prompted_request) as (Hc & Hs & Hr).
  fold inner in Hc, Hs, Hr. split; [rewrite Hc; reflexivity|].
  split; [rewrite Hs; reflexivity|].
  apply (Hr (GoogleContent.mk "model" [GooglePart.text "4"])).
  rewrite Hc. apply elem_of_cons. right. apply elem_of_cons. left. reflexivity.
Defined.

Lemma buildContents_strip msgs contents systemInstruction :
  server.buildContents (strip_message <$> msgs) contents systemInstruction
  = server.buildContents msgs contents systemInstruction.
Proof.
  revert contents systemInstruction.
  induction msgs as [|msg rest IH]; intros contents systemInstruction; [reflexivity|].
  cbn [fmap list_fmap server.buildContents strip_message ChatCompletionMessage.Role
         ChatCompletionMessage.Content].
  change (list_fmap _ _ strip_message rest) with (strip_message <$> rest).
  rewrite !IH. reflexivity.
Qed.

Lemma buildTools_function_only tools :
  server.buildTools (filter (fun t => Tool.Type_ t = "function") tools)
  = server.buildTools tools.
Proof.
  unfold server.buildTools. rewrite list_filter_filter_r by auto.
  destruct tools as [|t tools]; [reflexivity|].
  destruct (filter _ (t :: tools)) as [|t' kept]; reflexivity.
Qed.

(** X16. What the translator never forwards: the vendor request is the
    same when the reasoning, name, tool calls and tool call id of every
    message, the stream flag, the tool choice, the penalties and the tools
    of a type other than [function] are cleared; and it never carries a
    tool configuration. *)
Theorem transform_ignores e req :
  server.transformRequest e (strip_request req) = server.transformRequest e req
  /\ GoogleInner.ToolConfig (GoogleRequest.Request (server.transformRequest e req)) = None.
Proof.
  split.
  - unfold server.transformRequest, strip_request.
    cbn [ChatCompletionRequest.Model ChatCompletionRequest.Messages
           ChatCompletionRequest.Tools].
    rewrite buildContents_strip, buildTools_function_only.
    destruct (server.buildContents _ _ _). reflexivity.
  - unfold server.transformRequest. destruct (server.buildContents _ _ _). reflexivity.
Qed.

Lemma append_assoc (s1 s2 s3 : string) : (s1 +:+ s2) +:+ s3 = s1 +:+ (s2 +:+ s3).
Proof.
  induction s1 as [|c s1 IH]; [reflexivity|]. rewrite !append_cons, IH. reflexivity.
Qed.

Lemma prefix_append (s t : string) : String.prefix s (s +:+ t) = true.
Proof.
  induction s as [|c s IH]; [destruct t; reflexivity|].
  rewrite append_cons. cbn. destruct (ascii_dec c c); [exact IH | congruence].
Qed.

Lemma substring_append_l (s t : string) :
  String.substring 0 (String.length s) (s +:+ t) = s.
Proof.
  induction s as [|c s IH]; [destruct t; reflexivity|].
  rewrite append_cons. cbn. rewrite IH. reflexivity.
Qed.

Lemma substring_append_r (s t : string) (n : nat) :
  String.substring (String.length s) n (s +:+ t) = String.substring 0 n t.
Proof.
  induction s as [|c s IH]; [reflexivity|]. rewrite append_cons. cbn. exact IH.
Qed.

Lemma Contains_cons (c a : ascii) (s : string) :
  strings.Contains (String a s) (String c "") = false <->
  a <> c /\ strings.Contains s (String c "") = false.
Proof.
  unfold strings.Contains, strings.Index. cbn [String.index String.prefix].
  destruct (ascii_dec c a) as [->|Hne].
  - destruct s; split; try discriminate; intros [? _]; congruence.
  - destruct (String.index 0 (String c "") s); split; try discriminate;
      try (intros [_ ?]; discriminate); intros _; split; congruence.
Qed.

Lemma Index_free (c : ascii) (sep s : string) :
  strings.Contains s (String c "") = false ->
  strings.Index s (String c sep) = None.
Proof.
  induction s as [|a s IH]; intros H; [reflexivity|].
  apply Contains_cons in H as [Hne H]. specialize (IH H).
  unfold strings.Index in *. cbn [String.index String.prefix].
  destruct (ascii_dec c a); [congruence|]. rewrite IH. reflexivity.
Qed.

Lemma Index_after (c : ascii) (sep s t : string) :
  strings.Contains s (String c "") = false ->
  strings.Index (s +:+ String c sep +:+ t) (String c sep) = Some (String.length s).
Proof.
  induction s as [|a s IH]; intros H.
  - rewrite append_nil_l. unfold strings.Index.
    pose proof (prefix_append (String c sep) t) as Hp.
    rewrite append_cons in Hp |- *. cbn [String.index]. rewrite Hp. reflexivity.
  - apply Contains_cons in H as [Hne H]. specialize (IH H).
    rewrite append_cons. unfold strings.Index in *. cbn [String.index String.prefix].
    destruct (ascii_dec c a); [congruence|]. rewrite IH. reflexivity.
Qed.

Lemma Split_once (c : ascii) (sep s t : string) :
  strings.Contains s (String c "") = false ->
  strings.Contains t (String c "") = false ->
  strings.Split (s +:+ String c sep +:+ t) (String c sep) = [s; t].
Proof.
  intros Hs Ht. unfold strings.Split.
  destruct (strings.len (s +:+ String c sep +:+ t)) as [|rounds] eqn:Hlen.
  { unfold strings.len in Hlen. rewrite !length_append in Hlen.
    cbn [String.length] in Hlen. lia. }
  clear Hlen. cbn [strings.split_rounds].
  rewrite Index_after by exact Hs.
  unfold strings.slice at 1. rewrite Nat.sub_0_r, substring_append_l.
  assert (Hrest : strings.from (String.length s + strings.len (String c sep))
                    (s +:+ String c sep +:+ t) = t).
  { unfold strings.from, strings.slice, strings.len.
    rewrite !length_append.
    replace (String.length s + String.length (String c sep))%nat
      with (String.length (s +:+ String c sep)) by apply length_append.
    rewrite <- append_assoc, substring_append_r.
    replace (_ - _)%nat with (String.length t) by (rewrite length_append; lia).
    apply substring_full. }
  rewrite Hrest. f_equal.
  destruct rounds; cbn [strings.split_rounds]; [reflexivity|].
  rewrite Index_free by exact Ht. reflexivity.
Qed.

(** X17. An image given as a base64 data URL is forwarded inline: for a
    subtype and a payload without [;], the item with the URL
    [data:image/<subtype>;base64,<payload>] becomes one inline-data part
    with MIME type [image/<subtype>] and that payload.  An image given by
    any URL that does not start with [data:image/] is dropped. *)
Theorem image_data_url subtype payload :
  strings.Contains subtype ";" = false ->
  strings.Contains payload ";" = false ->
  server.itemParts (image_item ("data:image/" +:+ subtype +:+ ";base64," +:+ payload))
  = [GooglePart.inlineData (GoogleInlineData.mk ("image/" +:+ subtype) payload)]
  /\ forall url,
       strings.HasPrefix url "data:image/" = false ->
       server.itemParts (image_item url) = [].
Proof.
  intros Hs Hp.
  assert (Hitem : forall url,
             server.itemParts (image_item url)
             = if strings.HasPrefix url "data:image/" then
                 match strings.Split url ";base64," with
                 | [p0; p1] =>
                     [GooglePart.inlineData
                        (GoogleInlineData.mk (strings.TrimPrefix p0 "data:") p1)]
                 | _ => []
                 end
               else []).
  { intros url. unfold server.itemParts, image_item.
    rewrite lookup_insert_eq. cbn [server.is_string String.eqb Ascii.eqb Bool.eqb].
    rewrite lookup_insert_ne by discriminate. rewrite lookup_insert_eq.
    cbn [as_object]. rewrite lookup_insert_eq. reflexivity. }
  split; [|intros url Hu; rewrite Hitem, Hu; reflexivity].
  rewrite Hitem.
  assert (Hpre : strings.HasPrefix ("data:image/" +:+ subtype +:+ ";base64," +:+ payload)
                   "data:image/" = true) by apply prefix_append.
  rewrite Hpre, <- append_assoc.
  rewrite (Split_once ";" "base64," ("data:image/" +:+ subtype) payload); [| |exact Hp].
  - do 3 f_equal. unfold strings.TrimPrefix.
    change (strings.HasPrefix ("data:image/" +:+ subtype) "data:")
      with (String.prefix "data:" ("data:" +:+ ("image/" +:+ subtype))).
    rewrite prefix_append.
    change ("data:image/" +:+ subtype) with ("data:" +:+ ("image/" +:+ subtype)).
    unfold strings.from, strings.slice, strings.len.
    rewrite substring_append_r, length_append.
    replace (_ - _)%nat with (String.length ("image/" +:+ subtype)) by lia.
    apply substring_full.
  - change ("data:image/" +:+ subtype)
      with (String "d" (String "a" (String "t" (String "a" (String ":" (String "i"
              (String "m" (String "a" (String "g" (String "e" (String "/" subtype))))))))))).
    repeat (apply Contains_cons; split; [discriminate|]). exact Hs.
Qed.

Lemma image_data_url_witness :
  server.itemParts (image_item "data:image/png;base64,iVBORw0KGgo=")
  = [GooglePart.inlineData (GoogleInlineData.mk "image/png" "iVBORw0KGgo=")]
  /\ server.itemParts (image_item "https://example.com/cat.png") = [].
Proof.
  destruct (image_data_url "png" "iVBORw0KGgo=") as [Hd Hu]; [reflexivity | reflexivity |].
  split; [exact Hd | apply Hu; reflexivity].
Defined.

(** ** The response handlers *)

Lemma append_nil_r (s : string) : s +:+ "" = s.
Proof. induction s as [|c s IH]; [reflexivity|]. rewrite append_cons, IH. reflexivity. Qed.

Lemma texts_app keep parts1 parts2 :
  texts keep (parts1 ++ parts2) = texts keep parts1 +:+ texts keep parts2.
Proof.
  induction parts1 as [|p parts1 IH]; [reflexivity|].
  cbn [app texts foldr]. fold (texts keep (parts1 ++ parts2)). fold (texts keep parts1).
  rewrite IH. destruct (keep p); [rewrite append_assoc|]; reflexivity.
Qed.

Lemma accumulateParts_texts parts content reasoning :
  server.accumulateParts parts content reasoning
  = (content +:+ texts is_plain parts, reasoning +:+ texts is_thought parts).
Proof.
  revert content reasoning.
  induction parts as [|p parts IH]; intros content reasoning.
  - cbn. rewrite !append_nil_r. reflexivity.
  - cbn [server.accumulateParts texts foldr].
    fold (texts is_plain parts). fold (texts is_thought parts).
    unfold is_plain at 1, is_thought at 1.
    destruct (String.eqb_spec (GooglePart.Text p) "") as [E|E]; cbn [negb].
    + rewrite IH, E. destruct (GooglePart.Thought p); reflexivity.
    + destruct (GooglePart.Thought p); cbn [negb]; rewrite IH, append_assoc; reflexivity.
Qed.

Lemma aggregate_texts unmarshal lines content reasoning t :
  fst (server.aggregate unmarshal lines content reasoning t)
  = (content +:+ texts is_plain (upstream_parts unmarshal lines),
     reasoning +:+ texts is_thought (upstream_parts unmarshal lines)).
Proof.
  revert content reasoning t.
  induction lines as [|line rest IH]; intros content reasoning t.
  - cbn. rewrite !append_nil_r. reflexivity.
  - cbn [server.aggregate upstream_parts].
    destruct (negb _); [apply IH|].
    destruct (String.eqb _ "[DONE]"); [cbn; rewrite !append_nil_r; reflexivity|].
    destruct (unmarshal _) as [googleResp|]; [|apply IH].
    destruct (GoogleResponseInner.Candidates _) as [|candidate ?]; [apply IH|].
    rewrite accumulateParts_texts, IH, !texts_app, !append_assoc. reflexivity.
Qed.

(** X18. The aggregated handler answers with the texts of the upstream
    parts: the content is the concatenation of the texts of the parts that
    are not thoughts and the reasoning that of the thoughts, in the order
    of arrival, both passed through the [<think>] fallback; the reply names
    the requested model, one choice with role [assistant] and finish reason
    [stop]. *)
Theorem normal_reply_texts unmarshal a body model account s :
  let parts := upstream_parts unmarshal body in
  let extracted := server.extractThinking (texts is_plain parts) (texts is_thought parts) in
  exists usage,
    snd (server.handleNormalResponse unmarshal a body model account s)
    = gin.JSON_ 200
        (gin.Completion
           (ChatCompletionResponse.mk ("chatcmpl-" +:+ server.uuids a 0%nat)
              "chat.completion" (time.Unix (oauth.Now (server.world a))) model
              [ChatCompletionChoice.mk 0
                 (ChatCompletionMessage.mk "assistant" (JString (fst extracted))
                    (snd extracted) "" [] "")
                 "stop"]
              (Some usage) "")).
Proof.
  intros parts extracted. unfold server.handleNormalResponse.
  pose proof (aggregate_texts unmarshal body "" "" (server.mkTotals 0 0 0)) as H.
  destruct (server.aggregate _ _ _ _ _) as [[content reasoning] t].
  cbn [fst] in H. rewrite !append_nil_l in H. injection H as -> ->.
  fold parts. fold extracted. destruct extracted as [content' reasoning'].
  eexists. cbn [snd fst]. reflexivity.
Qed.

Lemma concat_texts parts :
  String.concat "" (GooglePart.Text <$> parts) = texts (fun _ => true) parts.
Proof.
  induction parts as [|p parts IH]; [reflexivity|].
  cbn [fmap list_fmap texts foldr]. fold (texts (fun _ => true) parts).
  rewrite <- IH. destruct parts; cbn; rewrite ?append_nil_r; reflexivity.
Qed.

Lemma texts_plain_all parts :
  Forall (fun p => GooglePart.Thought p = false) parts ->
  texts is_plain parts = texts (fun _ => true) parts
  /\ texts is_thought parts = "".
Proof.
  induction 1 as [|p parts Hp _ [IH1 IH2]]; [split; reflexivity|].
  cbn [texts foldr]. unfold is_plain at 1, is_thought at 1. rewrite Hp. cbn [negb].
  fold (texts is_plain parts). fold (texts (fun _ => true) parts).
  fold (texts is_thought parts). rewrite IH1. split; [reflexivity | exact IH2].
Qed.

Lemma streamed_text_stream unmarshal a body model account s :
  streamed_text (snd (server.handleStreamResponse unmarshal a body model account s))
  = texts (fun _ => true) (upstream_parts unmarshal body).
Proof.
  unfold server.handleStreamResponse.
  pose proof (stream_deltas unmarshal a model body 0 (server.mkTotals 0 0 0)) as H.
  destruct (server.stream _ _ _ _ _ _) as [chunks t]. cbn [fst snd] in H |- *.
  unfold streamed_text. rewrite <- concat_texts. f_equal.
  rewrite bind_app. cbn. rewrite app_nil_r.
  revert H. generalize (upstream_parts unmarshal body).
  induction chunks as [|chunk chunks IH]; intros [|p parts] H; try discriminate;
    [reflexivity|].
  cbn in H. injection H as Hd Hrest.
  cbn [fmap list_fmap mbind list_bind]. rewrite Hd. cbn.
  f_equal. apply IH. exact Hrest.
Qed.

(** X19. The two modes deliver the same text when the upstream sends no
    thoughts and the text has no [<think>] block: the contents of the
    streamed chunks, one after the other, are the content of the
    aggregated reply. *)
Theorem modes_deliver_same_text unmarshal a body model account s :
  Forall (fun p => GooglePart.Thought p = false) (upstream_parts unmarshal body) ->
  server.findThink (texts (fun _ => true) (upstream_parts unmarshal body)) = None ->
  streamed_text (snd (server.handleStreamResponse unmarshal a body model account s))
  = reply_text (snd (server.handleNormalResponse unmarshal a body model account s)).
Proof.
  intros Hplain Hthink. rewrite streamed_text_stream.
  unfold server.handleNormalResponse.
  pose proof (aggregate_texts unmarshal body "" "" (server.mkTotals 0 0 0)) as H.
  destruct (server.aggregate _ _ _ _ _) as [[content reasoning] t].
  cbn [fst] in H. rewrite !append_nil_l in H. injection H as -> ->.
  destruct (texts_plain_all _ Hplain) as [-> ->].
  unfold server.extractThinking. rewrite Hthink. reflexivity.
Qed.

Lemma modes_deliver_same_text_witness :
  let a := example_attempt no_upstream in
  let s := server_with [new_account] in
  streamed_text
    (snd (server.handleStreamResponse answer_decode a answer_body "gemini-2.0-flash"
            new_account s))
  = reply_text
      (snd (server.handleNormalResponse answer_decode a answer_body "gemini-2.0-flash"
              new_account s))
  /\ reply_text
       (snd (server.handleNormalResponse answer_decode a answer_body "gemini-2.0-flash"
               new_account s)) = "4".
Proof.
  intros a s.
  assert (E : upstream_parts answer_decode answer_body = [GooglePart.text "4"])
    by (vm_compute; reflexivity).
  split; [|vm_compute; reflexivity].
  apply modes_deliver_same_text; rewrite E.
  - constructor; [reflexivity | constructor].
  - vm_compute. reflexivity.
Defined.

Lemma aggregate_significant unmarshal lines content reasoning t :
  server.aggregate unmarshal (significant unmarshal lines) content reasoning t
  = server.aggregate unmarshal lines content reasoning t.
Proof.
  revert content reasoning t.
  induction lines as [|line rest IH]; intros content reasoning t; [reflexivity|].
  cbn [significant server.aggregate].
  destruct (negb _) eqn:Ep; [apply IH|].
  destruct (String.eqb _ "[DONE]") eqn:Ed; [reflexivity|].
  destruct (unmarshal _) as [googleResp|] eqn:Eu; [|apply IH].
  cbn [server.aggregate]. rewrite Ep, Ed, Eu.
  destruct (GoogleResponseInner.Candidates _) as [|candidate ?]; [apply IH|].
  destruct (server.accumulateParts _ _ _). apply IH.
Qed.

Lemma stream_significant unmarshal a model lines n t :
  server.stream unmarshal a model (significant unmarshal lines) n t
  = server.stream unmarshal a model lines n t.
Proof.
  revert n t. induction lines as [|line rest IH]; intros n t; [reflexivity|].
  cbn [significant server.stream].
  destruct (negb _) eqn:Ep; [apply IH|].
  destruct (String.eqb _ "[DONE]") eqn:Ed; [reflexivity|].
  destruct (unmarshal _) as [googleResp|] eqn:Eu; [|apply IH].
  cbn [server.stream]. rewrite Ep, Ed, Eu.
  destruct (GoogleResponseInner.Candidates _) as [|candidate ?]; [apply IH|].
  rewrite IH. reflexivity.
Qed.

(** X20. Both handlers act only on the data lines that decode, up to the
    [[DONE]] line: every other line of the upstream body (blank lines,
    lines without the [data: ] prefix, payloads that do not decode, and
    all that follows [[DONE]]) changes neither the reply nor what is
    recorded. *)
Theorem handlers_skip_noise unmarshal a body model account s :
  server.handleNormalResponse unmarshal a (significant unmarshal body) model account s
  = server.handleNormalResponse unmarshal a body model account s
  /\ server.handleStreamResponse unmarshal a (significant unmarshal body) model account s
     = server.handleStreamResponse unmarshal a body model account s.
Proof.
  unfold server.handleNormalResponse, server.handleStreamResponse.
  rewrite aggregate_significant, stream_significant. split; reflexivity.
Qed.

Lemma captured_agree unmarshal a model lines n content reasoning t :
  Forall (fun ev => GoogleResponseInner.Candidates (GoogleResponse.Response ev) <> [])
    (events unmarshal lines) ->
  snd (server.stream unmarshal a model lines n t)
  = snd (server.aggregate unmarshal lines content reasoning t).
Proof.
  revert n content reasoning t.
  induction lines as [|line rest IH]; intros n content reasoning t Hev; [reflexivity|].
  unfold events in Hev. cbn [significant] in Hev. cbn [server.stream server.aggregate].
  destruct (negb _); [apply IH, Hev|].
  destruct (String.eqb _ "[DONE]"); [reflexivity|].
  destruct (unmarshal _) as [googleResp|] eqn:Eu; [|apply IH, Hev].
  cbn [omap list_omap] in Hev. rewrite Eu in Hev.
  apply Forall_cons in Hev as [Hc Hev].
  destruct (GoogleResponseInner.Candidates _) as [|candidate ?]; [congruence|].
  destruct (server.accumulateParts _ _ _) as [content' reasoning'].
  specialize (IH (n + length (GoogleContent.Parts (GoogleCandidate.Content candidate)))%nat
                content' reasoning' (server.trackUsage googleResp t) Hev).
  destruct (server.stream _ _ _ _ _ _). exact IH.
Qed.

(** X21. What is recorded does not depend on the mode as long as every
    event carries a candidate: then the streaming handler and the
    aggregating handler leave the same account files and the same usage
    files.  (The streaming handler skips the usage of an event without
    candidates; the aggregating handler counts it.) *)
Theorem modes_record_alike unmarshal a body model account s :
  Forall (fun ev => GoogleResponseInner.Candidates (GoogleResponse.Response ev) <> [])
    (events unmarshal body) ->
  fst (server.handleStreamResponse unmarshal a body model account s)
  = fst (server.handleNormalResponse unmarshal a body model account s).
Proof.
  intros Hev. rewrite handleStreamResponse_records, handleNormalResponse_records.
  unfold captured_stream, captured_normal.
  rewrite (captured_agree unmarshal a model body 0 "" "" (server.mkTotals 0 0 0) Hev).
  reflexivity.
Qed.

Lemma modes_record_alike_witness :
  let a := example_attempt no_upstream in
  let s := server_with [new_account] in
  fst (server.handleStreamResponse answer_decode a answer_body "gemini-2.0-flash"
         new_account s)
  = fst (server.handleNormalResponse answer_decode a answer_body "gemini-2.0-flash"
           new_account s)
  /\ captured_stream usage_last_decode a "gemini-2.0-flash" usage_last_body
     = server.mkTotals 0 0 0
  /\ captured_normal usage_last_decode usage_last_body = server.mkTotals 15 10 5.
Proof.
  intros a s. split; [|split; vm_compute; reflexivity].
  apply modes_record_alike.
  assert (E : events answer_decode answer_body
              = [model_part (GooglePart.text "4") (Some (GoogleUsage.mk 10 5 20))])
    by (vm_compute; reflexivity).
  rewrite E. constructor; [discriminate | constructor].
Defined.

(** ** The proxy without a usable account, and new accounts *)

Lemma attempt_unusable unmarshal req a s accountIDs :
  AccountStore.List (accounts_of s) = inr accountIDs ->
  (forall accountID,
     accountID ∈ accountIDs ->
     unusable (oauth.Now (server.world a)) (AccountStore.Load accountID (accounts_of s))
     = true) ->
  exists s',
    server.attempt unmarshal req a s
    = server.Continue s'
        (oauth.Error (match accountIDs with
                      | [] => oauth.ErrNoAccounts
                      | _ => oauth.ErrNoValidAccounts
                      end))
    /\ accounts_of s' = accounts_of s
    /\ server.usageStore s' = server.usageStore s.
Proof.
  intros Hl Hall. unfold server.attempt, oauth.GetToken.
  change (oauth.accountStore (server.oauthClient s)) with (accounts_of s). rewrite Hl.
  destruct accountIDs as [|accountID accountIDs]; cbn [length Nat.eqb].
  - eexists. split; [reflexivity|]. split; reflexivity.
  - destruct (rotate_all_unusable (server.world a) (accountID :: accountIDs)
                (S (length accountIDs)) (server.oauthClient s)) as (c' & Hr & Hs);
      [discriminate | exact Hall |].
    rewrite Hr. eexists. split; [reflexivity|]. split; [exact Hs | reflexivity].
Qed.

Lemma retry_unusable unmarshal req env accountIDs remaining n lastErr s :
  AccountStore.List (accounts_of s) = inr accountIDs ->
  (forall k accountID,
     accountID ∈ accountIDs ->
     unusable (oauth.Now (server.world (env k)))
       (AccountStore.Load accountID (accounts_of s)) = true) ->
  let reason := oauth.Error (match accountIDs with
                             | [] => oauth.ErrNoAccounts
                             | _ => oauth.ErrNoValidAccounts
                             end) in
  (remaining = 0%nat -> lastErr = Some reason) ->
  let out := server.retry unmarshal req env remaining n lastErr s in
  snd out
  = gin.JSON_ 503
      (gin.H_error_details_retries "Service unavailable after retries" reason 5)
  /\ accounts_of (fst out) = accounts_of s
  /\ server.usageStore (fst out) = server.usageStore s.
Proof.
  intros Hl Hall reason. revert n lastErr s Hl Hall.
  induction remaining as [|remaining IH]; intros n lastErr s Hl Hall Hlast.
  - cbn. rewrite Hlast by reflexivity. split; [reflexivity|]. split; reflexivity.
  - intros out. unfold out. rewrite retry_step.
    destruct (attempt_unusable unmarshal req (env n) s accountIDs Hl (Hall n))
      as (s' & -> & Hs & Hu).
    destruct (IH (S n) (Some reason) s') as (Hr & Hs' & Hu');
      [rewrite Hs; exact Hl | intros k id Hin; rewrite Hs; apply Hall, Hin | reflexivity |].
    split; [exact Hr|]. split; [exact (eq_trans Hs' Hs) | exact (eq_trans Hu' Hu)].
Qed.

(** X22. Without a usable account the proxy gives up without contacting
    the upstream or writing anything: when the account files list, and
    every listed account fails to load, is disabled or is in cooldown at
    each of the five attempts, the answer is 503 with the acquisition error
    ("no accounts available" for an empty listing) and [retries = 5],
    whatever the upstream would have answered, and the account files and
    usage files are as before. *)
Theorem no_usable_account_answer unmarshal req env s accountIDs :
  AccountStore.List (accounts_of s) = inr accountIDs ->
  (forall k accountID,
     accountID ∈ accountIDs ->
     unusable (oauth.Now (server.world (env k)))
       (AccountStore.Load accountID (accounts_of s)) = true) ->
  let out := server.chatCompletions unmarshal (inr req) env s in
  snd out
  = gin.JSON_ 503
      (gin.H_error_details_retries "Service unavailable after retries"
         (oauth.Error (match accountIDs with
                       | [] => oauth.ErrNoAccounts
                       | _ => oauth.ErrNoValidAccounts
                       end)) 5)
  /\ accounts_of (fst out) = accounts_of s
  /\ server.usageStore (fst out) = server.usageStore s.
Proof.
  intros Hl Hall. unfold server.chatCompletions.
  apply (retry_unusable unmarshal req env accountIDs server.maxRetries 0 None s Hl Hall).
  discriminate.
Qed.

Lemma no_usable_account_answer_witness :
  let s := server_with [disabled_account; cooling_account] in
  let env := fun _ : nat => example_attempt throttle_erin in
  snd (server.chatCompletions answer_decode (inr plain_request) env s)
  = gin.JSON_ 503
      (gin.H_error_details_retries "Service unavailable after retries"
         "no valid accounts available (all disabled, in cooldown, or failed refresh)" 5)
  /\ snd (server.chatCompletions answer_decode (inr plain_request) env (server_with []))
     = gin.JSON_ 503
         (gin.H_error_details_retries "Service unavailable after retries"
            "no accounts available" 5).
Proof.
  intros s env. split.
  - apply (no_usable_account_answer answer_decode plain_request env s
             ["carol@example.com_0a0b0c0d"; "dave@example.com_9f8e7d6c"]).
    + vm_compute. reflexivity.
    + intros k accountID Hin. apply elem_of_cons in Hin as [->|Hin].
      * vm_compute. reflexivity.
      * apply elem_of_cons in Hin as [->|Hin]; [|inversion Hin]. vm_compute. reflexivity.
  - apply (no_usable_account_answer answer_decode plain_request env (server_with []) []).
    + vm_compute. reflexivity.
    + intros k accountID Hin. inversion Hin.
Defined.

Lemma length_hex (b : list N) : String.length (oauth.hex b) = (2 * length b)%nat.
Proof. induction b as [|x b IH]; [reflexivity|]. cbn [oauth.hex String.length length]. lia. Qed.

(** X23. A saved account is usable at once: with a writable account
    directory, a token good for more than half an hour and the clock in
    range, [SaveAccountFromToken] stores the account under the id made of
    the email, an underscore and eight hexadecimal digits, the stored file
    reads back as the account returned, and that account is enabled, out
    of cooldown and needs no refresh. *)
Theorem saved_account_is_ready w random token userInfo c :
  AccountStore.read_only (oauth.accountStore c) = false ->
  1800 < oauth.Token.ExpiresIn token < 2 ^ 32 ->
  1000000 <= oauth.Now w < 2 ^ 62 ->
  exists c' account,
    oauth.SaveAccountFromToken w random token userInfo c = (c', inr account)
    /\ Account.AccountID account
       = oauth.generateAccountID random (oauth.UserInfo.Email userInfo)
    /\ String.length (Account.AccountID account)
       = (String.length (oauth.UserInfo.Email userInfo) + 9)%nat
    /\ AccountStore.Load (Account.AccountID account) (oauth.accountStore c') = inr account
    /\ ready (oauth.Now w) account = true.
Proof.
  intros Hw He Hnow. unfold oauth.SaveAccountFromToken.
  set (account := Account.mk _ _ _ _ _ _ _ _ _ _ _ _ _).
  destruct (AccountStore.Save account (oauth.accountStore c)) as [store' [err|]] eqn:Es.
  { unfold AccountStore.Save in Es. rewrite Hw in Es. discriminate. }
  exists (oauth.mkClient store' (oauth.currentIndex c)), account.
  split; [reflexivity|]. split; [reflexivity|]. split; [|split].
  - unfold account. cbn [Account.AccountID]. unfold oauth.generateAccountID.
    destruct random as [[[b0 b1] b2] b3]. rewrite !length_append, length_hex.
    cbn [String.length length]. lia.
  - apply (Load_Save account _ _ Es).
  - unfold ready, Account.NeedsRefresh, Account.IsInCooldown, Account.expiryTime,
      Account.sub_sat.
    unfold account. cbn [Account.Enable Account.ErrorTracking ErrorTracking.FailedUntil
                           Account.Timestamp Account.ExpiresIn negb andb orb].
    unfold time.UnixMilli, time.Minute, time.Second.
    assert (Hms : 0 < oauth.Now w `div` 1000000)
      by (apply Z.div_str_pos; lia).
    destruct (Z.eqb_spec (oauth.Now w `div` 1000000) 0); [lia|].
    destruct (Z.eqb_spec (oauth.Token.ExpiresIn token) 0); [lia|].
    cbn [orb]. rewrite wrap64_id by (unfold go.in_int64; lia).
    rewrite Z.quot_div_nonneg by lia.
    destruct (Z.ltb_spec
                (Z.max (- 2 ^ 63)
                   (Z.min (2 ^ 63 - 1)
                      (((oauth.Now w `div` 1000000) `div` 1000) * 1000000000
                       + oauth.Token.ExpiresIn token * 1000000000 - oauth.Now w)))
                (30 * (60 * 1000000000))) as [Hlt|Hge]; [|reflexivity].
    exfalso. revert Hlt.
    pose proof (Z.div_mod (oauth.Now w) 1000000 ltac:(lia)).
    pose proof (Z.mod_pos_bound (oauth.Now w) 1000000 ltac:(lia)).
    pose proof (Z.div_mod (oauth.Now w `div` 1000000) 1000 ltac:(lia)).
    pose proof (Z.mod_pos_bound (oauth.Now w `div` 1000000) 1000 ltac:(lia)).
    lia.
Qed.

Lemma saved_account_is_ready_witness :
  exists c' account,
    oauth.SaveAccountFromToken example_world (222, 173, 190, 239)%N
      (oauth.Token.mk "ya29.frank" "1//frank" 3599)
      (oauth.UserInfo.mk "frank@example.com" "Frank")
      (server.oauthClient (server_with [])) = (c', inr account)
    /\ Account.AccountID account = "frank@example.com_deadbeef"
    /\ ready (oauth.Now example_world) account = true.
Proof.
  destruct (saved_account_is_ready example_world (222, 173, 190, 239)%N
              (oauth.Token.mk "ya29.frank" "1//frank" 3599)
              (oauth.UserInfo.mk "frank@example.com" "Frank")
              (server.oauthClient (server_with [])))
    as (c' & account & Hs & Hid & _ & _ & Hr).
  - reflexivity.
  - cbn. lia.
  - vm_compute. split; [discriminate | reflexivity].
  - exists c', account. split; [exact Hs|]. split; [|exact Hr].
    rewrite Hid. vm_compute. reflexivity.
Defined.

Lemma RecordFailure_tokens now err a a' :
  Account.RecordFailure now err a = go.Ret a' ->
  tokens_of a' = tokens_of a /\ Account.AccountID a' = Account.AccountID a.
Proof.
  unfold Account.RecordFailure. destruct (go.shl64 _ _); intros [= <-].
  split; reflexivity.
Qed.

(** X24. What a refresh does to an account in a writable directory.  When
    the token endpoint fails (the failure counter below 62, the clock in
    range), the error is returned, the account keeps its tokens and is in
    cooldown, and its file then decodes to an account marked failed, with
    one more failure in a row, in cooldown, with the expiry, time stamp and
    enabled flag it had.  When the endpoint answers, the account takes the
    new access token, expiry and time stamp, keeps its refresh token if the
    answer has none, stays as enabled as it was and is out of cooldown, and
    its file then decodes to an account marked success, with no failure in
    a row, out of cooldown, with the new expiry and time stamp and the
    enabled flag it had. *)
Theorem refresh_effects w account c :
  AccountStore.read_only (oauth.accountStore c) = false ->
  let out := oauth.RefreshToken w account c in
  let account' := snd (fst out) in
  let saved :=
    AccountStore.Load (Account.AccountID account) (oauth.accountStore (fst (fst out))) in
  (forall err,
     oauth.TokenSource w (Account.RefreshToken account) = inl err ->
     0 <= failures_of account < 62 -> clock_ok (oauth.Now w) ->
     snd out = go.Err err
     /\ tokens_of account' = tokens_of account
     /\ Account.IsInCooldown (oauth.Now w) account' = true
     /\ exists stored,
          saved = inr stored
          /\ Account.RefreshStatus stored = "failed"
          /\ failures_of stored = failures_of account + 1
          /\ Account.IsInCooldown (oauth.Now w) stored = true
          /\ Account.ExpiresIn stored = Account.ExpiresIn account
          /\ Account.Timestamp stored = Account.Timestamp account
          /\ Account.Enable stored = Account.Enable account)
  /\ (forall token,
        oauth.TokenSource w (Account.RefreshToken account) = inr token ->
        snd out = go.Ret tt
        /\ tokens_of account'
           = (oauth.Token.AccessToken token,
              if String.eqb (oauth.Token.RefreshToken token) ""
              then Account.RefreshToken account else oauth.Token.RefreshToken token,
              oauth.Token.ExpiresIn token, time.UnixMilli (oauth.Now w))
        /\ Account.Enable account' = Account.Enable account
        /\ Account.IsInCooldown (oauth.Now w) account' = false
        /\ exists stored,
             saved = inr stored
             /\ Account.RefreshStatus stored = "success"
             /\ failures_of stored = 0
             /\ Account.IsInCooldown (oauth.Now w) stored = false
             /\ Account.ExpiresIn stored = oauth.Token.ExpiresIn token
             /\ Account.Timestamp stored = time.UnixMilli (oauth.Now w)
             /\ Account.LastRefresh stored = time.UnixMilli (oauth.Now w)
             /\ Account.Enable stored = Account.Enable account).
Proof.
  intros Hw out account' saved. unfold saved, account', out, oauth.RefreshToken.
  split.
  - intros err Hts Hf Hnow. rewrite Hts.
    destruct (RecordFailure_window (oauth.Now w) err account Hnow Hf) as (a1 & Ef & Hc).
    destruct (RecordFailure_marked (oauth.Now w) err account)
      as (a1' & Ef' & Hm & _ & He & Hs & _); [unfold counter_ok; lia|].
    rewrite Ef in Ef'. injection Ef' as <-.
    destruct Hm as (Hst & Hfail & _ & _ & Hen & _).
    rewrite Ef. destruct (RecordFailure_tokens _ _ _ _ Ef) as [Ht Hid].
    unfold AccountStore.Save. rewrite Hw. cbn [fst snd oauth.accountStore].
    assert (Hcool : Account.IsInCooldown (oauth.Now w) a1 = true).
    { rewrite Hc. apply Z.ltb_lt.
      assert (0 < 2 ^ (failures_of account + 1)) by (apply Z.pow_pos_nonneg; lia). lia. }
    split; [reflexivity|]. split; [exact Ht|]. split; [exact Hcool|].
    exists a1. split; [|auto 10].
    unfold AccountStore.Load. cbn [AccountStore.files]. rewrite Hid, lookup_insert_eq.
    reflexivity.
  - intros token Hts. rewrite Hts.
    set (a5 := Account.RecordSuccess _ _).
    unfold AccountStore.Save. rewrite Hw. cbn [fst snd oauth.accountStore].
    assert (Hid : Account.AccountID a5 = Account.AccountID account).
    { unfold a5. destruct (oauth.fetchModels w _), (String.eqb _ _); reflexivity. }
    assert (Hen : Account.Enable a5 = Account.Enable account).
    { unfold a5. destruct (oauth.fetchModels w _), (String.eqb _ _); reflexivity. }
    assert (Hnum : Account.ExpiresIn a5 = oauth.Token.ExpiresIn token
                   /\ Account.Timestamp a5 = time.UnixMilli (oauth.Now w)).
    { unfold a5. destruct (oauth.fetchModels w _), (String.eqb _ _); split; reflexivity. }
    split; [reflexivity|]. split; [|split; [exact Hen|split; [reflexivity|]]].
    + unfold a5, tokens_of. destruct (oauth.fetchModels w _), (String.eqb _ _); reflexivity.
    + exists a5. split; [|repeat (split; [reflexivity|]); split; [apply Hnum|];
                          split; [apply Hnum|]; split; [reflexivity | exact Hen]].
      unfold AccountStore.Load. cbn [AccountStore.files]. rewrite <- Hid, lookup_insert_eq.
      reflexivity.
Qed.

Lemma refresh_effects_witness :
  let pool := server.oauthClient (server_with [stale_account]) in
  let failed := oauth.RefreshToken example_world stale_account pool in
  let renewed := oauth.RefreshToken renewing_world stale_account pool in
  (snd failed = go.Err "oauth2: cannot fetch token"
   /\ tokens_of (snd (fst failed)) = tokens_of stale_account
   /\ exists stored,
        AccountStore.Load (Account.AccountID stale_account)
          (oauth.accountStore (fst (fst failed))) = inr stored
        /\ Account.RefreshStatus stored = "failed"
        /\ failures_of stored = 1
        /\ Account.IsInCooldown (oauth.Now example_world) stored = true)
  /\ (snd renewed = go.Ret tt
      /\ tokens_of (snd (fst renewed))
         = ("ya29.new.1//refresh", "1//refresh", 3599, 1700000000000)
      /\ exists stored,
           AccountStore.Load (Account.AccountID stale_account)
             (oauth.accountStore (fst (fst renewed))) = inr stored
           /\ Account.RefreshStatus stored = "success"
           /\ failures_of stored = 0
           /\ Account.Timestamp stored = 1700000000000).
Proof.
  intros pool failed renewed.
  destruct (refresh_effects example_world stale_account pool eq_refl) as [Hf _].
  destruct (refresh_effects renewing_world stale_account pool eq_refl) as [_ Hs].
  destruct (Hf "oauth2: cannot fetch token")
    as (H1 & H2 & _ & stored & Hl & Hst & Hn & Hc & _);
    [reflexivity | cbn; lia | vm_compute; split; [discriminate | reflexivity] |].
  destruct (Hs (oauth.Token.mk "ya29.new.1//refresh" "" 3599))
    as (H3 & H4 & _ & _ & stored' & Hl' & Hst' & Hn' & _ & _ & Ht' & _);
    [reflexivity|].
  split.
  - split; [exact H1|]. split; [exact H2|].
    exists stored. split; [exact Hl|]. split; [exact Hst|].
    split; [rewrite Hn; reflexivity | exact Hc].
  - split; [exact H3|]. split; [exact H4|].
    exists stored'. split; [exact Hl'|]. split; [exact Hst'|].
    split; [exact Hn' | rewrite Ht'; vm_compute; reflexivity].
Defined.

(** ** Account files and usage files *)

Lemma keyed_Save account store :
  keyed store -> keyed (fst (AccountStore.Save account store)).
Proof.
  intros Hk. unfold AccountStore.Save.
  destruct (AccountStore.read_only store); [exact Hk|].
  intros accountID a. cbn. rewrite lookup_insert.
  case_decide; [intros [= <-]; assumption | apply Hk].
Qed.

Lemma keeps_files_Save before account store :
  keeps_files before store -> keeps_files before (fst (AccountStore.Save account store)).
Proof.
  intros Hk. unfold AccountStore.Save.
  destruct (AccountStore.read_only store); [exact Hk|].
  intros accountID Hb. cbn. rewrite lookup_insert.
  case_decide; [eexists; reflexivity | apply Hk, Hb].
Qed.

Lemma keyed_server_with accounts : keyed (accounts_of (server_with accounts)).
Proof.
  intros accountID a H. cbn in H.
  apply elem_of_list_to_map_2 in H.
  apply list_elem_of_fmap in H as (a0 & [= -> <-] & _). reflexivity.
Qed.

(** X25. The proxy keeps the account directory in order: if every account
    file holds the account it is named after, this is still so after a
    chat completion, an acquisition or a batch refresh, and none of them
    removes an account file. *)
Theorem account_files_kept unmarshal bound env s w :
  keyed (accounts_of s) ->
  (keyed (accounts_of (fst (server.chatCompletions unmarshal bound env s)))
   /\ keeps_files (accounts_of s)
        (accounts_of (fst (server.chatCompletions unmarshal bound env s))))
  /\ (forall c' r,
        oauth.GetToken w (server.oauthClient s) = (c', r) ->
        keyed (oauth.accountStore c')
        /\ keeps_files (accounts_of s) (oauth.accountStore c'))
  /\ (keyed (oauth.accountStore (fst (oauth.RefreshAllTokens w (server.oauthClient s))))
      /\ keeps_files (accounts_of s)
           (oauth.accountStore (fst (oauth.RefreshAllTokens w (server.oauthClient s))))).
Proof.
  intros Hk.
  destruct (invariant_core
              (fun store => keyed store /\ keeps_files (accounts_of s) store)
              (fun _ => True)) with (unmarshal := unmarshal) (bound := bound) (env := env)
                                    (s := s) (w := w) as (Hc & Hg & Hr); auto.
  - intros account store _ [H1 H2].
    split; [apply keyed_Save, H1 | apply keeps_files_Save, H2].
  - split; [exact Hk | intros accountID H; exact H].
  - split; [exact Hc|]. split; [|exact Hr].
    intros c' r Eg. exact (proj1 (Hg c' r Eg)).
Qed.

Lemma account_files_kept_witness :
  let s := server_with [new_account; second_account] in
  let env := fun _ : nat => example_attempt throttle_erin in
  let after := accounts_of (fst (server.chatCompletions answer_decode (inr plain_request) env s)) in
  keyed after
  /\ is_Some (AccountStore.files after !! "erin@example.com_77aa88bb").
Proof.
  intros s env after.
  destruct (account_files_kept answer_decode (inr plain_request) env s example_world)
    as [[Hk Hf] _]; [apply keyed_server_with|].
  split; [exact Hk|]. apply Hf. vm_compute. eexists. reflexivity.
Defined.

Lemma append_inj (s1 s2 t1 t2 : string) :
  String.length s1 = String.length s2 ->
  s1 +:+ t1 = s2 +:+ t2 -> s1 = s2 /\ t1 = t2.
Proof.
  revert s2. induction s1 as [|c s1 IH]; intros [|c2 s2] Hl; try discriminate.
  - rewrite !append_nil_l. auto.
  - rewrite !append_cons. intros [= -> H]. injection Hl as Hl.
    destruct (IH s2 Hl H) as [-> ->]. auto.
Qed.

Lemma filename_inj today today' accountID accountID' :
  String.length today = String.length today' ->
  UsageStore.filename today accountID = UsageStore.filename today' accountID' ->
  today = today' /\ accountID = accountID'.
Proof.
  unfold UsageStore.filename. intros Hl H.
  apply append_inj in H as [-> H]; [|exact Hl]. split; [reflexivity|].
  rewrite !append_cons, !append_nil_l in H. injection H as H.
  assert (Hlen : String.length accountID = String.length accountID').
  { apply (f_equal String.length) in H. rewrite !length_append in H. lia. }
  apply append_inj in H as [-> _]; [reflexivity | exact Hlen].
Qed.

(** X26. One usage file per day and account: recording usage in a writable
    usage directory adds the input and output tokens, their sum and one
    request to the record of that day and account, keeps total = input +
    output there if it held before, and leaves the record of every other
    account or day (dates being of the same length) as it was. *)
Theorem daily_usage_files today accountID inputTokens outputTokens s :
  UsageStore.read_only s = false ->
  let before := daily today accountID s in
  let out := UsageStore.RecordUsage today accountID inputTokens outputTokens s in
  let after := daily today accountID (fst out) in
  snd out = None
  /\ after
     = UsageRecord.mk (UsageRecord.Date before) (UsageRecord.AccountID before)
         (go.wrap64 (UsageRecord.TotalTokens before + (inputTokens + outputTokens)))
         (go.wrap64 (UsageRecord.InputTokens before + inputTokens))
         (go.wrap64 (UsageRecord.OutputTokens before + outputTokens))
         (go.wrap64 (UsageRecord.RequestCount before + 1))
  /\ (UsageRecord.TotalTokens before
      = go.wrap64 (UsageRecord.InputTokens before + UsageRecord.OutputTokens before) ->
      UsageRecord.TotalTokens after
      = go.wrap64 (UsageRecord.InputTokens after + UsageRecord.OutputTokens after))
  /\ forall today' accountID',
       String.length today' = String.length today ->
       (today', accountID') <> (today, accountID) ->
       UsageStore.files (fst out) !! UsageStore.filename today' accountID'
       = UsageStore.files s !! UsageStore.filename today' accountID'.
Proof.
  intros Hw before out after.
  assert (Hout : out
                 = (UsageStore.mk
                      (<[UsageStore.filename today accountID :=
                           UsageRecord.mk (UsageRecord.Date before)
                             (UsageRecord.AccountID before)
                             (go.wrap64 (UsageRecord.TotalTokens before
                                         + go.wrap64 (inputTokens + outputTokens)))
                             (go.wrap64 (UsageRecord.InputTokens before + inputTokens))
                             (go.wrap64 (UsageRecord.OutputTokens before + outputTokens))
                             (go.wrap64 (UsageRecord.RequestCount before + 1))]>
                         (UsageStore.files s))
                      false, None)).
  { unfold out, UsageStore.RecordUsage, before, daily. rewrite Hw.
    destruct (UsageStore.files s !! _); reflexivity. }
  assert (Hafter : after
                   = UsageRecord.mk (UsageRecord.Date before) (UsageRecord.AccountID before)
                       (go.wrap64 (UsageRecord.TotalTokens before
                                   + (inputTokens + outputTokens)))
                       (go.wrap64 (UsageRecord.InputTokens before + inputTokens))
                       (go.wrap64 (UsageRecord.OutputTokens before + outputTokens))
                       (go.wrap64 (UsageRecord.RequestCount before + 1))).
  { unfold after, daily. rewrite Hout. cbn [fst UsageStore.files].
    rewrite lookup_insert_eq. cbn [default]. rewrite wrap64_add_r. reflexivity. }
  split; [rewrite Hout; reflexivity|]. split; [exact Hafter|]. split.
  - intros Hinv. rewrite Hafter.
    cbn [UsageRecord.TotalTokens UsageRecord.InputTokens UsageRecord.OutputTokens].
    rewrite Hinv, !wrap64_add_l, !wrap64_add_r.
    apply (f_equal go.wrap64). lia.
  - intros today' accountID' Hl Hne. rewrite Hout. cbn [fst UsageStore.files].
    apply lookup_insert_ne. intros Hf. apply filename_inj in Hf as [-> ->]; [|lia].
    apply Hne. reflexivity.
Qed.

Lemma daily_usage_files_witness :
  let s := UsageStore.mk ∅ false in
  let out := UsageStore.RecordUsage "2023-11-14" "alice@example.com_1a2b3c4d" 10 5 s in
  daily "2023-11-14" "alice@example.com_1a2b3c4d" (fst out)
  = UsageRecord.mk "2023-11-14" "alice@example.com_1a2b3c4d" 15 10 5 1
  /\ UsageStore.files (fst out) !! UsageStore.filename "2023-11-15" "alice@example.com_1a2b3c4d"
     = None.
Proof.
  intros s out.
  destruct (daily_usage_files "2023-11-14" "alice@example.com_1a2b3c4d" 10 5 s eq_refl)
    as (_ & Ha & _ & Hs).
  split; [exact Ha|].
  fold out in Hs. rewrite Hs; [reflexivity | reflexivity | discriminate].
Defined.
